(** * code2context: the exclusion filter, the gitignore cache, the directory
    walk and the tree renderer, embedded from the Go sources.

    Layout: models of the Go library functions the program calls
    ([strings], [path/filepath], [go-gitignore], [bufio]) and of the files
    on disk, the program's own packages ([appconfig], [cmd], [filefilter],
    [processor]), then the theorems. *)

From Stdlib Require Import ZArith List String Ascii Bool Lia Sorting.Sorted Permutation.
From stdpp Require Import gmap strings.
Import ListNotations.

Set Warnings "-register-all".

Local Open Scope string_scope.
Local Open Scope Z_scope.

(* ===================================================================== *)
(** ** Go [strings] (byte strings)                                        *)
(* ===================================================================== *)

(** Go strings are byte strings.  Most functions of the package work byte
    by byte; [ToLower] and [TrimSpace] have a branch for strings of ASCII
    bytes and another, by Unicode code points, for the rest.  The model has
    the ASCII branch only: on a string that is not [isASCII] it leaves the
    bytes from 128 on alone, where Go lowers the letters and trims the
    blanks beyond ASCII. *)

Module Strings.

Definition isASCIIByte (c : ascii) : bool := (N_of_ascii c <? 128)%N.

(** Every byte is below [utf8.RuneSelf]. *)
Fixpoint isASCII (s : string) : bool :=
  match s with
  | EmptyString => true
  | String c r => isASCIIByte c && isASCII r
  end.

Definition lowerByte (c : ascii) : ascii :=
  let n := N_of_ascii c in
  if ((65 <=? n) && (n <=? 90))%N then ascii_of_N (n + 32) else c.

(** [strings.ToLower], as it works on ASCII strings *)
Fixpoint ToLower (s : string) : string :=
  match s with
  | EmptyString => EmptyString
  | String c r => String (lowerByte c) (ToLower r)
  end.

(** [strings.HasPrefix s prefix] *)
Definition HasPrefix (s pre : string) : bool := String.prefix pre s.

(** [strings.HasSuffix s suffix] *)
Definition HasSuffix (s suf : string) : bool :=
  let ls := String.length s in
  let lf := String.length suf in
  (lf <=? ls)%nat && String.eqb (String.substring (ls - lf) lf s) suf.

(** [strings.Contains s substr] *)
Fixpoint Contains (s sub : string) : bool :=
  String.prefix sub s ||
  match s with
  | EmptyString => false
  | String _ r => Contains r sub
  end.

(** [strings.Split s sep] for a one-byte separator: never empty. *)
Fixpoint Split (sep : ascii) (s : string) : list string :=
  match s with
  | EmptyString => [EmptyString]
  | String c r =>
      if Ascii.eqb c sep then EmptyString :: Split sep r
      else match Split sep r with
           | h :: t => String c h :: t
           | [] => [String c EmptyString]
           end
  end.

(** [strings.Join elems sep] *)
Fixpoint Join (elems : list string) (sep : string) : string :=
  match elems with
  | [] => EmptyString
  | [x] => x
  | x :: rest => x ++ sep ++ Join rest sep
  end.

Fixpoint trimLeftByte (c : ascii) (s : string) : string :=
  match s with
  | String a r => if Ascii.eqb a c then trimLeftByte c r else s
  | EmptyString => EmptyString
  end.

Fixpoint revString (s acc : string) : string :=
  match s with
  | EmptyString => acc
  | String a r => revString r (String a acc)
  end.

Definition trimRightByte (c : ascii) (s : string) : string :=
  revString (trimLeftByte c (revString s EmptyString)) EmptyString.

(** [strings.Trim s " "] *)
Definition TrimSpaces (s : string) : string :=
  trimRightByte " " (trimLeftByte " " s).

Definition isSpace (c : ascii) : bool :=
  let n := N_of_ascii c in
  ((n =? 32) || ((9 <=? n) && (n <=? 13)))%N.

Fixpoint trimLeftSpace (s : string) : string :=
  match s with
  | String a r => if isSpace a then trimLeftSpace r else s
  | EmptyString => EmptyString
  end.

(** [strings.TrimSpace], as it works on ASCII strings *)
Definition TrimSpace (s : string) : string :=
  revString (trimLeftSpace (revString (trimLeftSpace s) EmptyString)) EmptyString.

(** [s[n:]] *)
Fixpoint drop (n : nat) (s : string) : string :=
  match n, s with
  | S n', String _ r => drop n' r
  | _, _ => s
  end.

End Strings.

(* ===================================================================== *)
(** ** Go [unicode/utf8]                                                  *)
(* ===================================================================== *)

Module Utf8.

Definition RuneError : Z := 65533.

Definition byteOf (c : ascii) : Z := Z.of_N (N_of_ascii c).

(** A continuation byte: 0x80 to 0xBF. *)
Definition continues (b : Z) : bool := (128 <=? b) && (b <=? 191).

(** The bytes that may follow the first byte [b0] of an encoding of more
    than one byte: the table [acceptRanges]. *)
Definition acceptLo (b0 : Z) : Z :=
  if b0 =? 224 then 160 else if b0 =? 240 then 144 else 128.

Definition acceptHi (b0 : Z) : Z :=
  if b0 =? 237 then 159 else if b0 =? 244 then 143 else 191.

(** [utf8.DecodeRuneInString]: the first code point of the string and its
    width in bytes; [(RuneError, 1)] where no encoding begins, and
    [(RuneError, 0)] for the empty string. *)
Definition DecodeRuneInString (s : string) : Z * nat :=
  match s with
  | EmptyString => (RuneError, 0%nat)
  | String c0 r0 =>
      let b0 := byteOf c0 in
      if b0 <? 128 then (b0, 1%nat)
      else if (b0 <? 194) || (244 <? b0) then (RuneError, 1%nat)
      else
        match r0 with
        | EmptyString => (RuneError, 1%nat)
        | String c1 r1 =>
            let b1 := byteOf c1 in
            if (b1 <? acceptLo b0) || (acceptHi b0 <? b1) then (RuneError, 1%nat)
            else if b0 <? 224 then
              (Z.lor (Z.shiftl (Z.land b0 31) 6) (Z.land b1 63), 2%nat)
            else
              match r1 with
              | EmptyString => (RuneError, 1%nat)
              | String c2 r2 =>
                  let b2 := byteOf c2 in
                  if negb (continues b2) then (RuneError, 1%nat)
                  else if b0 <? 240 then
                    (Z.lor (Z.lor (Z.shiftl (Z.land b0 15) 12) (Z.shiftl (Z.land b1 63) 6))
                           (Z.land b2 63), 3%nat)
                  else
                    match r2 with
                    | EmptyString => (RuneError, 1%nat)
                    | String c3 _ =>
                        let b3 := byteOf c3 in
                        if negb (continues b3) then (RuneError, 1%nat)
                        else
                          (Z.lor (Z.lor (Z.lor (Z.shiftl (Z.land b0 7) 18)
                                               (Z.shiftl (Z.land b1 63) 12))
                                        (Z.shiftl (Z.land b2 63) 6))
                                 (Z.land b3 63), 4%nat)
                    end
              end
        end
  end.

End Utf8.

(* ===================================================================== *)
(** ** Go [path/filepath], Unix flavour (separator [/], no volume names)  *)
(* ===================================================================== *)

Module Filepath.

Definition Separator : ascii := "/".

(** [filepath.ToSlash]: the identity where the separator is [/]. *)
Definition ToSlash (p : string) : string := p.

Definition isEmpty (s : string) : bool :=
  match s with EmptyString => true | _ => false end.

Definition rooted (p : string) : bool :=
  match p with String c _ => Ascii.eqb c Separator | EmptyString => false end.

(** One step of the lexical clean-up over path elements; [acc] holds the
    elements kept so far, innermost first. *)
Definition cleanStep (isRooted : bool) (acc : list string) (seg : string) : list string :=
  if isEmpty seg || String.eqb seg "." then acc
  else if String.eqb seg ".." then
    match acc with
    | top :: rest => if String.eqb top ".." then seg :: acc else rest
    | [] => if isRooted then [] else [seg]
    end
  else seg :: acc.

Definition cleanSegments (p : string) : list string :=
  rev (fold_left (cleanStep (rooted p)) (Strings.Split Separator p) []).

(** [filepath.Clean] *)
Definition Clean (p : string) : string :=
  let body := Strings.Join (cleanSegments p) "/" in
  if rooted p then "/" ++ body
  else if isEmpty body then "." else body.

(** [filepath.Join] of two elements: empty elements are ignored. *)
Definition Join (a b : string) : string :=
  if isEmpty a then (if isEmpty b then EmptyString else Clean b)
  else if isEmpty b then Clean a
  else Clean (a ++ "/" ++ b).

Fixpoint dropTrailingEmpty (l : list string) : list string :=
  match l with
  | [] => []
  | x :: r =>
      match dropTrailingEmpty r with
      | [] => if isEmpty x then [] else [x]
      | r' => x :: r'
      end
  end.

(** [filepath.Base] *)
Definition Base (p : string) : string :=
  if isEmpty p then "."
  else match dropTrailingEmpty (Strings.Split Separator p) with
       | [] => "/"
       | x :: r => List.last r x
       end.

(** The part of [s] from its last dot on, or the empty string. *)
Fixpoint fromLastDot (s : string) : string :=
  match s with
  | EmptyString => EmptyString
  | String c r =>
      match fromLastDot r with
      | EmptyString => if Ascii.eqb c "." then s else EmptyString
      | e => e
      end
  end.

(** [filepath.Ext]: the suffix beginning at the final dot of the final
    element of the path. *)
Definition Ext (p : string) : string :=
  fromLastDot (List.last (Strings.Split Separator p) EmptyString).

(** The part of a path up to and including its last separator. *)
Fixpoint uptoLastSeparator (s : string) : string :=
  match s with
  | EmptyString => EmptyString
  | String c r =>
      match uptoLastSeparator r with
      | EmptyString => if Ascii.eqb c Separator then String c EmptyString else EmptyString
      | t => String c t
      end
  end.

(** [filepath.Dir]: all but the last element, cleaned. *)
Definition Dir (p : string) : string := Clean (uptoLastSeparator p).

Fixpoint dropCommon (b t : list string) : list string * list string :=
  match b, t with
  | x :: b', y :: t' => if String.eqb x y then dropCommon b' t' else (b, t)
  | _, _ => (b, t)
  end.

(** [filepath.Rel base targ]: [None] stands for the error result. *)
Definition Rel (base targ : string) : option string :=
  let cb := Clean base in
  let ct := Clean targ in
  if String.eqb cb ct then Some "."
  else if negb (Bool.eqb (rooted cb) (rooted ct)) then None
  else
    let sb := if String.eqb cb "." then [] else cleanSegments cb in
    let st := if String.eqb ct "." then [] else cleanSegments ct in
    let '(rb, rt) := dropCommon sb st in
    match rb with
    | x :: _ =>
        if String.eqb x ".." then None
        else Some (Strings.Join (map (fun _ => "..") rb ++ rt) "/")
    | [] => Some (Strings.Join rt "/")
    end.

(** *** [filepath.Match] (the boolean result; a malformed pattern gives
    [false], as the callers ignore the error)

    [Match] takes the pattern in chunks, each the text up to the next star
    outside a character class.  A chunk consumes the name from the left:
    a plain or escaped byte stands for that byte, [?] for one code point
    that is not the separator, a class for one code point in or out of its
    ranges.  The first chunk must match where the name begins; a chunk
    after a star is tried at every place up to the first separator, and
    the first place where it matches is kept, except for the last chunk,
    which must also consume the name to its end.  A chunk that is
    malformed matches nowhere. *)

(** Neither [?] nor the opening bracket of a character class occurs: the
    pattern is made of stars and of plain or escaped bytes. *)
Fixpoint starOnly (pattern : string) : bool :=
  match pattern with
  | EmptyString => true
  | String c r => negb (Ascii.eqb c "?") && negb (Ascii.eqb c "[") && starOnly r
  end.

Inductive token :=
| TStar
| TQuestion
| TLit (c : ascii)
| TClass (negated : bool) (ranges : list (Z * Z)).

(** [getEsc]: a possibly escaped code point of a character class, and the
    rest, which must not be empty. *)
Definition getEsc (chunk : string) : option (Z * string) :=
  match chunk with
  | EmptyString => None
  | String c r =>
      if Ascii.eqb c "-" || Ascii.eqb c "]" then None
      else
        let body := if Ascii.eqb c "\" then r else chunk in
        match body with
        | EmptyString => None
        | _ =>
            let '(r, n) := Utf8.DecodeRuneInString body in
            if (r =? Utf8.RuneError) && (n =? 1)%nat then None
            else match Strings.drop n body with
                 | EmptyString => None
                 | nchunk => Some (r, nchunk)
                 end
        end
  end.

Fixpoint parseRanges (fuel : nat) (chunk : string) (nrange : nat)
  : option (list (Z * Z) * string) :=
  match fuel with
  | O => None
  | S fuel' =>
      match chunk with
      | String "]" rest =>
          if (0 <? nrange)%nat then Some ([], rest) else None
      | _ =>
          match getEsc chunk with
          | None => None
          | Some (lo, String "-" afterDash) =>
              match getEsc afterDash with
              | None => None
              | Some (hi, rest) =>
                  match parseRanges fuel' rest (S nrange) with
                  | Some (rs, rest') => Some ((lo, hi) :: rs, rest')
                  | None => None
                  end
              end
          | Some (lo, rest) =>
              match parseRanges fuel' rest (S nrange) with
              | Some (rs, rest') => Some ((lo, lo) :: rs, rest')
              | None => None
              end
          end
      end
  end.

Fixpoint parsePattern (fuel : nat) (p : string) : option (list token) :=
  match fuel with
  | O => None
  | S fuel' =>
      match p with
      | EmptyString => Some []
      | String "*" r => option_map (cons TStar) (parsePattern fuel' r)
      | String "?" r => option_map (cons TQuestion) (parsePattern fuel' r)
      | String "\" r =>
          match r with
          | EmptyString => None
          | String c r' => option_map (cons (TLit c)) (parsePattern fuel' r')
          end
      | String "[" r =>
          let '(neg, r1) :=
            match r with
            | String "^" r' => (true, r')
            | _ => (false, r)
            end in
          match parseRanges (S (String.length r1)) r1 0 with
          | Some (rs, rest) =>
              option_map (cons (TClass neg rs)) (parsePattern fuel' rest)
          | None => None
          end
      | String c r => option_map (cons (TLit c)) (parsePattern fuel' r)
      end
  end.

Definition inRange (r : Z) (range : Z * Z) : bool :=
  (fst range <=? r) && (r <=? snd range).

Fixpoint noSeparator (s : string) : bool :=
  match s with
  | EmptyString => true
  | String c r => negb (Ascii.eqb c Separator) && noSeparator r
  end.

(** [matchChunk]: what is left of [s] when the chunk matches where [s]
    begins. *)
Fixpoint matchChunk (chunk : list token) (s : string) : option string :=
  match chunk with
  | [] => Some s
  | t :: chunk' =>
      match s with
      | EmptyString => None
      | String c r =>
          match t with
          | TLit a => if Ascii.eqb a c then matchChunk chunk' r else None
          | TQuestion =>
              if Ascii.eqb c Separator then None
              else matchChunk chunk' (Strings.drop (snd (Utf8.DecodeRuneInString s)) s)
          | TClass negated ranges =>
              let '(rune, n) := Utf8.DecodeRuneInString s in
              if Bool.eqb (existsb (inRange rune) ranges) negated then None
              else matchChunk chunk' (Strings.drop n s)
          | TStar => None
          end
      end
  end.

(** The pieces of a pattern between its stars: the one before the first
    star, and those after each star. *)
Fixpoint splitStars (ts : list token) : list token * list (list token) :=
  match ts with
  | [] => ([], [])
  | TStar :: r => let '(piece, more) := splitStars r in ([], piece :: more)
  | t :: r => let '(piece, more) := splitStars r in (t :: piece, more)
  end.

(** Stars in a row count as one: an empty piece is kept only at the end
    of the pattern. *)
Fixpoint dropEmpty (pieces : list (bool * list token)) : list (bool * list token) :=
  match pieces with
  | [] => []
  | [last] => [last]
  | (star, []) :: rest => dropEmpty rest
  | piece :: rest => piece :: dropEmpty rest
  end.

(** What [scanChunk] returns call after call: each chunk, and whether
    stars stand before it. *)
Definition chunksOf (ts : list token) : list (bool * list token) :=
  let '(piece, more) := splitStars ts in
  dropEmpty ((false, piece) :: map (fun piece' => (true, piece')) more).

Definition isNil {A} (l : list A) : bool :=
  match l with [] => true | _ => false end.

(** The loop that looks for a match of the chunk after skipping [i+1]
    bytes, none of them a separator: [matched t] goes on with the rest of
    the pattern on what is left of the name. *)
Fixpoint skipAndMatch (chunk : list token) (isLast : bool) (matched : string -> bool)
         (name : string) : bool :=
  match name with
  | EmptyString => false
  | String c r =>
      if Ascii.eqb c Separator then false
      else
        match matchChunk chunk r with
        | Some t =>
            if isLast && negb (isEmpty t) then skipAndMatch chunk isLast matched r
            else matched t
        | None => skipAndMatch chunk isLast matched r
        end
  end.

(** The loop of [Match] over the chunks of the pattern. *)
Fixpoint matchChunks (chunks : list (bool * list token)) (name : string) : bool :=
  match chunks with
  | [] => isEmpty name
  | (star, chunk) :: rest =>
      if star && isNil chunk then negb (Strings.Contains name "/")
      else
        match matchChunk chunk name with
        | Some t =>
            if isEmpty t || negb (isNil rest) then matchChunks rest t
            else if star then skipAndMatch chunk (isNil rest) (matchChunks rest) name
            else false
        | None =>
            if star then skipAndMatch chunk (isNil rest) (matchChunks rest) name
            else false
        end
  end.

Definition Match (pattern name : string) : bool :=
  match parsePattern (S (String.length pattern)) pattern with
  | Some ts => matchChunks (chunksOf ts) name
  | None => false
  end.

End Filepath.

(* ===================================================================== *)
(** ** Go errors and [io/fs] values                                       *)
(* ===================================================================== *)

Module Fs.

(** The error values the program tells apart.  [ErrWrapped ctx e] is
    [fmt.Errorf("ctx: %w", e)]. *)
Inductive error :=
| ErrNotExist
| ErrPermission
| SkipDir
| ErrOther (msg : string)
| ErrWrapped (ctx : string) (e : error).

(** [os.IsNotExist]: looks at the error itself, not through [%w]. *)
Definition IsNotExist (e : error) : bool :=
  match e with ErrNotExist => true | _ => false end.

Definition sameSentinel (e target : error) : bool :=
  match e, target with
  | ErrNotExist, ErrNotExist => true
  | ErrPermission, ErrPermission => true
  | SkipDir, SkipDir => true
  | _, _ => false
  end.

(** [errors.Is e target] for a sentinel [target]: follows the wrapping. *)
Fixpoint Is (e target : error) : bool :=
  sameSentinel e target ||
  match e with
  | ErrWrapped _ inner => Is inner target
  | _ => false
  end.

(** [fs.FileMode] is a 32-bit word: type bits on top, permissions below. *)
Definition FileMode := Z.
Definition ModeDir : FileMode := Z.shiftl 1 31.
Definition ModeSymlink : FileMode := Z.shiftl 1 27.
Definition ModePerm : FileMode := 511.
Definition ModeType : FileMode := 2401763328.

Record FileInfo := {
  fi_Name : string;
  fi_Size : Z;
  fi_Mode : FileMode;
  fi_IsDir : bool
}.

Record DirEntry := {
  Name : string;
  IsDir : bool;
  Type_ : FileMode;
  Info : FileInfo + error
}.

End Fs.

(* ===================================================================== *)
(** ** [github.com/sabhiram/go-gitignore], the matcher the program links  *)
(* ===================================================================== *)

(** The library turns each line of a [.gitignore] into a regular expression
    and matches paths against it.  The model keeps the expression as a
    syntax tree and decides matching by derivatives.  Lines are translated
    for the pattern language of plain bytes, [.], [*], [**], [?] and the
    leading [!] and [/]; a byte that the library would hand to the regexp
    compiler as an operator (brackets, parentheses, [+], [|] and the like)
    stands for itself here. *)

Module Gitignore.

Inductive regex :=
| RNone
| REps
| RChr (c : ascii)
| RAny                      (* [.]: any byte but a newline *)
| RNotSlash                 (* [[^/]] *)
| RCat (a b : regex)
| RAlt (a b : regex)
| RStar (a : regex).

Fixpoint nullable (r : regex) : bool :=
  match r with
  | RNone | RChr _ | RAny | RNotSlash => false
  | REps | RStar _ => true
  | RCat a b => nullable a && nullable b
  | RAlt a b => nullable a || nullable b
  end.

Definition mkCat (a b : regex) : regex :=
  match a, b with
  | RNone, _ | _, RNone => RNone
  | REps, _ => b
  | _, REps => a
  | _, _ => RCat a b
  end.

Definition mkAlt (a b : regex) : regex :=
  match a, b with
  | RNone, _ => b
  | _, RNone => a
  | _, _ => RAlt a b
  end.

Fixpoint deriv (c : ascii) (r : regex) : regex :=
  match r with
  | RNone | REps => RNone
  | RChr a => if Ascii.eqb a c then REps else RNone
  | RAny => if Ascii.eqb c "010" then RNone else REps
  | RNotSlash => if Ascii.eqb c "/" then RNone else REps
  | RCat a b =>
      if nullable a then mkAlt (mkCat (deriv c a) b) (deriv c b)
      else mkCat (deriv c a) b
  | RAlt a b => mkAlt (deriv c a) (deriv c b)
  | RStar a => mkCat (deriv c a) (RStar a)
  end.

(** [Regexp.MatchString] for an expression anchored at both ends. *)
Fixpoint MatchString (r : regex) (s : string) : bool :=
  match s with
  | EmptyString => nullable r
  | String c rest => MatchString (deriv c r) rest
  end.

Record IgnorePattern := {
  Pattern : regex;
  Negate : bool;
  LineNo : nat;
  Line : string
}.

(** [GitIgnore]: the patterns of one file, in file order. *)
Definition GitIgnore := list IgnorePattern.

(** A non-nil [*GitIgnore]: the object and the address that tells two
    pointers apart. *)
Record Ref := { addr : nat; target : GitIgnore }.

Definition sameRef (a b : option Ref) : bool :=
  match a, b with
  | None, None => true
  | Some x, Some y => Nat.eqb (addr x) (addr y)
  | _, _ => false
  end.

(** The body of a line, after the marks in front are gone: the
    replacements of [getPatternFromLine], read from left to right. *)
Fixpoint translate (line : string) : regex :=
  match line with
  | EmptyString => REps
  | String "/" (String "*" (String "*" (String "/" r))) =>
      mkCat (RAlt (RChr "/") (RCat (RChr "/") (RCat (RCat RAny (RStar RAny)) (RChr "/"))))
            (translate r)
  | String "*" (String "*" (String "/" r)) =>
      mkCat (RAlt REps (RCat (RStar RAny) (RChr "/"))) (translate r)
  | String "/" (String "*" (String "*" r)) =>
      mkCat (RAlt REps (RCat (RChr "/") (RStar RAny))) (translate r)
  | String "\" (String "*" r) => mkCat (RChr "*") (translate r)
  | String "*" r => mkCat (RStar RNotSlash) (translate r)
  | String c r => mkCat (RChr c) (translate r)
  end.

(** Does the line match [([^\/+])/.*\*\.]: a byte other than [/] and [+],
    a slash, and further on a star followed by a dot? *)
Fixpoint dirThenStarDot (line : string) : bool :=
  match line with
  | String c ((String "/" r) as tl) =>
      (negb (Ascii.eqb c "/") && negb (Ascii.eqb c "+") && Strings.Contains r "*.")
      || dirThenStarDot tl
  | String _ r => dirThenStarDot r
  | EmptyString => false
  end.

Definition stripFirst (s : string) : string :=
  match s with String _ r => r | EmptyString => EmptyString end.

(** [getPatternFromLine]: the expression of a line and whether it negates;
    [None] for comments and blank lines. *)
Definition getPatternFromLine (line : string) : option (regex * bool) :=
  let line := Strings.trimRightByte "013" line in
  if Strings.HasPrefix line "#" then None
  else
    let line := Strings.TrimSpaces line in
    if Filepath.isEmpty line then None
    else
      let negatePattern := Strings.HasPrefix line "!" in
      let line := if negatePattern then stripFirst line else line in
      let line :=
        if Strings.HasPrefix line "#" || Strings.HasPrefix line "!"
        then stripFirst line else line in
      let line :=
        if dirThenStarDot line && negb (Strings.HasPrefix line "/")
        then "/" ++ line else line in
      let line :=
        if Strings.HasPrefix line "/**/" then stripFirst line else line in
      let body := translate line in
      let tail :=
        if Strings.HasSuffix line "/"
        then RAlt REps (RStar RAny)
        else RAlt REps (RCat (RChr "/") (RStar RAny)) in
      let expr :=
        if Strings.HasPrefix line "/" && negb (Strings.HasPrefix line "/**")
        then RCat (RAlt REps (RChr "/"))
                  (RCat (translate (stripFirst line)) tail)
        else RCat (RAlt REps (RCat (RStar RAny) (RChr "/"))) (RCat body tail) in
      Some (expr, negatePattern).

Fixpoint compileFrom (n : nat) (lines : list string) : GitIgnore :=
  match lines with
  | [] => []
  | l :: rest =>
      match getPatternFromLine l with
      | Some (re, neg) =>
          {| Pattern := re; Negate := neg; LineNo := n; Line := l |}
            :: compileFrom (S n) rest
      | None => compileFrom (S n) rest
      end
  end.

(** [CompileIgnoreLines] *)
Definition CompileIgnoreLines (lines : list string) : GitIgnore :=
  compileFrom 1 lines.

(** [CompileIgnoreFile], given what reading the file returned. *)
Definition CompileIgnoreFile (read : string + Fs.error) : GitIgnore + Fs.error :=
  match read with
  | inl content => inl (CompileIgnoreLines (Strings.Split "010" content))
  | inr e => inr e
  end.

(** [MatchesPath]: the last pattern that matches decides, and a negating
    one can only take back a match of the same file. *)
Definition matchStep (f : string) (matchesPath : bool) (ip : IgnorePattern) : bool :=
  if MatchString (Pattern ip) f then
    if negb (Negate ip) then true
    else if matchesPath then false
    else matchesPath
  else matchesPath.

Definition MatchesPath (gi : GitIgnore) (f : string) : bool :=
  fold_left (matchStep (Filepath.ToSlash f)) gi false.

End Gitignore.

(* ===================================================================== *)
(** ** Package [appconfig]: the default lists                             *)
(* ===================================================================== *)

Module Appconfig.

Definition GetDefaultExcludedDirs : list string :=
  [ ".git"; ".hg"; ".svn";
    ".idea"; ".vscode"; ".vs"; ".project"; ".settings"; ".classpath";
    ".metals"; ".bsp"; ".bloop";
    "node_modules"; "vendor"; "target"; "build"; "dist"; "out"; "bin"; "obj";
    "__pycache__"; ".pytest_cache"; ".mypy_cache"; ".tox"; ".venv"; "venv";
    "ENV"; "env";
    ".next"; ".nuxt"; ".svelte-kit"; ".output";
    ".wrangler"; ".serverless";
    ".terraform";
    ".DS_Store"; "Thumbs.db";
    ".cache";
    ".ipynb_checkpoints";
    "_build"; "deps"; "_rel"; "ebin" ].

Definition GetDefaultMediaExtensions : list string :=
  [ ".jpg"; ".jpeg"; ".png"; ".gif"; ".bmp"; ".tiff"; ".webp"; ".svg"; ".ico";
    ".mp3"; ".wav"; ".ogg"; ".aac"; ".flac"; ".m4a";
    ".mp4"; ".avi"; ".mov"; ".wmv"; ".mkv"; ".flv"; ".webm";
    ".pdf"; ".doc"; ".docx"; ".xls"; ".xlsx"; ".ppt"; ".pptx";
    ".odt"; ".ods"; ".odp";
    ".ttf"; ".otf"; ".woff"; ".woff2"; ".eot";
    ".psd"; ".ai"; ".eps"; ".sketch"; ".fig" ].

Definition GetDefaultArchiveExtensions : list string :=
  [ ".zip"; ".tar"; ".gz"; ".bz2"; ".xz"; ".rar"; ".7z";
    ".jar"; ".war"; ".ear"; ".apk"; ".img"; ".iso"; ".dmg"; ".pkg";
    ".deb"; ".rpm"; ".AppImage" ].

Definition GetDefaultExecutableExtensions : list string :=
  [ ".exe"; ".com"; ".bat"; ".cmd"; ".ps1"; ".vbs"; ".msi";
    ".pyc"; ".pyo"; ".class"; ".dll"; ".so"; ".dylib"; ".o"; ".obj"; ".lib"; ".a";
    ".elf" ].

Definition GetDefaultLockfilePatterns : list string :=
  [ "go.sum"; "package-lock.json"; "yarn.lock"; "composer.lock"; "Gemfile.lock";
    "Pipfile.lock"; "poetry.lock"; "Cargo.lock"; "*.gradle.lockfile"; "Podfile.lock";
    "pubspec.lock"; "mix.lock"; "npm-shrinkwrap.json"; "pnpm-lock.yaml";
    "requirements.txt"; "constraints.txt";
    "terraform.lock.hcl" ].

Definition GetDefaultMiscellaneousFileNames : list string :=
  [ "LICENSE"; "COPYING"; "NOTICE"; "AUTHORS"; "CHANGELOG"; "CONTRIBUTING"; "MANIFEST" ].

Definition GetDefaultMiscellaneousExtensions : list string :=
  [ ".log"; ".tmp"; ".bak"; ".swp"; ".swo"; ".orig"; ".rej";
    ".patch"; ".diff"; ".sql";
    ".gitignore"; ".dockerignore"; ".npmignore"; ".eslintignore"; ".prettierignore";
    ".editorconfig"; ".gitattributes"; ".gitmodules";
    ".prettierrc"; ".stylelintrc"; ".eslintrc"; ".babelrc" ].

Definition aux : list string :=
  [ ".json"; ".jsonc"; ".json5"; ".xml"; ".toml";
    ".yml"; ".yaml";
    ".ini"; ".cfg"; ".conf"; ".properties"; ".env";
    ".csv"; ".tsv";
    ".md"; ".markdown"; ".rst"; ".adoc"; ".tex";
    ".txt"; ".text";
    ".log";
    ".editorconfig"; ".gitattributes"; ".gitmodules";
    ".prettierrc"; ".stylelintrc"; ".eslintrc"; ".babelrc";
    ".eslintignore"; ".prettierignore"; ".dockerignore";
    "LICENSE"; "README"; "COPYING"; "NOTICE"; "AUTHORS"; "CHANGELOG";
    "CONTRIBUTING"; "MANIFEST" ].

Definition normalizeAux (item : string) : string :=
  if Strings.Contains item "." && negb (Strings.HasPrefix item "*") then
    if negb (Strings.HasPrefix item ".") then "." ++ Strings.ToLower item
    else Strings.ToLower item
  else item.

Definition GetDefaultAuxFileExtensions : list string := map normalizeAux aux.

End Appconfig.

(* ===================================================================== *)
(** ** Package [cmd]: how the command line becomes the user's lists       *)
(* ===================================================================== *)

Module Cmd.

(** The loop of [RunE] over [--exclude-dirs]. *)
Definition excludeDirsOf (excludeDirsRaw : string) : list string :=
  if Filepath.isEmpty excludeDirsRaw then []
  else map Strings.TrimSpace (Strings.Split "," excludeDirsRaw).

Definition normalizeExt (ext : string) : string :=
  let trimmedExt := Strings.TrimSpace ext in
  if negb (Strings.HasPrefix trimmedExt ".") && negb (Filepath.isEmpty trimmedExt)
  then "." ++ trimmedExt
  else trimmedExt.

(** The loop of [RunE] over [--exclude-exts]. *)
Definition excludeExtsOf (excludeExtsRaw : string) : list string :=
  if Filepath.isEmpty excludeExtsRaw then []
  else map normalizeExt (Strings.Split "," excludeExtsRaw).

(** The loop of [RunE] over [--exclude-patterns]. *)
Definition excludeGlobsOf (excludeGlobsRaw : string) : list string :=
  if Filepath.isEmpty excludeGlobsRaw then []
  else map Strings.TrimSpace (Strings.Split "," excludeGlobsRaw).

End Cmd.

(* ===================================================================== *)
(** ** Package [filefilter]                                               *)
(* ===================================================================== *)

Module Filefilter.

Import Fs.

Record FilterConfig := {
  MaxFileSize : Z;
  UserExcludeDirs : list string;
  UserExcludeExts : list string;
  UserExcludeGlobs : list string;
  SkipAuxFiles : bool;
  DefaultExcludeDirs : list string;
  DefaultMediaExts : list string;
  DefaultArchiveExts : list string;
  DefaultExecExts : list string;
  DefaultLockfilePatterns : list string;
  DefaultMiscellaneousFileNames : list string;
  DefaultMiscellaneousExtensions : list string;
  DefaultAuxExts : list string;
  FinalOutputFilePath : string
}.

Record FileFilter := {
  config : FilterConfig;
  basePath : string;
  absFinalOutputFilePath : string
}.

(** [NewFileFilter], for paths that are absolute already, which is what
    the processor passes: [filepath.Abs] then only cleans them. *)
Definition NewFileFilter (basePath : string) (config : FilterConfig) : FileFilter :=
  {| config := config;
     basePath := Filepath.Clean basePath;
     absFinalOutputFilePath :=
       if Filepath.isEmpty (FinalOutputFilePath config) then EmptyString
       else Filepath.Clean (FinalOutputFilePath config) |}.

Definition GetAbsFinalOutputFilePath (ff : FileFilter) : string :=
  absFinalOutputFilePath ff.

Definition metaNames : list string :=
  [ "README"; "LICENSE"; "COPYING"; "NOTICE"; "AUTHORS"; "CHANGELOG";
    "CONTRIBUTING"; "MANIFEST" ].

(** One round of the loop over [DefaultAuxExts]. *)
Definition auxMatches (fileExt baseName : string) (auxPattern : string) : bool :=
  if Strings.HasPrefix auxPattern "." then String.eqb fileExt auxPattern
  else if Strings.Contains auxPattern "*" || Strings.Contains auxPattern "?" then
    Filepath.Match auxPattern baseName
  else
    String.eqb (Strings.ToLower baseName) (Strings.ToLower auxPattern)
    || (Strings.HasPrefix (Strings.ToLower baseName) (Strings.ToLower auxPattern)
        && existsb (String.eqb auxPattern) metaNames).

(** One round of the loop over [UserExcludeExts]. *)
Definition userExtMatches (fileExt : string) (excludedExt : string) : bool :=
  negb (String.eqb excludedExt "") && String.eqb fileExt excludedExt.

(** One round of the loop over [UserExcludeGlobs]. *)
Definition userGlobMatches (relPath baseName : string) (pattern : string) : bool :=
  if String.eqb pattern "" then false
  else Filepath.Match pattern relPath || Filepath.Match pattern baseName.

(** One round of the loop over the active matchers. *)
Definition matcherHits (absPath : string) (matcher : option Gitignore.Ref) : bool :=
  match matcher with
  | Some m => Gitignore.MatchesPath (Gitignore.target m) absPath
  | None => false
  end.

Section WithPlatform.

(** [runtime.GOOS] *)
Variable GOOS : string.

Definition posixExecutable (info : FileInfo) : bool :=
  negb (String.eqb GOOS "windows") && negb (Z.land (fi_Mode info) 73 =? 0).

(** The rules for regular files that come after the size rule. *)
Definition excludedByKind (cfg : FilterConfig) (info : FileInfo)
           (absPath relPath baseName : string) : bool :=
  let fileExt := Strings.ToLower (Filepath.Ext absPath) in
  if existsb (userExtMatches fileExt) (UserExcludeExts cfg) then true
  else if existsb (userGlobMatches relPath baseName) (UserExcludeGlobs cfg) then true
  else if posixExecutable info then true
  else if existsb (String.eqb fileExt) (DefaultExecExts cfg) then true
  else if String.eqb fileExt "" && posixExecutable info then true
  else if existsb (String.eqb fileExt) (DefaultMediaExts cfg) then true
  else if existsb (String.eqb fileExt) (DefaultArchiveExts cfg) then true
  else if existsb (fun lockPattern => Filepath.Match lockPattern baseName)
                  (DefaultLockfilePatterns cfg) then true
  else if existsb (String.eqb fileExt) (DefaultMiscellaneousExtensions cfg) then true
  else if existsb (String.eqb baseName) (DefaultMiscellaneousFileNames cfg) then true
  else if SkipAuxFiles cfg then existsb (auxMatches fileExt baseName) (DefaultAuxExts cfg)
  else false.

(** [FileFilter.IsExcluded]: the verdict and the error, [None] for nil. *)
Definition IsExcluded (ff : FileFilter) (absPath : string) (d : DirEntry)
           (activeGitIgnores : list (option Gitignore.Ref)) : bool * option error :=
  let cfg := config ff in
  if negb (String.eqb (absFinalOutputFilePath ff) "")
     && String.eqb absPath (absFinalOutputFilePath ff)
  then (true, None)
  else
    match Info d with
    | inr err =>
        if negb (Z.land (Type_ d) ModeSymlink =? 0) && IsNotExist err
        then (true, None)
        else (false,
              Some (ErrWrapped ("filter: could not get file info for '" ++ absPath ++ "'") err))
    | inl info =>
        let relPath :=
          Filepath.ToSlash
            (match Filepath.Rel (basePath ff) absPath with
             | Some r => r
             | None => Filepath.Base absPath
             end) in
        let baseName := Filepath.Base absPath in
        if negb (Z.land (fi_Mode info) ModeSymlink =? 0) then (true, None)
        else if fi_IsDir info
                && existsb (String.eqb baseName)
                           (DefaultExcludeDirs cfg ++ UserExcludeDirs cfg)%list
        then (true, Some SkipDir)
        else if existsb (matcherHits absPath) (rev activeGitIgnores)
        then (if fi_IsDir info then (true, Some SkipDir) else (true, None))
        else if fi_IsDir info then (false, None)
        else if (0 <? MaxFileSize cfg) && (MaxFileSize cfg <? fi_Size info)
        then (true, None)
        else (excludedByKind cfg info absPath relPath baseName, None)
    end.

End WithPlatform.

End Filefilter.

(* ===================================================================== *)
(** ** The files on disk                                                  *)
(* ===================================================================== *)

(** A directory tree as the program finds it.  Sizes are the lengths of the
    contents; a symbolic link carries no target, and following one fails as
    for a dangling link; a directory that is not [readable] has mode 0000.
    The program runs as the owner of every entry and not as the superuser:
    a file opens for reading when its owner may read it. *)

Module Disk.

Import Fs.

Inductive node :=
| File (name : string) (perm : Z) (content : string)
| Symlink (name : string)
| Directory (name : string) (readable : bool) (entries : list node).

Definition nodeName (n : node) : string :=
  match n with
  | File nm _ _ | Symlink nm | Directory nm _ _ => nm
  end.

Definition isDirectory (n : node) : bool :=
  match n with Directory _ _ _ => true | _ => false end.

(** What [Lstat] reports for a node. *)
Definition infoOf (n : node) : FileInfo :=
  match n with
  | File nm perm content =>
      {| fi_Name := nm; fi_Size := Z.of_nat (String.length content);
         fi_Mode := Z.land perm ModePerm; fi_IsDir := false |}
  | Symlink nm =>
      {| fi_Name := nm; fi_Size := 0;
         fi_Mode := Z.lor ModeSymlink ModePerm; fi_IsDir := false |}
  | Directory nm readable _ =>
      {| fi_Name := nm; fi_Size := 4096;
         fi_Mode := Z.lor ModeDir (if readable then 493 else 0); fi_IsDir := true |}
  end.

(** The [fs.DirEntry] that [os.ReadDir] and [filepath.WalkDir] hand out. *)
Definition entryOf (n : node) : DirEntry :=
  {| Name := nodeName n;
     IsDir := isDirectory n;
     Type_ := Z.land (fi_Mode (infoOf n)) ModeType;
     Info := inl (infoOf n) |}.

(** The tree rooted at [rootPath], an absolute clean path. *)
Record disk := { rootPath : string; root : node }.

Definition child (entries : list node) (nm : string) : option node :=
  List.find (fun n => String.eqb (nodeName n) nm) entries.

(** Walks down from [n] along the path elements; an error when an element
    is missing or a directory on the way cannot be searched. *)
Fixpoint descend (n : node) (segs : list string) : node + error :=
  match segs with
  | [] => inl n
  | s :: rest =>
      match n with
      | Directory _ readable entries =>
          if negb readable then inr ErrPermission
          else match child entries s with
               | Some c => descend c rest
               | None => inr ErrNotExist
               end
      | _ => inr (ErrOther "not a directory")
      end
  end.

(** The entry at [path]; nothing is known of what lies outside the
    tree. *)
Definition lookup (dk : disk) (path : string) : node + error :=
  match Filepath.Rel (rootPath dk) path with
  | Some rel =>
      if String.eqb rel "." then inl (root dk)
      else if String.eqb rel ".." || Strings.HasPrefix rel "../" then inr ErrNotExist
      else descend (root dk) (Strings.Split "/" rel)
  | None => inr ErrNotExist
  end.

(** [os.Stat]: [None] when it succeeds. *)
Definition Stat (dk : disk) (path : string) : option error :=
  match lookup dk path with
  | inl (Symlink _) => Some ErrNotExist
  | inl _ => None
  | inr e => Some e
  end.

(** The owner's read bit, 0400. *)
Definition ownerCanRead (perm : Z) : bool := negb (Z.land perm 256 =? 0).

(** [os.Open]: the entry that was opened, or the error of the call. *)
Definition Open (dk : disk) (path : string) : node + error :=
  match lookup dk path with
  | inl (File nm perm content) =>
      if ownerCanRead perm then inl (File nm perm content) else inr ErrPermission
  | inl (Symlink _) => inr ErrNotExist
  | inl (Directory nm readable entries) =>
      if readable then inl (Directory nm readable entries) else inr ErrPermission
  | inr e => inr e
  end.

(** Reading an open entry to its end: the bytes of a file; an open
    directory cannot be read. *)
Definition readAll (n : node) : string + error :=
  match n with
  | File _ _ content => inl content
  | _ => inr (ErrOther "is a directory")
  end.

(** [os.ReadFile] *)
Definition ReadFile (dk : disk) (path : string) : string + error :=
  match Open dk path with
  | inl n => readAll n
  | inr e => inr e
  end.

(** The text of an error of the operating system. *)
Fixpoint errnoText (e : error) : string :=
  match e with
  | ErrNotExist => "no such file or directory"
  | ErrPermission => "permission denied"
  | SkipDir => "skip this directory"
  | ErrOther msg => msg
  | ErrWrapped ctx inner => ctx ++ ": " ++ errnoText inner
  end.

(** What [%v] prints for the [*fs.PathError] of the call [op] on [path]. *)
Definition pathErrorText (op path : string) (e : error) : string :=
  op ++ " " ++ path ++ ": " ++ errnoText e.

(** Every name below [n] is made of ASCII bytes. *)
Fixpoint asciiBelow (n : node) : bool :=
  match n with
  | Directory _ _ entries =>
      forallb (fun c => Strings.isASCII (nodeName c) && asciiBelow c) entries
  | _ => true
  end.

End Disk.

(* ===================================================================== *)
(** ** Go [bufio]: a [Scanner] with the default split function            *)
(* ===================================================================== *)

Module Bufio.

(** [bufio.MaxScanTokenSize]: the buffer of a [Scanner] grows up to this
    size, and a line must fit into it together with the byte that ends
    it. *)
Definition MaxScanTokenSize : Z := 65536.

(** [dropCR]: a line loses one carriage return at its end. *)
Fixpoint dropCR (data : string) : string :=
  match data with
  | EmptyString => EmptyString
  | String c EmptyString => if Ascii.eqb c "013" then EmptyString else data
  | String c r => String c (dropCR r)
  end.

(** The bytes of a line, without the newline that ends it, do not fit
    into the buffer. *)
Definition tooLong (piece : string) : bool :=
  MaxScanTokenSize <=? Z.of_nat (String.length piece).

(** The loop [for scanner.Scan()] over the pieces between the newlines of
    the input, the last piece being what follows the last newline, a line
    only if it is not empty: the texts [scanner.Text()] returns in turn,
    and whether [scanner.Err()] is [ErrTooLong] afterwards. *)
Fixpoint scanPieces (pieces : list string) : list string * bool :=
  match pieces with
  | [] => ([], false)
  | [rest] =>
      if Filepath.isEmpty rest then ([], false)
      else if tooLong rest then ([], true)
      else ([dropCR rest], false)
  | line :: pieces' =>
      if tooLong line then ([], true)
      else let '(texts, failed) := scanPieces pieces' in (dropCR line :: texts, failed)
  end.

(** A [Scanner] run to its end over the bytes [data]. *)
Definition scanLines (data : string) : list string * bool :=
  scanPieces (Strings.Split "010" data).

End Bufio.

(** What [compileAndCacheGitIgnore] needs of the file system. *)
Record FileSystem := {
  fsStat : string -> option Fs.error;
  fsReadFile : string -> string + Fs.error
}.

Definition fileSystemOf (dk : Disk.disk) : FileSystem :=
  {| fsStat := Disk.Stat dk; fsReadFile := Disk.ReadFile dk |}.

(** Sorting as the Go library does it, up to the order of elements that
    compare equal: insertion by a "less" function, earlier elements first
    among equals. *)
Section Sorting.
Context {A : Type} (less : A -> A -> bool).

Fixpoint insertBy (x : A) (l : list A) : list A :=
  match l with
  | [] => [x]
  | y :: r => if less y x then y :: insertBy x r else x :: l
  end.

Definition sortBy (l : list A) : list A := fold_right insertBy [] l.
End Sorting.

(* ===================================================================== *)
(** ** Package [processor]: the cache, the walk and the tree              *)
(* ===================================================================== *)

Module Processor.

Import Fs.

(** A call the cache makes on the file system. *)
Inductive ioEvent :=
| EvStat (path : string)
| EvReadFile (path : string).

(** The part of the [Processor] that changes while it runs: the cache
    (a Go map whose values may be nil), the next free address for a
    compiled matcher, and the file system calls made so far, latest
    first. *)
Record state := {
  gitIgnoreCache : gmap string (option Gitignore.Ref);
  nextAddr : nat;
  ioLog : list ioEvent
}.

Definition initialState : state :=
  {| gitIgnoreCache := ∅; nextAddr := 0; ioLog := [] |}.

(** [Processor.compileAndCacheGitIgnore]: the matcher (or nil), the error
    (always nil) and the state afterwards. *)
Definition compileAndCacheGitIgnore (fs : FileSystem) (dirPath : string) (st : state)
  : (option Gitignore.Ref * option error) * state :=
  let gitIgnorePath := Filepath.Join dirPath ".gitignore" in
  match gitIgnoreCache st !! gitIgnorePath with
  | Some matcher => ((matcher, None), st)
  | None =>
      match fsStat fs gitIgnorePath with
      | None =>
          match Gitignore.CompileIgnoreFile (fsReadFile fs gitIgnorePath) with
          | inr compileErr =>
              ((None, None),
               {| gitIgnoreCache := <[gitIgnorePath := None]> (gitIgnoreCache st);
                  nextAddr := nextAddr st;
                  ioLog := EvReadFile gitIgnorePath :: EvStat gitIgnorePath :: ioLog st |})
          | inl gi =>
              let matcher := Some {| Gitignore.addr := nextAddr st; Gitignore.target := gi |} in
              ((matcher, None),
               {| gitIgnoreCache := <[gitIgnorePath := matcher]> (gitIgnoreCache st);
                  nextAddr := S (nextAddr st);
                  ioLog := EvReadFile gitIgnorePath :: EvStat gitIgnorePath :: ioLog st |})
          end
      | Some statErr =>
          ((None, None),
           {| gitIgnoreCache := <[gitIgnorePath := None]> (gitIgnoreCache st);
              nextAddr := nextAddr st;
              ioLog := EvStat gitIgnorePath :: ioLog st |})
      end
  end.

(** The [Config] fields that reach the filter and the walk. *)
Record Config := {
  IncludeTree : bool;
  SkipAuxFiles : bool;
  UserExcludeDirs : list string;
  UserExcludeExts : list string;
  UserExcludeGlobs : list string;
  MaxFileSize : Z;
  DefaultExcludeDirs : list string;
  DefaultMediaExts : list string;
  DefaultArchiveExts : list string;
  DefaultExecExts : list string;
  DefaultLockfilePatterns : list string;
  DefaultMiscellaneousFileNames : list string;
  DefaultMiscellaneousExtensions : list string;
  DefaultAuxExts : list string
}.

Record Processor := {
  config : Config;
  filter : Filefilter.FileFilter;
  basePath : string;
  finalOutputFile : string
}.

(** [determineOutputFileAndInitFilter], once the absolute path of the
    output file is known. *)
Definition determineOutputFileAndInitFilter (cfg : Config) (basePath absOutputFilePath : string)
  : Processor :=
  let ffConfig :=
    {| Filefilter.MaxFileSize := MaxFileSize cfg;
       Filefilter.UserExcludeDirs := UserExcludeDirs cfg;
       Filefilter.UserExcludeExts := UserExcludeExts cfg;
       Filefilter.UserExcludeGlobs := UserExcludeGlobs cfg;
       Filefilter.SkipAuxFiles := SkipAuxFiles cfg;
       Filefilter.DefaultExcludeDirs := DefaultExcludeDirs cfg;
       Filefilter.DefaultMediaExts := DefaultMediaExts cfg;
       Filefilter.DefaultArchiveExts := DefaultArchiveExts cfg;
       Filefilter.DefaultExecExts := DefaultExecExts cfg;
       Filefilter.DefaultLockfilePatterns := DefaultLockfilePatterns cfg;
       Filefilter.DefaultMiscellaneousFileNames := DefaultMiscellaneousFileNames cfg;
       Filefilter.DefaultMiscellaneousExtensions := DefaultMiscellaneousExtensions cfg;
       Filefilter.DefaultAuxExts := DefaultAuxExts cfg;
       Filefilter.FinalOutputFilePath := absOutputFilePath |} in
  {| config := cfg;
     filter := Filefilter.NewFileFilter basePath ffConfig;
     basePath := basePath;
     finalOutputFile := absOutputFilePath |}.

(** One fenced block of the output: the file it was read from, the path
    in its header and its text. *)
Record block := { source : string; header : string; body : string }.

Definition newline : string := String "010" EmptyString.

(** The notes [Process] writes in place of a text it could not read. *)
Definition openNote (relPath text : string) : string :=
  "// Error reading file '" ++ relPath ++ "': " ++ text ++ newline.

Definition scanNote (relPath text : string) : string :=
  "// Error scanning file '" ++ relPath ++ "': " ++ text ++ newline.

(** The loop that writes [scanner.Text() + newline]. *)
Fixpoint writeLines (texts : list string) : string :=
  match texts with
  | [] => EmptyString
  | text :: rest => text ++ newline ++ writeLines rest
  end.

(** What [Process] writes for a file it could open: the lines, and the
    note if the scanner gave up on a line too long for it. *)
Definition copied (relPath : string) (scanned : list string * bool) : string :=
  writeLines (fst scanned)
  ++ (if snd scanned then scanNote relPath "bufio.Scanner: token too long"
      else EmptyString).

(** *** The tree *)

Definition treePrefixEntry : string := "├── ".
Definition treePrefixLast : string := "└── ".
Definition treePrefixContinue : string := "│   ".
Definition treePrefixEmpty : string := "    ".

Inductive treeNode := TreeNode (name : string) (isDir : bool) (children : list treeNode).

Definition tnName (t : treeNode) : string := match t with TreeNode n _ _ => n end.
Definition tnIsDir (t : treeNode) : bool := match t with TreeNode _ d _ => d end.
Definition tnChildren (t : treeNode) : list treeNode := match t with TreeNode _ _ c => c end.

(** The "less" of [sort.Slice] in [buildNodeRecursive]. *)
Definition entryLess (a b : DirEntry) : bool :=
  if negb (Bool.eqb (IsDir a) (IsDir b)) then IsDir a
  else String.ltb (Strings.ToLower (Name a)) (Strings.ToLower (Name b)).

(** The order in which [os.ReadDir] returns entries: by file name. *)
Definition nameLess (a b : DirEntry) : bool := String.ltb (Name a) (Name b).

Definition isEmptyList {A} (l : list A) : bool :=
  match l with [] => true | _ => false end.

(** A loop over a slice whose body knows whether it is at the last
    index ([i == len(children)-1]); the pieces written are concatenated. *)
Fixpoint eachWithLast {A} (f : bool -> A -> string) (l : list A) : string :=
  match l with
  | [] => EmptyString
  | x :: rest => f (isEmptyList rest) x ++ eachWithLast f rest
  end.

(** The body of the loop of [writeNodeRecursive] for one child. *)
Fixpoint writeChild (pre : string) (isLast : bool) (child : treeNode) : string :=
  match child with
  | TreeNode name isDir grand =>
      let connector := if isLast then treePrefixLast else treePrefixEntry in
      let nextPrefixElement := if isLast then treePrefixEmpty else treePrefixContinue in
      pre ++ connector ++ name ++ "
" ++ (if isDir && (0 <? length grand)%nat
    then eachWithLast (writeChild (pre ++ nextPrefixElement)) grand
    else EmptyString)
  end.

(** [TreeBuilder.writeNodeRecursive] *)
Definition writeNodeRecursive (children : list treeNode) (pre : string) : string :=
  eachWithLast (writeChild pre) children.

Section Run.

Variable GOOS : string.
Variable p : Processor.
Variable dk : Disk.disk.

Definition compile : string -> state -> (option Gitignore.Ref * option error) * state :=
  compileAndCacheGitIgnore (fileSystemOf dk).

(** The stack [buildNodeRecursive] uses for the entries of a directory:
    the parent's, with the directory's own matcher added unless it is
    nil or already the last one. *)
Definition extendActive (parentActiveIgnores : list (option Gitignore.Ref))
           (currentDirGitIgnore : option Gitignore.Ref) : list (option Gitignore.Ref) :=
  match currentDirGitIgnore with
  | None => parentActiveIgnores
  | Some _ =>
      let isNewMatcher :=
        negb ((0 <? length parentActiveIgnores)%nat
              && Gitignore.sameRef (List.last parentActiveIgnores None) currentDirGitIgnore) in
      if isNewMatcher then (parentActiveIgnores ++ [currentDirGitIgnore])%list
      else parentActiveIgnores
  end.

(** The loop over the sorted entries in [buildNodeRecursive]; each entry
    comes with the builder for its own subtree. *)
Fixpoint buildEntries
         (currentDirPath : string) (currentActiveIgnores : list (option Gitignore.Ref))
         (entries : list (DirEntry *
                          (string -> list (option Gitignore.Ref) -> state -> state * list treeNode)))
         (st : state) : state * list treeNode :=
  match entries with
  | [] => (st, [])
  | (entry, recurse) :: rest =>
      let entryAbsPath := Filepath.Join currentDirPath (Name entry) in
      match Filefilter.IsExcluded GOOS (filter p) entryAbsPath entry currentActiveIgnores with
      | (_, Some _) => buildEntries currentDirPath currentActiveIgnores rest st
      | (true, None) => buildEntries currentDirPath currentActiveIgnores rest st
      | (false, None) =>
          let '(st1, grand) :=
            if IsDir entry then recurse entryAbsPath currentActiveIgnores st
            else (st, []) in
          let '(st2, siblings) :=
            buildEntries currentDirPath currentActiveIgnores rest st1 in
          (st2, TreeNode (Name entry) (IsDir entry) grand :: siblings)
      end
  end.

(** [TreeBuilder.buildNodeRecursive] for the directory [n] found at
    [currentDirPath]: the children it appends to the parent node. *)
Fixpoint buildNodeRecursive (n : Disk.node) (currentDirPath : string)
         (parentActiveIgnores : list (option Gitignore.Ref)) (st : state)
  : state * list treeNode :=
  match n with
  | Disk.Directory _ true entries =>
      let listed :=
        sortBy (fun a b => entryLess (fst a) (fst b))
          (sortBy (fun a b => nameLess (fst a) (fst b))
             (map (fun c => (Disk.entryOf c, buildNodeRecursive c)) entries)) in
      let '((currentDirGitIgnore, _), st1) := compile currentDirPath st in
      buildEntries currentDirPath
                   (extendActive parentActiveIgnores currentDirGitIgnore) listed st1
  | _ => (st, [])
  end.

(** [TreeBuilder.BuildTreeString]: the root node and the text. *)
Definition buildTree (st : state) : state * treeNode :=
  let absBasePath := Filepath.Clean (basePath p) in
  let rootNodeName := Filepath.Base absBasePath in
  let '((rootGitIgnore, _), st1) := compile absBasePath st in
  let initialGitIgnores :=
    match rootGitIgnore with Some _ => [rootGitIgnore] | None => [] end in
  let '(st2, children) :=
    buildNodeRecursive (Disk.root dk) absBasePath initialGitIgnores st1 in
  (st2, TreeNode rootNodeName true children).

Definition treeString (rootNode : treeNode) : string :=
  tnName rootNode ++ "
" ++ writeNodeRecursive (tnChildren rootNode) EmptyString.

Definition BuildTreeString (st : state) : state * string :=
  let '(st1, rootNode) := buildTree st in (st1, treeString rootNode).

(** *** The walk *)

(** The loop of the callback that collects the matchers from the
    current directory up to the base path, deepest first. *)
Fixpoint collectMatchers (fuel : nat) (currentDir : string)
         (pathStack : list (option Gitignore.Ref)) (st : state)
  : list (option Gitignore.Ref) * state :=
  match fuel with
  | O => (pathStack, st)
  | S fuel' =>
      if Strings.HasPrefix currentDir (basePath p) && negb (String.eqb currentDir "")
      then
        let '((matcher, _), st1) := compile currentDir st in
        let pathStack1 :=
          match matcher with
          | Some _ => (pathStack ++ [matcher])%list
          | None => pathStack
          end in
        if String.eqb currentDir (basePath p) then (pathStack1, st1)
        else
          let parentDir := Filepath.Dir currentDir in
          if String.eqb parentDir currentDir then (pathStack1, st1)
          else collectMatchers fuel' parentDir pathStack1 st1
      else (pathStack, st)
  end.

(** The text between the fences: the lines of the file, each followed
    by a newline, and the note on the error that ended the scan; or the
    note on the error of [os.Open]. *)
Definition blockBody (absCurrentPath relPath : string) : string :=
  match Disk.Open dk absCurrentPath with
  | inr openErr =>
      openNote relPath (Disk.pathErrorText "open" absCurrentPath openErr)
  | inl file =>
      match Disk.readAll file with
      | inr readErr =>
          scanNote relPath (Disk.pathErrorText "read" absCurrentPath readErr)
      | inl data => copied relPath (Bufio.scanLines data)
      end
  end.

(** The function [Process] passes to [filepath.WalkDir]: what it
    returns ([None] for nil), the state and the blocks written. *)
Definition visit (currentPath : string) (d : DirEntry) (walkPathErr : option error)
           (st : state) : option error * state * list block :=
  match walkPathErr with
  | Some e =>
      if IsDir d && Is e ErrPermission then (Some SkipDir, st, [])
      else (None, st, [])
  | None =>
      let absCurrentPath := currentPath in
      let currentDir :=
        if negb (IsDir d) then Filepath.Dir absCurrentPath else absCurrentPath in
      let '(pathStack, st1) :=
        collectMatchers (2 + String.length currentDir) currentDir [] st in
      let currentActiveIgnores := rev pathStack in
      match Filefilter.IsExcluded GOOS (filter p) absCurrentPath d currentActiveIgnores with
      | (_, Some filterErr) =>
          if Is filterErr SkipDir then (Some SkipDir, st1, [])
          else (None, st1, [])
      | (true, None) =>
          if IsDir d then (Some SkipDir, st1, []) else (None, st1, [])
      | (false, None) =>
          if IsDir d then (None, st1, [])
          else
            match Filepath.Rel (basePath p) absCurrentPath with
            | None => (None, st1, [])
            | Some relPath =>
                (None, st1,
                 [ {| source := absCurrentPath;
                      header := Filepath.ToSlash relPath;
                      body := blockBody absCurrentPath relPath |} ])
            end
      end
  end.

(** The loop of [walkDir] over the entries of a directory; [SkipDir]
    from an entry ends the loop. *)
Fixpoint walkEntries (path : string)
         (entries : list (DirEntry * (string -> state -> option error * state * list block)))
         (st : state) : state * list block :=
  match entries with
  | [] => (st, [])
  | (d1, walk1) :: rest =>
      let path1 := Filepath.Join path (Name d1) in
      match walk1 path1 st with
      | (Some _, st1, out1) => (st1, out1)
      | (None, st1, out1) =>
          let '(st2, out2) := walkEntries path rest st1 in
          (st2, (out1 ++ out2)%list)
      end
  end.

(** [walkDir] of [path/filepath] with [visit] as the function. *)
Fixpoint walkDir (n : Disk.node) (path : string) (st : state)
  : option error * state * list block :=
  let d := Disk.entryOf n in
  match visit path d None st with
  | (Some err, st1, out1) =>
      (if IsDir d && sameSentinel err SkipDir then None else Some err, st1, out1)
  | (None, st1, out1) =>
      match n with
      | Disk.Directory _ readable entries =>
          if readable then
            let dirs :=
              sortBy (fun a b => nameLess (fst a) (fst b))
                (map (fun c => (Disk.entryOf c, walkDir c)) entries) in
            let '(st2, out2) := walkEntries path dirs st1 in
            (None, st2, (out1 ++ out2)%list)
          else
            match visit path d (Some ErrPermission) st1 with
            | (Some err, st2, out2) =>
                (if IsDir d && sameSentinel err SkipDir then None else Some err,
                 st2, (out1 ++ out2)%list)
            | (None, st2, out2) => (None, st2, (out1 ++ out2)%list)
            end
      | _ => (None, st1, out1)
      end
  end.

(** [filepath.WalkDir] from the base path. *)
Definition WalkDir (st : state) : state * list block :=
  let '(_, st1, out) := walkDir (Disk.root dk) (basePath p) st in (st1, out).

(** [Processor.Process] from the point where the paths and the filter
    are set: the tree text, when asked for, and the blocks in the order
    they are written. *)
Definition Process (st : state) : state * option string * list block :=
  let '(st1, treeStr) :=
    if IncludeTree (config p)
    then let '(s, t) := BuildTreeString st in (s, Some t)
    else (st, None) in
  let '(_, st2) := compile (basePath p) st1 in
  let '(st3, out) := WalkDir st2 in
  (st3, treeStr, out).

(** The relative paths of the files a tree shows, in the order shown:
    [dir] is the path of the parent, empty for the root. *)
Fixpoint filesOfNode (dir : string) (t : treeNode) : list string :=
  match t with
  | TreeNode name isDir grand =>
      let here := if Filepath.isEmpty dir then name else dir ++ "/" ++ name in
      if isDir then flat_map (filesOfNode here) grand else [here]
  end.

Definition treeFiles (rootNode : treeNode) : list string :=
  flat_map (filesOfNode EmptyString) (tnChildren rootNode).

End Run.

End Processor.

(* ===================================================================== *)
(** ** The fixtures of the package tests                                  *)
(* ===================================================================== *)

Module Fixtures.

Import Fs Filefilter.

(** [removeStringFromSlice] *)
Definition removeStringFromSlice (slice : list string) (item : string) : list string :=
  List.filter (fun s => negb (String.eqb s item)) slice.

(** [defaultFileFilterConfig] *)
Definition defaultFileFilterConfig (absFinalOutputPath : string) : FilterConfig :=
  {| MaxFileSize := 1 * 1024 * 1024;
     UserExcludeDirs := [];
     UserExcludeExts := [];
     UserExcludeGlobs := [];
     SkipAuxFiles := false;
     DefaultExcludeDirs := Appconfig.GetDefaultExcludedDirs;
     DefaultMediaExts := Appconfig.GetDefaultMediaExtensions;
     DefaultArchiveExts := Appconfig.GetDefaultArchiveExtensions;
     DefaultExecExts := Appconfig.GetDefaultExecutableExtensions;
     DefaultLockfilePatterns := Appconfig.GetDefaultLockfilePatterns;
     DefaultMiscellaneousFileNames := Appconfig.GetDefaultMiscellaneousFileNames;
     DefaultMiscellaneousExtensions := Appconfig.GetDefaultMiscellaneousExtensions;
     DefaultAuxExts := Appconfig.GetDefaultAuxFileExtensions;
     FinalOutputFilePath := absFinalOutputPath |}.

(** [newMockFile] *)
Definition newMockFile (name : string) (size : Z) (mode : FileMode) : DirEntry :=
  let mode := if mode =? 0 then 420 else mode in
  {| Name := name; IsDir := false; Type_ := Z.land mode ModeType;
     Info := inl {| fi_Name := name; fi_Size := size; fi_Mode := mode; fi_IsDir := false |} |}.

(** [newMockDir] *)
Definition newMockDir (name : string) (mode : FileMode) : DirEntry :=
  let mode := if mode =? 0 then Z.lor 493 ModeDir else Z.lor mode ModeDir in
  {| Name := name; IsDir := true; Type_ := Z.land mode ModeType;
     Info := inl {| fi_Name := name; fi_Size := 0; fi_Mode := mode; fi_IsDir := true |} |}.

(** A directory entry whose [Info] fails, as for a link removed under
    the walk. *)
Definition failingEntry (name : string) (typ : FileMode) (err : error) : DirEntry :=
  {| Name := name; IsDir := false; Type_ := typ; Info := inr err |}.

(** [compileGitIgnoreInDir]: the matcher of a file with this content, at
    the given address. *)
Definition compileGitIgnoreInDir (address : nat) (content : string) : option Gitignore.Ref :=
  match Gitignore.CompileIgnoreFile (inl content) with
  | inl gi => Some {| Gitignore.addr := address; Gitignore.target := gi |}
  | inr _ => None
  end.

(** The configuration of the tests on nested ignore files: the defaults
    without [.log] among the miscellaneous extensions. *)
Definition nestedConfig (absFinalOutputPath : string) : FilterConfig :=
  let cfg := defaultFileFilterConfig absFinalOutputPath in
  {| MaxFileSize := MaxFileSize cfg;
     UserExcludeDirs := UserExcludeDirs cfg;
     UserExcludeExts := UserExcludeExts cfg;
     UserExcludeGlobs := UserExcludeGlobs cfg;
     SkipAuxFiles := SkipAuxFiles cfg;
     DefaultExcludeDirs := DefaultExcludeDirs cfg;
     DefaultMediaExts := DefaultMediaExts cfg;
     DefaultArchiveExts := DefaultArchiveExts cfg;
     DefaultExecExts := DefaultExecExts cfg;
     DefaultLockfilePatterns := DefaultLockfilePatterns cfg;
     DefaultMiscellaneousFileNames := DefaultMiscellaneousFileNames cfg;
     DefaultMiscellaneousExtensions :=
       removeStringFromSlice (DefaultMiscellaneousExtensions cfg) ".log";
     DefaultAuxExts := DefaultAuxExts cfg;
     FinalOutputFilePath := absFinalOutputPath |}.

Definition withUserExts (cfg : FilterConfig) (exts : list string) : FilterConfig :=
  {| MaxFileSize := MaxFileSize cfg;
     UserExcludeDirs := UserExcludeDirs cfg;
     UserExcludeExts := exts;
     UserExcludeGlobs := UserExcludeGlobs cfg;
     SkipAuxFiles := SkipAuxFiles cfg;
     DefaultExcludeDirs := DefaultExcludeDirs cfg;
     DefaultMediaExts := DefaultMediaExts cfg;
     DefaultArchiveExts := DefaultArchiveExts cfg;
     DefaultExecExts := DefaultExecExts cfg;
     DefaultLockfilePatterns := DefaultLockfilePatterns cfg;
     DefaultMiscellaneousFileNames := DefaultMiscellaneousFileNames cfg;
     DefaultMiscellaneousExtensions := DefaultMiscellaneousExtensions cfg;
     DefaultAuxExts := DefaultAuxExts cfg;
     FinalOutputFilePath := FinalOutputFilePath cfg |}.

Definition withUserGlobs (cfg : FilterConfig) (globs : list string) : FilterConfig :=
  {| MaxFileSize := MaxFileSize cfg;
     UserExcludeDirs := UserExcludeDirs cfg;
     UserExcludeExts := UserExcludeExts cfg;
     UserExcludeGlobs := globs;
     SkipAuxFiles := SkipAuxFiles cfg;
     DefaultExcludeDirs := DefaultExcludeDirs cfg;
     DefaultMediaExts := DefaultMediaExts cfg;
     DefaultArchiveExts := DefaultArchiveExts cfg;
     DefaultExecExts := DefaultExecExts cfg;
     DefaultLockfilePatterns := DefaultLockfilePatterns cfg;
     DefaultMiscellaneousFileNames := DefaultMiscellaneousFileNames cfg;
     DefaultMiscellaneousExtensions := DefaultMiscellaneousExtensions cfg;
     DefaultAuxExts := DefaultAuxExts cfg;
     FinalOutputFilePath := FinalOutputFilePath cfg |}.

Definition withMaxFileSize (cfg : FilterConfig) (limit : Z) : FilterConfig :=
  {| MaxFileSize := limit;
     UserExcludeDirs := UserExcludeDirs cfg;
     UserExcludeExts := UserExcludeExts cfg;
     UserExcludeGlobs := UserExcludeGlobs cfg;
     SkipAuxFiles := SkipAuxFiles cfg;
     DefaultExcludeDirs := DefaultExcludeDirs cfg;
     DefaultMediaExts := DefaultMediaExts cfg;
     DefaultArchiveExts := DefaultArchiveExts cfg;
     DefaultExecExts := DefaultExecExts cfg;
     DefaultLockfilePatterns := DefaultLockfilePatterns cfg;
     DefaultMiscellaneousFileNames := DefaultMiscellaneousFileNames cfg;
     DefaultMiscellaneousExtensions := DefaultMiscellaneousExtensions cfg;
     DefaultAuxExts := DefaultAuxExts cfg;
     FinalOutputFilePath := FinalOutputFilePath cfg |}.

Definition withConfig (ff : FileFilter) (cfg : FilterConfig) : FileFilter :=
  {| config := cfg; basePath := basePath ff;
     absFinalOutputFilePath := absFinalOutputFilePath ff |}.

(** The same entry reporting another size. *)
Definition withSize (d : DirEntry) (size : Z) : DirEntry :=
  {| Name := Name d; IsDir := IsDir d; Type_ := Type_ d;
     Info := match Info d with
             | inl info =>
                 inl {| fi_Name := fi_Name info; fi_Size := size;
                        fi_Mode := fi_Mode info; fi_IsDir := fi_IsDir info |}
             | inr e => inr e
             end |}.

(** A user list without its empty strings. *)
Definition dropEmpty (l : list string) : list string :=
  List.filter (fun s => negb (String.eqb s "")) l.

Definition withoutEmptyUserRules (ff : FileFilter) : FileFilter :=
  withConfig ff
    (withUserGlobs
       (withUserExts (config ff) (dropEmpty (UserExcludeExts (config ff))))
       (dropEmpty (UserExcludeGlobs (config ff)))).

Definition unlimited (ff : FileFilter) : FileFilter :=
  withConfig ff (withMaxFileSize (config ff) 0).

(** The project of the tests on nested ignore files, under [/w/p]. *)
Definition rootIgnore : option Gitignore.Ref := compileGitIgnoreInDir 0 "*.log".
Definition subIgnore : option Gitignore.Ref :=
  compileGitIgnoreInDir 1 "!important.log
*.txt".
Definition nestedFilter : FileFilter :=
  NewFileFilter "/w/p" (nestedConfig "/w/out/output.txt").

End Fixtures.

(* ===================================================================== *)
(** ** Notions the statements use                                         *)
(* ===================================================================== *)

Module Notions.

Import Fs Processor.

(** The state after [compileAndCacheGitIgnore] has been called for each
    directory of a list in turn. *)
Fixpoint compileEach (fs : FileSystem) (dirs : list string) (st : state) : state :=
  match dirs with
  | [] => st
  | dirPath :: rest => compileEach fs rest (snd (compileAndCacheGitIgnore fs dirPath st))
  end.

(** A project whose [.gitignore] is a directory: it can be found but not
    read, so compiling it fails. *)
Definition unreadableIgnoreDisk : Disk.disk :=
  {| Disk.rootPath := "/w/p";
     Disk.root :=
       Disk.Directory "p" true
         [ Disk.Directory ".gitignore" true []; Disk.File "main.go" 420 "package main" ] |}.

(** [getDefaultTestConfig] of the processor tests. *)
Definition getDefaultTestConfig : Config :=
  {| IncludeTree := true;
     SkipAuxFiles := false;
     UserExcludeDirs := [];
     UserExcludeExts := [];
     UserExcludeGlobs := [];
     MaxFileSize := 1 * 1024 * 1024;
     DefaultExcludeDirs := Appconfig.GetDefaultExcludedDirs;
     DefaultMediaExts := Appconfig.GetDefaultMediaExtensions;
     DefaultArchiveExts := Appconfig.GetDefaultArchiveExtensions;
     DefaultExecExts := Appconfig.GetDefaultExecutableExtensions;
     DefaultLockfilePatterns := Appconfig.GetDefaultLockfilePatterns;
     DefaultMiscellaneousFileNames := Appconfig.GetDefaultMiscellaneousFileNames;
     DefaultMiscellaneousExtensions := Appconfig.GetDefaultMiscellaneousExtensions;
     DefaultAuxExts := Appconfig.GetDefaultAuxFileExtensions |}.

(** A run of the tests: the default configuration on a tree at
    [basePath], the output file somewhere else. *)
Definition testProcessor (basePath : string) : Processor :=
  determineOutputFileAndInitFilter getDefaultTestConfig basePath "/w/out/output.txt".

(** What one run shows: the files of the tree, in the order shown, and
    the headers of the blocks, in the order written.  The walk starts from
    the state the tree builder leaves, as in [Process]. *)
Definition treeAndContent (GOOS : string) (p : Processor) (dk : Disk.disk)
  : list string * list string :=
  let '(st1, rootNode) := buildTree GOOS p dk initialState in
  let '(_, st2) := compile dk (basePath p) st1 in
  let '(_, out) := WalkDir GOOS p dk st2 in
  (treeFiles rootNode, map header out).

(** The project of [TestProcess_LocalPath_Basic]. *)
Definition basicDisk : Disk.disk :=
  {| Disk.rootPath := "/w/testdata";
     Disk.root :=
       Disk.Directory "testdata" true
         [ Disk.File "fileA.txt" 420 "Content A";
           Disk.Directory "sub" true
             [ Disk.File "fileB.md" 420 "Content B";
               Disk.Directory "empty_dir" true [] ] ] |}.

(** A project kept in a directory called [build]. *)
Definition buildDisk : Disk.disk :=
  {| Disk.rootPath := "/w/build";
     Disk.root := Disk.Directory "build" true [ Disk.File "main.go" 420 "package main" ] |}.

(** A project with a directory whose own [.gitignore] names it and takes
    one file back. *)
Definition selfIgnoringDisk : Disk.disk :=
  {| Disk.rootPath := "/w/p";
     Disk.root :=
       Disk.Directory "p" true
         [ Disk.File "a.go" 420 "package a";
           Disk.Directory "sub" true
             [ Disk.File ".gitignore" 420 "sub
!keep.go";
               Disk.File "keep.go" 420 "package keep" ] ] |}.

(** The project of [TestProcess_OutputSelfExclusion]: the output file
    lies in the directory that is processed. *)
Definition selfOutputDisk : Disk.disk :=
  {| Disk.rootPath := "/w/p";
     Disk.root :=
       Disk.Directory "p" true
         [ Disk.File "output.txt" 420 "left over from the last run";
           Disk.File "somefile.txt" 420 "this is some file" ] |}.

Definition selfOutputProcessor : Processor :=
  determineOutputFileAndInitFilter getDefaultTestConfig "/w/p" "/w/p/output.txt".

(** The entries of a directory in the order of [os.ReadDir]. *)
Definition byName (entries : list Disk.node) : list Disk.node :=
  sortBy (fun a b => String.ltb (Disk.nodeName a) (Disk.nodeName b)) entries.

(** Every path under a node, depth first, the entries of each directory
    in the order of their names, files and directories alike. *)
Fixpoint listing (n : Disk.node) (path : string) : list string :=
  path ::
  match n with
  | Disk.Directory _ _ entries =>
      flat_map (fun nk : string * (string -> list string) =>
                  snd nk (Filepath.Join path (fst nk)))
               (sortBy (fun a b => String.ltb (fst a) (fst b))
                  (map (fun c => (Disk.nodeName c, listing c)) entries))
  | _ => []
  end.

(** The absolute paths of the nodes of a tree under [dirPath], as the
    builder formed them. *)
Fixpoint nodePaths (dirPath : string) (t : treeNode) : list string :=
  match t with
  | TreeNode name _ grand =>
      let here := Filepath.Join dirPath name in
      here :: flat_map (nodePaths here) grand
  end.

(** The entries of a directory in the order the tree builder visits
    them: sorted by [entryLess], starting from the order of [os.ReadDir]. *)
Definition treeOrder (entries : list Disk.node) : list Disk.node :=
  sortBy (fun a b => entryLess (Disk.entryOf a) (Disk.entryOf b)) (byName entries).

(** What the order of a tree looks at: whether the node is a directory,
    and its name. *)
Definition label (t : treeNode) : bool * string := (tnIsDir t, tnName t).
Definition nodeLabel (c : Disk.node) : bool * string :=
  (Disk.isDirectory c, Disk.nodeName c).

(** Directories first, then by name without regard to case. *)
Definition labelLe (a b : bool * string) : Prop :=
  (fst a = true /\ fst b = false)
  \/ (fst a = fst b
      /\ String.leb (Strings.ToLower (snd a)) (Strings.ToLower (snd b)) = true).

Definition dirsFirstThenName (a b : treeNode) : Prop := labelLe (label a) (label b).

(** Every list of children in the tree is in that order. *)
Inductive sortedTree : treeNode -> Prop :=
| SortedTree name isDir children :
    StronglySorted dirsFirstThenName children ->
    Forall sortedTree children ->
    sortedTree (TreeNode name isDir children).

(** The filter let the path through, for some entry and some stack of
    matchers. *)
Definition letThrough (GOOS : string) (p : Processor) (path : string) : Prop :=
  exists d active,
    Filefilter.IsExcluded GOOS (filter p) path d active = (false, None).

(** What is to be shown of the walk below one node: the blocks come in
    the order of the listing, and from files the filter let through. *)
Definition walkSound (GOOS : string) (p : Processor) (dk : Disk.disk) (n : Disk.node) : Prop :=
  forall path st r st' out,
    walkDir GOOS p dk n path st = (r, st', out) ->
    map source out `sublist_of` listing n path
    /\ Forall (fun b => letThrough GOOS p (source b)) out.

(** What is to be shown of the nodes built under one path: the filter let
    each of their paths through, and each of them is sorted inside. *)
Definition builtWell (GOOS : string) (p : Processor) (path : string)
           (kids : list treeNode) : Prop :=
  Forall (fun t => Forall (letThrough GOOS p) (nodePaths path t)) kids
  /\ Forall sortedTree kids.

Definition buildSound (GOOS : string) (p : Processor) (dk : Disk.disk) (n : Disk.node) : Prop :=
  forall path parentActive st,
    builtWell GOOS p path (snd (buildNodeRecursive GOOS p dk n path parentActive st))
    /\ StronglySorted dirsFirstThenName
         (snd (buildNodeRecursive GOOS p dk n path parentActive st)).

(** The bytes of a list of path elements, one more for each element. *)
Fixpoint weight (l : list string) : nat :=
  match l with
  | [] => 0
  | s :: r => S (String.length s) + weight r
  end.

Fixpoint weightOfNonEmpty (l : list string) : nat :=
  match l with
  | [] => 0
  | s :: r => (if Filepath.isEmpty s then 0 else S (String.length s)) + weightOfNonEmpty r
  end.

(** The number of rounds the loop of [collectMatchers] can still make. *)
Definition roundsLeft (dir : string) : nat :=
  String.length dir + (if String.eqb dir "." then 0 else 1).

(** Patterns, names and what [filepath.Match] answers, from the table of
    the tests of [path/filepath]; a malformed pattern gives [false]. *)
Definition matchCases : list (string * string * bool) :=
  [ ("abc", "abc", true); ("*", "abc", true); ("*c", "abc", true);
    ("a*", "a", true); ("a*", "abc", true); ("a*", "ab/c", false);
    ("a*/b", "abc/b", true); ("a*/b", "a/c/b", false);
    ("a*b*c*d*e*/f", "axbxcxdxe/f", true);
    ("a*b*c*d*e*/f", "axbxcxdxexxx/f", true);
    ("a*b*c*d*e*/f", "axbxcxdxe/xxx/f", false);
    ("a*b*c*d*e*/f", "axbxcxdxexxx/fff", false);
    ("a*b?c*x", "abxbbxdbxebxczzx", true);
    ("a*b?c*x", "abxbbxdbxebxczzy", false);
    ("ab[c]", "abc", true); ("ab[b-d]", "abc", true); ("ab[e-g]", "abc", false);
    ("ab[^c]", "abc", false); ("ab[^b-d]", "abc", false); ("ab[^e-g]", "abc", true);
    ("a\*b", "a*b", true); ("a\*b", "ab", false);
    ("a?b", "a☺b", true); ("a[^a]b", "a☺b", true);
    ("a???b", "a☺b", false); ("a[^a][^a][^a]b", "a☺b", false);
    ("[a-ζ]*", "α", true); ("*[a-ζ]", "A", false);
    ("a?b", "a/b", false); ("a*b", "a/b", false);
    ("[\]a]", "]", true); ("[\-]", "-", true);
    ("[x\-]", "x", true); ("[x\-]", "-", true); ("[x\-]", "z", false);
    ("[\-x]", "x", true); ("[\-x]", "-", true); ("[\-x]", "a", false);
    ("[]a]", "]", false); ("[-]", "-", false);
    ("[x-]", "x", false); ("[x-]", "-", false); ("[x-]", "z", false);
    ("[-x]", "x", false); ("[-x]", "-", false); ("[-x]", "a", false);
    ("\", "a", false); ("[a-b-c]", "a", false);
    ("[", "a", false); ("[^", "a", false); ("[^bc", "a", false);
    ("a[", "a", false); ("a[", "ab", false); ("a[", "x", false);
    ("a/b[", "x", false); ("*x", "xxx", true) ].

End Notions.

(* ===================================================================== *)
(** ** Variations of a filter, for statements that compare two of them    *)
(* ===================================================================== *)

Module Variations.

Import Fs Filefilter.

(** The entries of an extension list that can match at all: those equal to
    their own lower-case form. *)
Definition lowerOnly (l : list string) : list string :=
  List.filter (fun e => String.eqb (Strings.ToLower e) e) l.

(** The same for the auxiliary list, where only the entries that begin
    with a dot are compared with the extension. *)
Definition lowerOnlyAux (l : list string) : list string :=
  List.filter (fun e => negb (Strings.HasPrefix e ".") || String.eqb (Strings.ToLower e) e) l.

(** The filter without the extension entries that hold an upper-case
    letter. *)
Definition withoutMixedCase (ff : FileFilter) : FileFilter :=
  let cfg := config ff in
  {| config :=
       {| MaxFileSize := MaxFileSize cfg;
          UserExcludeDirs := UserExcludeDirs cfg;
          UserExcludeExts := lowerOnly (UserExcludeExts cfg);
          UserExcludeGlobs := UserExcludeGlobs cfg;
          SkipAuxFiles := SkipAuxFiles cfg;
          DefaultExcludeDirs := DefaultExcludeDirs cfg;
          DefaultMediaExts := lowerOnly (DefaultMediaExts cfg);
          DefaultArchiveExts := lowerOnly (DefaultArchiveExts cfg);
          DefaultExecExts := lowerOnly (DefaultExecExts cfg);
          DefaultLockfilePatterns := DefaultLockfilePatterns cfg;
          DefaultMiscellaneousFileNames := DefaultMiscellaneousFileNames cfg;
          DefaultMiscellaneousExtensions := lowerOnly (DefaultMiscellaneousExtensions cfg);
          DefaultAuxExts := lowerOnlyAux (DefaultAuxExts cfg);
          FinalOutputFilePath := FinalOutputFilePath cfg |};
     basePath := basePath ff;
     absFinalOutputFilePath := absFinalOutputFilePath ff |}.

(** [ff'] excludes at least what [ff] excludes: the same paths and limit,
    every list of [ff] within the list of [ff'], and the auxiliary mode on
    in [ff'] if it is on in [ff]. *)
Definition atLeastAsStrict (ff ff' : FileFilter) : Prop :=
  basePath ff = basePath ff'
  /\ absFinalOutputFilePath ff = absFinalOutputFilePath ff'
  /\ MaxFileSize (config ff) = MaxFileSize (config ff')
  /\ incl (UserExcludeDirs (config ff)) (UserExcludeDirs (config ff'))
  /\ incl (DefaultExcludeDirs (config ff)) (DefaultExcludeDirs (config ff'))
  /\ incl (UserExcludeExts (config ff)) (UserExcludeExts (config ff'))
  /\ incl (UserExcludeGlobs (config ff)) (UserExcludeGlobs (config ff'))
  /\ incl (DefaultExecExts (config ff)) (DefaultExecExts (config ff'))
  /\ incl (DefaultMediaExts (config ff)) (DefaultMediaExts (config ff'))
  /\ incl (DefaultArchiveExts (config ff)) (DefaultArchiveExts (config ff'))
  /\ incl (DefaultLockfilePatterns (config ff)) (DefaultLockfilePatterns (config ff'))
  /\ incl (DefaultMiscellaneousExtensions (config ff))
          (DefaultMiscellaneousExtensions (config ff'))
  /\ incl (DefaultMiscellaneousFileNames (config ff))
          (DefaultMiscellaneousFileNames (config ff'))
  /\ (SkipAuxFiles (config ff) = true ->
      SkipAuxFiles (config ff') = true
      /\ incl (DefaultAuxExts (config ff)) (DefaultAuxExts (config ff'))).

(** The same entry with other permission bits. *)
Definition withMode (d : DirEntry) (mode : FileMode) : DirEntry :=
  {| Name := Name d; IsDir := IsDir d; Type_ := Type_ d;
     Info := match Info d with
             | inl info =>
                 inl {| fi_Name := fi_Name info; fi_Size := fi_Size info;
                        fi_Mode := mode; fi_IsDir := fi_IsDir info |}
             | inr e => inr e
             end |}.

(** The filter of the package tests with the auxiliary mode switched on. *)
Definition auxFilter : FileFilter :=
  let cfg := Fixtures.defaultFileFilterConfig "/w/out/output.txt" in
  NewFileFilter "/w/p"
    {| MaxFileSize := MaxFileSize cfg;
       UserExcludeDirs := UserExcludeDirs cfg;
       UserExcludeExts := UserExcludeExts cfg;
       UserExcludeGlobs := UserExcludeGlobs cfg;
       SkipAuxFiles := true;
       DefaultExcludeDirs := DefaultExcludeDirs cfg;
       DefaultMediaExts := DefaultMediaExts cfg;
       DefaultArchiveExts := DefaultArchiveExts cfg;
       DefaultExecExts := DefaultExecExts cfg;
       DefaultLockfilePatterns := DefaultLockfilePatterns cfg;
       DefaultMiscellaneousFileNames := DefaultMiscellaneousFileNames cfg;
       DefaultMiscellaneousExtensions := DefaultMiscellaneousExtensions cfg;
       DefaultAuxExts := DefaultAuxExts cfg;
       FinalOutputFilePath := FinalOutputFilePath cfg |}.

Definition defaultFilter : FileFilter :=
  NewFileFilter "/w/p" (Fixtures.defaultFileFilterConfig "/w/out/output.txt").

(** The filter with other lists of directory names. *)
Definition withDirLists (ff : FileFilter) (defaultDirs userDirs : list string) : FileFilter :=
  let cfg := config ff in
  Fixtures.withConfig ff
    {| MaxFileSize := MaxFileSize cfg;
       UserExcludeDirs := userDirs;
       UserExcludeExts := UserExcludeExts cfg;
       UserExcludeGlobs := UserExcludeGlobs cfg;
       SkipAuxFiles := SkipAuxFiles cfg;
       DefaultExcludeDirs := defaultDirs;
       DefaultMediaExts := DefaultMediaExts cfg;
       DefaultArchiveExts := DefaultArchiveExts cfg;
       DefaultExecExts := DefaultExecExts cfg;
       DefaultLockfilePatterns := DefaultLockfilePatterns cfg;
       DefaultMiscellaneousFileNames := DefaultMiscellaneousFileNames cfg;
       DefaultMiscellaneousExtensions := DefaultMiscellaneousExtensions cfg;
       DefaultAuxExts := DefaultAuxExts cfg;
       FinalOutputFilePath := FinalOutputFilePath cfg |}.

(** The filter of the package tests with the lists the command line
    gives for [--exclude-dirs] and [--exclude-exts]. *)
Definition flagFilter (excludeDirsRaw excludeExtsRaw : string) : FileFilter :=
  let cfg := Fixtures.defaultFileFilterConfig "/w/out/output.txt" in
  NewFileFilter "/w/p"
    {| MaxFileSize := MaxFileSize cfg;
       UserExcludeDirs := Cmd.excludeDirsOf excludeDirsRaw;
       UserExcludeExts := Cmd.excludeExtsOf excludeExtsRaw;
       UserExcludeGlobs := UserExcludeGlobs cfg;
       SkipAuxFiles := SkipAuxFiles cfg;
       DefaultExcludeDirs := DefaultExcludeDirs cfg;
       DefaultMediaExts := DefaultMediaExts cfg;
       DefaultArchiveExts := DefaultArchiveExts cfg;
       DefaultExecExts := DefaultExecExts cfg;
       DefaultLockfilePatterns := DefaultLockfilePatterns cfg;
       DefaultMiscellaneousFileNames := DefaultMiscellaneousFileNames cfg;
       DefaultMiscellaneousExtensions := DefaultMiscellaneousExtensions cfg;
       DefaultAuxExts := DefaultAuxExts cfg;
       FinalOutputFilePath := FinalOutputFilePath cfg |}.

End Variations.

(** ** The cache and the disk over a whole run *)

Module Discipline.

Import Fs Processor.

(** The paths the log shows to have been stat'ed, and those read. *)
Definition statted (log : list ioEvent) : list string :=
  flat_map (fun e => match e with EvStat path => [path] | EvReadFile _ => [] end) log.

Definition readFrom (log : list ioEvent) : list string :=
  flat_map (fun e => match e with EvReadFile path => [path] | EvStat _ => [] end) log.

Definition eventPath (e : ioEvent) : string :=
  match e with EvStat path | EvReadFile path => path end.

(** The matcher a look at the disk gives for the path of a [.gitignore]:
    none when the file is not found or cannot be compiled. *)
Definition fromDisk (fs : FileSystem) (gitIgnorePath : string) : option Gitignore.GitIgnore :=
  match fsStat fs gitIgnorePath with
  | Some _ => None
  | None =>
      match Gitignore.CompileIgnoreFile (fsReadFile fs gitIgnorePath) with
      | inl gi => Some gi
      | inr _ => None
      end
  end.

(** The log and the cache tell the same story: every path was stat'ed at
    most once and read at most once; the paths stat'ed are those the cache
    has an entry for; the paths read are those whose stat succeeded; and
    every call was for a file called [.gitignore] in some directory. *)
Definition logInStep (fs : FileSystem) (st : state) : Prop :=
  List.NoDup (statted (ioLog st))
  /\ List.NoDup (readFrom (ioLog st))
  /\ (forall path, In path (statted (ioLog st)) <-> gitIgnoreCache st !! path <> None)
  /\ (forall path, In path (readFrom (ioLog st))
                   <-> In path (statted (ioLog st)) /\ fsStat fs path = None)
  /\ Forall (fun e => exists dirPath, eventPath e = Filepath.Join dirPath ".gitignore")
            (ioLog st).

(** The cache holds what the disk holds: the entry of a path is the
    matcher compiled from the file there, or nil when there is none; the
    matchers handed out have addresses below the next free one, and no two
    entries share an address. *)
Definition cacheCoherent (fs : FileSystem) (st : state) : Prop :=
  (forall path v, gitIgnoreCache st !! path = Some v ->
                  option_map Gitignore.target v = fromDisk fs path)
  /\ (forall path m, gitIgnoreCache st !! path = Some (Some m) ->
                     (Gitignore.addr m < nextAddr st)%nat)
  /\ (forall path1 path2 m1 m2,
        gitIgnoreCache st !! path1 = Some (Some m1) ->
        gitIgnoreCache st !! path2 = Some (Some m2) ->
        Gitignore.addr m1 = Gitignore.addr m2 -> path1 = path2).

(** What a stack of matchers matches with: the compiled files, without
    the addresses. *)
Definition targets (l : list (option Gitignore.Ref)) : list (option Gitignore.GitIgnore) :=
  map (option_map Gitignore.target) l.

(** Every matcher of the stack is one the cache holds. *)
Definition cached (st : state) (active : list (option Gitignore.Ref)) : Prop :=
  forall r, In (Some r) active ->
            exists path, gitIgnoreCache st !! path = Some (Some r).

(** Two stacks match with the same compiled files. *)
Definition sameTargets (active active' : list (option Gitignore.Ref)) : Prop :=
  forall t, In (Some t) (targets active) <-> In (Some t) (targets active').

(** The state [st'] comes from [st] by calls of
    [compileAndCacheGitIgnore] and nothing else. *)
Definition byCompiling (fs : FileSystem) (st st' : state) : Prop :=
  exists dirs, st' = Notions.compileEach fs dirs st.

(** A project with a [.gitignore] at two levels. *)
Definition nestedDisk : Disk.disk :=
  {| Disk.rootPath := "/w/p";
     Disk.root :=
       Disk.Directory "p" true
         [ Disk.File ".gitignore" 420 "*.log";
           Disk.File "main.go" 420 "package main";
           Disk.Directory "sub" true
             [ Disk.File ".gitignore" 420 "!important.log";
               Disk.File "important.log" 420 "kept?";
               Disk.File "util.go" 420 "package sub" ] ] |}.

(** The same processor with the tree switched on or off. *)
Definition withIncludeTree (p : Processor) (includeTree : bool) : Processor :=
  let cfg := config p in
  {| config :=
       {| IncludeTree := includeTree;
          SkipAuxFiles := SkipAuxFiles cfg;
          UserExcludeDirs := UserExcludeDirs cfg;
          UserExcludeExts := UserExcludeExts cfg;
          UserExcludeGlobs := UserExcludeGlobs cfg;
          MaxFileSize := MaxFileSize cfg;
          DefaultExcludeDirs := DefaultExcludeDirs cfg;
          DefaultMediaExts := DefaultMediaExts cfg;
          DefaultArchiveExts := DefaultArchiveExts cfg;
          DefaultExecExts := DefaultExecExts cfg;
          DefaultLockfilePatterns := DefaultLockfilePatterns cfg;
          DefaultMiscellaneousFileNames := DefaultMiscellaneousFileNames cfg;
          DefaultMiscellaneousExtensions := DefaultMiscellaneousExtensions cfg;
          DefaultAuxExts := DefaultAuxExts cfg |};
     filter := filter p;
     basePath := basePath p;
     finalOutputFile := finalOutputFile p |}.

(** A project with its dependencies checked in. *)
Definition vendoredDisk : Disk.disk :=
  {| Disk.rootPath := "/w/p";
     Disk.root :=
       Disk.Directory "p" true
         [ Disk.File "main.go" 420 "package main";
           Disk.Directory "node_modules" true
             [ Disk.File ".gitignore" 420 "*.tmp";
               Disk.File "index.js" 420 "module.exports = 1" ] ] |}.

End Discipline.

(** ** Names on disk and names shown *)

Module Names.

Import Fs Filefilter.

(** A name a directory entry can bear: not empty, no separator inside,
    and neither of the two dot names. *)
Definition plainName (name : string) : bool :=
  negb (Filepath.isEmpty name) && Filepath.noSeparator name
  && negb (String.eqb name ".") && negb (String.eqb name "..").

(** The stack the clean-up of a path keeps, innermost element first:
    ordinary names on top of the [..] elements it could not resolve, of
    which a rooted path has none. *)
Definition cleanStack (isRooted : bool) (acc : list string) : Prop :=
  exists normals dots,
    acc = (normals ++ dots)%list
    /\ Forall (fun s => plainName s = true) normals
    /\ Forall (fun s => s = "..") dots
    /\ (isRooted = true -> dots = []).

(** Every entry below [n] bears such a name. *)
Fixpoint wellNamedBelow (n : Disk.node) : bool :=
  match n with
  | Disk.Directory _ _ entries =>
      forallb (fun c => plainName (Disk.nodeName c) && wellNamedBelow c) entries
  | _ => true
  end.

(** No entry below [n] is called [.gitignore]. *)
Fixpoint noIgnoreFileBelow (n : Disk.node) : bool :=
  match n with
  | Disk.Directory _ _ entries =>
      forallb (fun c => negb (String.eqb (Disk.nodeName c) ".gitignore")
                        && noIgnoreFileBelow c) entries
  | _ => true
  end.

(** The clean path [path] lies under [base] along the names of [route]. *)
Definition under (base path : string) (route : list string) : Prop :=
  Filepath.Clean path = path
  /\ Filepath.rooted path = Filepath.rooted base
  /\ Filepath.cleanSegments path = (Filepath.cleanSegments base ++ route)%list
  /\ Forall (fun s => plainName s = true) route.

(** The rules of the filter that look at nothing but the name of an
    entry: the two lists of directory names for a directory; for a file the
    list of file names, the four default lists of extensions and the
    lock-file patterns. *)
Definition nameAllowed (cfg : FilterConfig) (isDir : bool) (name : string) : bool :=
  if isDir then
    negb (existsb (String.eqb name) (DefaultExcludeDirs cfg ++ UserExcludeDirs cfg)%list)
  else
    let fileExt := Strings.ToLower (Filepath.fromLastDot name) in
    negb (existsb (String.eqb fileExt)
            (DefaultExecExts cfg ++ DefaultMediaExts cfg ++ DefaultArchiveExts cfg
             ++ DefaultMiscellaneousExtensions cfg)%list)
    && negb (existsb (fun lockPattern => Filepath.Match lockPattern name)
               (DefaultLockfilePatterns cfg))
    && negb (existsb (String.eqb name) (DefaultMiscellaneousFileNames cfg)).

(** Every node of a tree bears an allowed name. *)
Fixpoint allAllowed (cfg : FilterConfig) (t : Processor.treeNode) : bool :=
  match t with
  | Processor.TreeNode name isDir children =>
      nameAllowed cfg isDir name && forallb (allAllowed cfg) children
  end.

(** The block [b] was written for an entry that is a regular file, which
    the filter let through under the matchers collected from the file's
    directory upwards; its header is the path relative to the base path. *)
Definition passedTheFilter (GOOS : string) (p : Processor.Processor) (dk : Disk.disk)
           (b : Processor.block) : Prop :=
  exists name perm content st0 relPath,
    let absPath := Processor.source b in
    let active :=
      rev (fst (Processor.collectMatchers p dk (2 + String.length (Filepath.Dir absPath))
                  (Filepath.Dir absPath) [] st0)) in
    IsExcluded GOOS (Processor.filter p) absPath
               (Disk.entryOf (Disk.File name perm content)) active = (false, None)
    /\ Filepath.Rel (Processor.basePath p) absPath = Some relPath
    /\ Processor.header b = Filepath.ToSlash relPath
    /\ Processor.body b = Processor.blockBody dk absPath relPath.





(** The header of the block [b] is the route from the base path to the
    file it was read from: the names on the way, joined by separators. *)
Definition headerIsRoute (base : string) (b : Processor.block) : Prop :=
  exists route,
    route <> []
    /\ under base (Processor.source b) route
    /\ Processor.header b = Strings.Join route "/".

(** No pattern of [--exclude-patterns] matches the header of the block
    or the name of its file. *)
Definition clearOfUserGlobs (ff : FileFilter) (b : Processor.block) : Prop :=
  forall pattern,
    In pattern (UserExcludeGlobs (config ff)) ->
    pattern <> "" ->
    Filepath.Match pattern (Processor.header b) = false
    /\ Filepath.Match pattern (Filepath.Base (Processor.source b)) = false.

(** A run of the tests with two patterns given on the command line. *)
Definition globProcessor : Processor.Processor :=
  let cfg := Notions.getDefaultTestConfig in
  Processor.determineOutputFileAndInitFilter
    {| Processor.IncludeTree := Processor.IncludeTree cfg;
       Processor.SkipAuxFiles := Processor.SkipAuxFiles cfg;
       Processor.UserExcludeDirs := Processor.UserExcludeDirs cfg;
       Processor.UserExcludeExts := Processor.UserExcludeExts cfg;
       Processor.UserExcludeGlobs := Cmd.excludeGlobsOf "*_test.go, docs/*";
       Processor.MaxFileSize := Processor.MaxFileSize cfg;
       Processor.DefaultExcludeDirs := Processor.DefaultExcludeDirs cfg;
       Processor.DefaultMediaExts := Processor.DefaultMediaExts cfg;
       Processor.DefaultArchiveExts := Processor.DefaultArchiveExts cfg;
       Processor.DefaultExecExts := Processor.DefaultExecExts cfg;
       Processor.DefaultLockfilePatterns := Processor.DefaultLockfilePatterns cfg;
       Processor.DefaultMiscellaneousFileNames := Processor.DefaultMiscellaneousFileNames cfg;
       Processor.DefaultMiscellaneousExtensions := Processor.DefaultMiscellaneousExtensions cfg;
       Processor.DefaultAuxExts := Processor.DefaultAuxExts cfg |}
    "/w/p" "/w/out/output.txt".

Definition globDisk : Disk.disk :=
  {| Disk.rootPath := "/w/p";
     Disk.root :=
       Disk.Directory "p" true
         [ Disk.File "main.go" 420 "package main";
           Disk.File "main_test.go" 420 "package main";
           Disk.Directory "docs" true [ Disk.File "guide.txt" 420 "how to" ];
           Disk.Directory "pkg" true [ Disk.File "lib.go" 420 "package pkg" ] ] |}.

End Names.

(* ===================================================================== *)
(** ** Package [gitutils]: the name of a repository                       *)
(* ===================================================================== *)

Module Gitutils.

(** [strings.TrimPrefix] *)
Definition TrimPrefix (s pre : string) : string :=
  if Strings.HasPrefix s pre
  then String.substring (String.length pre) (String.length s - String.length pre) s
  else s.

(** [strings.TrimSuffix] *)
Definition TrimSuffix (s suf : string) : string :=
  if Strings.HasSuffix s suf
  then String.substring 0 (String.length s - String.length suf) s
  else s.

(** [strings.Replace s old new 1] for one-byte [old] and [new]. *)
Fixpoint replaceFirst (old new : ascii) (s : string) : string :=
  match s with
  | EmptyString => EmptyString
  | String c r => if Ascii.eqb c old then String new r else String c (replaceFirst old new r)
  end.

(** [getRepoNameFromURL] *)
Definition getRepoNameFromURL (repoURL : string) : string :=
  let parsedURL :=
    if Strings.HasPrefix repoURL "https://" then TrimPrefix repoURL "https://"
    else if Strings.HasPrefix repoURL "http://" then TrimPrefix repoURL "http://"
    else if Strings.HasPrefix repoURL "git@" then
      replaceFirst ":" "/" (TrimPrefix repoURL "git@")
    else repoURL in
  let parsedURL := TrimSuffix parsedURL ".git" in
  let parts := Strings.Split "/" parsedURL in
  if (0 <? length parts)%nat then
    let repoName := List.last parts EmptyString in
    if negb (String.eqb repoName "") then repoName else "repository"
  else "repository".

(** [IsGitURL] *)
Definition IsGitURL (path : string) : bool :=
  Strings.HasPrefix path "http://"
  || Strings.HasPrefix path "https://"
  || Strings.HasPrefix path "git@"
  || Strings.HasPrefix path "ssh://"
  || Strings.HasSuffix path ".git".

(** The directory [CloneRepo] clones into, under the temporary directory
    it made. *)
Definition clonePath (parentTempDir repoURL : string) : string :=
  Filepath.Join parentTempDir (getRepoNameFromURL repoURL).

End Gitutils.

(* ===================================================================== *)
(** ** Package [utils]: sizes for the eye                                 *)
(* ===================================================================== *)

Module Utils.

(** Arithmetic on [uint64] wraps around. *)
Definition wrap64 (z : Z) : Z := z mod 2 ^ 64.

(** The loop of [FormatBytes], [for n := b / unit; n >= unit; n /= unit]:
    the divisor and the exponent it ends with; [None] when the fuel runs
    out first. *)
Fixpoint scale (fuel : nat) (n div : Z) (exp : nat) : option (Z * nat) :=
  match fuel with
  | O => None
  | S fuel' =>
      if 1024 <=? n then scale fuel' (n / 1024) (wrap64 (div * 1024)) (S exp)
      else Some (div, exp)
  end.

(** The digits of a number below ten to the [fuel], most significant first. *)
Fixpoint digits (fuel : nat) (n : Z) (acc : string) : string :=
  match fuel with
  | O => acc
  | S fuel' =>
      let acc' := String (ascii_of_N (48 + Z.to_N (n mod 10))) acc in
      if n <? 10 then acc' else digits fuel' (n / 10) acc'
  end.

(** [%d] of a [uint64], which has at most twenty digits. *)
Definition decimal (n : Z) : string := digits 20 n EmptyString.

Section Formatting.

(** [fmt.Sprintf("%.1f", float64(b)/float64(div))], the one step done in
    floating point. *)
Variable oneDecimal : Z -> Z -> string.

(** [FormatBytes]; [None] stands for a run-time panic, which indexing
    ["KMGTPE"] out of its range would be. *)
Definition FormatBytes (b : Z) : option string :=
  if b <? 1024 then Some (decimal b ++ " B")
  else
    match scale 64 (b / 1024) 1024 0 with
    | Some (div, exp) =>
        match String.get exp "KMGTPE" with
        | Some c => Some (oneDecimal b div ++ " " ++ String c "iB")
        | None => None
        end
    | None => None
    end.

End Formatting.

End Utils.

(* ===================================================================== *)
(** ** Package [collector]                                                *)
(* ===================================================================== *)

Module Collector.

Import Fs.

Record Options := {
  Root : string;
  IncludeTree : bool;
  MaxSize : Z;
  ExcludeDirs : list string;
  ExcludeExts : list string;
  ExcludePatterns : list string;
  SkipTextual : bool;
  Verbose : bool
}.

(** The keys of the map [mediaExts]; all its values are [true]. *)
Definition mediaExts : list string :=
  [ ".png"; ".jpg"; ".jpeg"; ".gif"; ".bmp"; ".svg";
    ".mp4"; ".mp3"; ".wav"; ".ogg"; ".flac";
    ".avi"; ".mkv"; ".mov"; ".pdf"; ".docx";
    ".pptx" ].

(** The keys of the map [textualButNonCode]; all its values are [true]. *)
Definition textualButNonCode : list string :=
  [ ".md"; ".txt"; ".json"; ".csv"; ".yml"; ".yaml"; ".ini"; ".bat" ].

Definition codeLangByExt : list (string * string) :=
  [ (".go", "go"); (".js", "javascript"); (".ts", "typescript"); (".py", "python");
    (".java", "java"); (".rb", "ruby"); (".rs", "rust"); (".cpp", "cpp"); (".c", "c");
    (".h", "c"); (".cs", "csharp"); (".php", "php"); (".swift", "swift");
    (".kt", "kotlin"); (".sql", "sql"); (".html", "html"); (".css", "css");
    (".xml", "xml"); (".sh", "bash"); (".bat", "bat"); (".ps1", "powershell") ].

(** Reading a map of strings at a key: the empty string when the key is
    missing. *)
Definition langOf (ext : string) : string :=
  match List.find (fun kv => String.eqb (fst kv) ext) codeLangByExt with
  | Some kv => snd kv
  | None => EmptyString
  end.

(** What an entry of [ExcludeExts] is compared with. *)
Definition dotted (e : string) : string :=
  "." ++ Strings.ToLower (Gitutils.TrimPrefix e ".").

(** The closure [include] of [Run]. *)
Definition include (opts : Options) (ign : Gitignore.GitIgnore)
           (rel : string) (info : FileInfo) : bool :=
  if Gitignore.MatchesPath ign rel then false
  else if existsb (fun d => String.eqb rel d || Strings.HasPrefix rel (d ++ "/"))
                  (ExcludeDirs opts) then false
  else
    let ext := Strings.ToLower (Filepath.Ext rel) in
    if existsb (fun e => String.eqb ext (dotted e)) (ExcludeExts opts) then false
    else if existsb (String.eqb ext) mediaExts then false
    else if SkipTextual opts && existsb (String.eqb ext) textualButNonCode then false
    else if MaxSize opts <? fi_Size info then false
    else if negb (Z.land (fi_Mode info) 73 =? 0) then false
    else true.

(** The function [Run] passes to [filepath.Walk]; the state is the list
    [paths]. *)
Definition collect (opts : Options) (ign : Gitignore.GitIgnore)
           (path : string) (info : FileInfo) (walkErr : option error) (paths : list string)
  : option error * list string :=
  match walkErr with
  | Some _ => (None, paths)
  | None =>
      if String.eqb path (Root opts) then (None, paths)
      else
        let rel := match Filepath.Rel (Root opts) path with
                   | Some r => r
                   | None => EmptyString
                   end in
        if fi_IsDir info then
          if negb (include opts ign rel info) then (Some SkipDir, paths) else (None, paths)
        else if include opts ign rel info then (None, (paths ++ [rel])%list)
        else (None, paths)
  end.

(** [filepath.Walk] on the files of a disk, for a function that threads
    a state. *)
Section Walk.
Context {S : Type}.
Variable walkFn : string -> FileInfo -> option error -> S -> option error * S.

(** The loop of [walk] over the names of a directory. *)
Fixpoint walkNames (path : string)
         (entries : list (string * bool * (string -> S -> option error * S))) (st : S)
  : option error * S :=
  match entries with
  | [] => (None, st)
  | (name, isDir, walk1) :: rest =>
      let filename := Filepath.Join path name in
      match walk1 filename st with
      | (Some err, st1) =>
          if negb isDir || negb (sameSentinel err SkipDir) then (Some err, st1)
          else walkNames path rest st1
      | (None, st1) => walkNames path rest st1
      end
  end.

(** [walk]: the function is called for a directory after its names were
    read, with the error of that read. *)
Fixpoint walk (n : Disk.node) (path : string) (st : S) : option error * S :=
  match n with
  | Disk.Directory _ readable entries =>
      let readErr := if readable then None else Some ErrPermission in
      let '(err1, st1) := walkFn path (Disk.infoOf n) readErr st in
      match readErr, err1 with
      | None, None =>
          walkNames path
            (sortBy (fun a b => String.ltb (fst (fst a)) (fst (fst b)))
               (map (fun c => (Disk.nodeName c, Disk.isDirectory c, walk c)) entries))
            st1
      | _, _ => (err1, st1)
      end
  | _ => walkFn path (Disk.infoOf n) None st
  end.

(** [filepath.Walk] from the root of the disk. *)
Definition Walk (dk : Disk.disk) (root : string) (st : S) : option error * S :=
  let '(err, st1) := walk (Disk.root dk) root st in
  (match err with
   | Some e => if sameSentinel e SkipDir then None else Some e
   | None => None
   end, st1).

End Walk.

(** The list [paths] of [Run]. *)
Definition pathsOf (opts : Options) (ign : Gitignore.GitIgnore) (dk : Disk.disk) : list string :=
  snd (Walk (collect opts ign) dk (Root opts) []).

(** The options with another list of extensions. *)
Definition withExcludeExts (opts : Options) (exts : list string) : Options :=
  {| Root := Root opts; IncludeTree := IncludeTree opts; MaxSize := MaxSize opts;
     ExcludeDirs := ExcludeDirs opts; ExcludeExts := exts;
     ExcludePatterns := ExcludePatterns opts; SkipTextual := SkipTextual opts;
     Verbose := Verbose opts |}.

(** The options of a plain run on [/w/p]. *)
Definition plainOptions : Options :=
  {| Root := "/w/p"; IncludeTree := true; MaxSize := 1048576; ExcludeDirs := [];
     ExcludeExts := [ "LOG"; ".Tmp" ]; ExcludePatterns := []; SkipTextual := false;
     Verbose := false |}.

(** A project with one file on top and one in a directory. *)
Definition smallDisk : Disk.disk :=
  {| Disk.rootPath := "/w/p";
     Disk.root :=
       Disk.Directory "p" true
         [ Disk.File "main.go" 420 "package main";
           Disk.File "run.sh" 493 "#!/bin/sh";
           Disk.Directory "pkg" true [ Disk.File "lib.go" 420 "package pkg" ] ] |}.

End Collector.

(* ===================================================================== *)
(** * Theorems                                                            *)
(* ===================================================================== *)

Example base_ex1 : Filepath.Base "/w/p/sub/APP.LOG" = "APP.LOG". Proof. reflexivity. Qed.
Example base_ex2 : Filepath.Base "/w/p/" = "p". Proof. reflexivity. Qed.
Example base_ex3 : Filepath.Base "///" = "/". Proof. reflexivity. Qed.
Example ext_ex1 : Filepath.Ext "/w/p.d/APP.LOG" = ".LOG". Proof. reflexivity. Qed.
Example ext_ex2 : Filepath.Ext "/w/p.d/Makefile" = "". Proof. reflexivity. Qed.
Example ext_ex3 : Filepath.Ext "/w/.gitignore" = ".gitignore". Proof. reflexivity. Qed.
Example dir_ex1 : Filepath.Dir "/w/p/a.txt" = "/w/p". Proof. reflexivity. Qed.
Example dir_ex2 : Filepath.Dir "/w" = "/". Proof. reflexivity. Qed.
Example dir_ex3 : Filepath.Dir "/" = "/". Proof. reflexivity. Qed.
Example dir_ex4 : Filepath.Dir "a" = ".". Proof. reflexivity. Qed.
Example join_ex1 : Filepath.Join "/w/p" ".gitignore" = "/w/p/.gitignore". Proof. reflexivity. Qed.
Example join_ex2 : Filepath.Join "/w/p/" "../q" = "/w/q". Proof. reflexivity. Qed.
Example rel_ex1 : Filepath.Rel "/w/p" "/w/p/sub/a.txt" = Some "sub/a.txt". Proof. reflexivity. Qed.
Example rel_ex2 : Filepath.Rel "/w/p" "/w/p" = Some ".". Proof. reflexivity. Qed.
Example rel_ex3 : Filepath.Rel "/w/p/q" "/w/x" = Some "../../x". Proof. reflexivity. Qed.
Example match_ex1 : Filepath.Match "*_test.go" "utils_test.go" = true. Proof. reflexivity. Qed.
Example match_ex2 : Filepath.Match "temp/*" "temp/some.txt" = true. Proof. reflexivity. Qed.
Example match_ex3 : Filepath.Match "*" "temp/some.txt" = false. Proof. reflexivity. Qed.
Example match_ex4 : Filepath.Match "[a-c]?.go" "bz.go" = true. Proof. reflexivity. Qed.
Example match_ex5 : Filepath.Match "[a-c" "b" = false. Proof. reflexivity. Qed.
Example match_ex6 : Filepath.Match "" "" = true. Proof. reflexivity. Qed.
Example match_ex7 : Filepath.Match "??.go" "é.go" = false. Proof. reflexivity. Qed.
Example match_ex8 : Filepath.Match "?.go" "é.go" = true. Proof. reflexivity. Qed.
Example match_ex9 : Filepath.Match "*[^x]*b" "a/b" = false. Proof. reflexivity. Qed.
Example match_table :
  forallb (fun t => Bool.eqb (Filepath.Match (fst (fst t)) (snd (fst t))) (snd t))
          Notions.matchCases = true.
Proof. vm_compute. reflexivity. Qed.
Example lower_ex : Strings.ToLower ".LOG" = ".log". Proof. reflexivity. Qed.
Example gi_ex1 : Gitignore.MatchesPath (Gitignore.CompileIgnoreLines ["*.log"]) "/w/p/sub/important.log" = true.
Proof. vm_compute. reflexivity. Qed.
Example gi_ex2 : Gitignore.MatchesPath (Gitignore.CompileIgnoreLines ["!important.log"; "*.txt"]) "/w/p/sub/important.log" = false.
Proof. vm_compute. reflexivity. Qed.
Example gi_ex3 : Gitignore.MatchesPath (Gitignore.CompileIgnoreLines ["*.log"; "!keep.log"]) "/w/p/keep.log" = false.
Proof. vm_compute. reflexivity. Qed.
Example gi_ex4 : Gitignore.MatchesPath (Gitignore.CompileIgnoreLines ["logs/"]) "/w/p/logs" = false.
Proof. vm_compute. reflexivity. Qed.
Example gi_ex5 : Gitignore.MatchesPath (Gitignore.CompileIgnoreLines ["logs/"]) "/w/p/logs/a.txt" = true.
Proof. vm_compute. reflexivity. Qed.
Example gi_ex6 : Gitignore.MatchesPath (Gitignore.CompileIgnoreLines ["sub_dir/*.md"]) "/w/p/sub_dir/doc.md" = false.
Proof. vm_compute. reflexivity. Qed.

Import Fs Filefilter.

(** ** The decision engine *)

Section Decision.

Variable GOOS : string.

(** A matcher of the stack that matches the path excludes the entry,
    whatever the matchers of deeper directories say: a verdict of "no
    match" and a negated match are the same [false] to the loop. *)
Lemma any_matching_level_excludes ff absPath d info active m :
  Info d = inl info ->
  In (Some m) active ->
  Gitignore.MatchesPath (Gitignore.target m) absPath = true ->
  fst (IsExcluded GOOS ff absPath d active) = true.
Proof.
  intros Hinfo Hin Hm. unfold IsExcluded. rewrite Hinfo.
  destruct (negb _ && String.eqb absPath _); [reflexivity|].
  destruct (negb (Z.land (fi_Mode info) ModeSymlink =? 0)); [reflexivity|].
  destruct (fi_IsDir info && existsb _ _); [reflexivity|].
  assert (Hex : existsb (matcherHits absPath) (rev active) = true).
  { apply existsb_exists. exists (Some m). split; [|exact Hm].
    apply in_rev. rewrite rev_involutive. exact Hin. }
  rewrite Hex. destruct (fi_IsDir info); reflexivity.
Qed.

(** For a file the verdict is then exclusion with a nil error. *)
Lemma any_matching_level_excludes_file ff absPath d info active m :
  Info d = inl info ->
  fi_IsDir info = false ->
  In (Some m) active ->
  Gitignore.MatchesPath (Gitignore.target m) absPath = true ->
  IsExcluded GOOS ff absPath d active = (true, None).
Proof.
  intros Hinfo Hfile Hin Hm. unfold IsExcluded. rewrite Hinfo, Hfile.
  destruct (negb _ && String.eqb absPath _); [reflexivity|].
  destruct (negb (Z.land (fi_Mode info) ModeSymlink =? 0)); [reflexivity|].
  cbn [andb].
  assert (Hex : existsb (matcherHits absPath) (rev active) = true).
  { apply existsb_exists. exists (Some m). split; [|exact Hm].
    apply in_rev. rewrite rev_involutive. exact Hin. }
  rewrite Hex. reflexivity.
Qed.

(** The first test of [IsExcluded]: the output file is excluded before
    the entry is even looked at. *)
Lemma output_file_excluded ff absPath d active :
  absFinalOutputFilePath ff <> "" ->
  absPath = absFinalOutputFilePath ff ->
  IsExcluded GOOS ff absPath d active = (true, None).
Proof.
  intros Hne ->. unfold IsExcluded.
  destruct (String.eqb_spec (absFinalOutputFilePath ff) ""); [contradiction|].
  rewrite String.eqb_refl. reflexivity.
Qed.

(** An entry that [IsExcluded] lets through is not the output file. *)
Lemma included_is_not_output ff absPath d active :
  absFinalOutputFilePath ff <> "" ->
  IsExcluded GOOS ff absPath d active = (false, None) ->
  absPath <> absFinalOutputFilePath ff.
Proof.
  intros Hne Hinc Heq.
  rewrite (output_file_excluded ff absPath d active Hne Heq) in Hinc.
  discriminate.
Qed.

(** With the limit at zero, or a size within the limit, the size test is
    passed over: the rest of [IsExcluded] decides. *)
Lemma size_rule_silent ff absPath d info active :
  Info d = inl info ->
  MaxFileSize (config ff) <= 0 \/ fi_Size info <= MaxFileSize (config ff) ->
  IsExcluded GOOS ff absPath d active
  = IsExcluded GOOS (Fixtures.unlimited ff) absPath d active.
Proof.
  intros Hinfo Hsz. unfold IsExcluded. rewrite Hinfo. cbn.
  assert (Hoff : (0 <? MaxFileSize (config ff)) && (MaxFileSize (config ff) <? fi_Size info)
                 = false).
  { destruct Hsz as [H|H].
    - replace (0 <? MaxFileSize (config ff)) with false by (symmetry; apply Z.ltb_ge; lia).
      reflexivity.
    - replace (MaxFileSize (config ff) <? fi_Size info) with false
        by (symmetry; apply Z.ltb_ge; lia).
      apply andb_false_r. }
  rewrite Hoff. reflexivity.
Qed.

End Decision.

(** C4. Max-size rule: a file larger than a positive limit is excluded;
    with the limit at zero the size of a file plays no part in the
    verdict; and a file whose size is exactly the limit gets the verdict
    it would get without any limit (the comparison is strict). *)
Theorem C4_max_size_rule GOOS ff absPath d info active :
  Info d = inl info ->
  fi_IsDir info = false ->
  (0 < MaxFileSize (config ff) ->
   MaxFileSize (config ff) < fi_Size info ->
   IsExcluded GOOS ff absPath d active = (true, None))
  /\ (MaxFileSize (config ff) = 0 ->
      forall size,
        IsExcluded GOOS ff absPath (Fixtures.withSize d size) active
        = IsExcluded GOOS ff absPath d active)
  /\ (fi_Size info = MaxFileSize (config ff) ->
      IsExcluded GOOS ff absPath d active
      = IsExcluded GOOS (Fixtures.unlimited ff) absPath d active).
Proof.
  intros Hinfo Hfile. repeat split.
  - intros Hpos Hbig. unfold IsExcluded. rewrite Hinfo, Hfile. cbn.
    destruct (negb _ && String.eqb absPath _); [reflexivity|].
    destruct (negb (Z.land (fi_Mode info) ModeSymlink =? 0)); [reflexivity|].
    destruct (existsb (matcherHits absPath) (rev active)); [reflexivity|].
    replace (0 <? MaxFileSize (config ff)) with true by (symmetry; apply Z.ltb_lt; lia).
    replace (MaxFileSize (config ff) <? fi_Size info) with true
      by (symmetry; apply Z.ltb_lt; lia).
    reflexivity.
  - intros Hzero size. unfold IsExcluded, Fixtures.withSize. cbn. rewrite Hinfo. cbn.
    rewrite Hzero. cbn. reflexivity.
  - intros Heq. apply (size_rule_silent GOOS ff absPath d info active Hinfo). lia.
Qed.

(** The size test of the package: limit 1024, files of 2000, 500 and
    exactly 1024 bytes; and the same files under no limit. *)
Lemma C4_max_size_rule_witness :
  let ff := NewFileFilter "/w/p"
              (Fixtures.withMaxFileSize (Fixtures.defaultFileFilterConfig "/w/out/output.txt") 1024) in
  IsExcluded "linux" ff "/w/p/large.bin" (Fixtures.newMockFile "large.bin" 2000 0) [] = (true, None)
  /\ IsExcluded "linux" ff "/w/p/exact.dat" (Fixtures.newMockFile "exact.dat" 1024 0) []
     = IsExcluded "linux" (Fixtures.unlimited ff) "/w/p/exact.dat"
         (Fixtures.newMockFile "exact.dat" 1024 0) []
  /\ IsExcluded "linux" ff "/w/p/exact.dat" (Fixtures.newMockFile "exact.dat" 1024 0) []
     = (false, None)
  /\ IsExcluded "linux" (Fixtures.unlimited ff) "/w/p/large.bin"
       (Fixtures.withSize (Fixtures.newMockFile "large.bin" 2000 0) 5000000) []
     = IsExcluded "linux" (Fixtures.unlimited ff) "/w/p/large.bin"
         (Fixtures.newMockFile "large.bin" 2000 0) [].
Proof.
  cbv zeta. split; [|split; [|split]].
  - refine (proj1 (C4_max_size_rule "linux" _ "/w/p/large.bin"
                     (Fixtures.newMockFile "large.bin" 2000 0) _ [] eq_refl eq_refl) _ _);
      vm_compute; reflexivity.
  - refine (proj2 (proj2 (C4_max_size_rule "linux" _ "/w/p/exact.dat"
                     (Fixtures.newMockFile "exact.dat" 1024 0) _ [] eq_refl eq_refl)) _);
      vm_compute; reflexivity.
  - vm_compute. reflexivity.
  - refine (proj1 (proj2 (C4_max_size_rule "linux" _ "/w/p/large.bin"
                     (Fixtures.newMockFile "large.bin" 2000 0) _ [] eq_refl eq_refl)) _ 5000000);
      vm_compute; reflexivity.
Defined.

(** C7. Symbolic links are always excluded: an entry whose mode has the
    symlink bit is excluded with a nil error whatever else holds of it, and
    so is a link whose metadata cannot be read because it does not exist. *)
Theorem C7_symlinks_always_excluded GOOS ff absPath d active :
  (forall info,
      Info d = inl info ->
      Z.land (fi_Mode info) ModeSymlink <> 0 ->
      IsExcluded GOOS ff absPath d active = (true, None))
  /\ (forall err,
      Info d = inr err ->
      Z.land (Type_ d) ModeSymlink <> 0 ->
      IsNotExist err = true ->
      IsExcluded GOOS ff absPath d active = (true, None)).
Proof.
  split.
  - intros info Hinfo Hbit. unfold IsExcluded. rewrite Hinfo.
    destruct (negb _ && String.eqb absPath _); [reflexivity|].
    destruct (Z.eqb_spec (Z.land (fi_Mode info) ModeSymlink) 0); [contradiction|].
    reflexivity.
  - intros err Herr Hbit Hne. unfold IsExcluded. rewrite Herr.
    destruct (negb _ && String.eqb absPath _); [reflexivity|].
    destruct (Z.eqb_spec (Z.land (Type_ d) ModeSymlink) 0); [contradiction|].
    rewrite Hne. reflexivity.
Qed.

(** The symlink of the package test, and a dangling one. *)
Lemma C7_symlinks_always_excluded_witness :
  let ff := NewFileFilter "/w/p" (Fixtures.defaultFileFilterConfig "/w/p/output.txt") in
  IsExcluded "linux" ff "/w/p/symlink.txt" (Fixtures.newMockFile "symlink.txt" 0 ModeSymlink) []
  = (true, None)
  /\ IsExcluded "linux" ff "/w/p/gone" (Fixtures.failingEntry "gone" ModeSymlink ErrNotExist) []
     = (true, None).
Proof.
  cbv zeta. split.
  - refine (proj1 (C7_symlinks_always_excluded "linux" _ "/w/p/symlink.txt"
                     (Fixtures.newMockFile "symlink.txt" 0 ModeSymlink) []) _ eq_refl _).
    vm_compute. discriminate.
  - refine (proj2 (C7_symlinks_always_excluded "linux" _ "/w/p/gone"
                     (Fixtures.failingEntry "gone" ModeSymlink ErrNotExist) []) _ eq_refl _ eq_refl).
    vm_compute. discriminate.
Defined.

(** [strings.ToLower] leaves no upper-case ASCII letter behind. *)
Lemma lowerByte_idempotent c : Strings.lowerByte (Strings.lowerByte c) = Strings.lowerByte c.
Proof.
  destruct c as [[] [] [] [] [] [] [] []]; vm_compute; reflexivity.
Qed.

Lemma ToLower_idempotent s : Strings.ToLower (Strings.ToLower s) = Strings.ToLower s.
Proof.
  induction s as [|c s IH]; cbn; [reflexivity|].
  rewrite lowerByte_idempotent, IH. reflexivity.
Qed.

(** A configured extension that is not in lower case matches no file: the
    file's extension is lowered, the configured one is compared as given. *)
Lemma mixed_case_user_extension_never_matches absPath excludedExt :
  Strings.ToLower excludedExt <> excludedExt ->
  userExtMatches (Strings.ToLower (Filepath.Ext absPath)) excludedExt = false.
Proof.
  intros Hcase. unfold userExtMatches.
  destruct (String.eqb_spec (Strings.ToLower (Filepath.Ext absPath)) excludedExt) as [Heq|Hne].
  - exfalso. apply Hcase. rewrite <- Heq. apply ToLower_idempotent.
  - apply andb_false_r.
Qed.

(** C1, evaluated on the nested project of the package test (root
    [.gitignore] with [*.log], [sub/.gitignore] with [!important.log] and
    [*.txt]): [sub/important.log] is excluded although the deeper file
    negates it, because the root matcher still matches; the matcher of
    [sub] alone would keep it, and no matcher whatever put after the root's
    brings the file back.  The other three paths are excluded as the claim
    says. *)
Theorem C1_nested_negation_overridden_by_root :
  IsExcluded "linux" Fixtures.nestedFilter "/w/p/sub/important.log"
    (Fixtures.newMockFile "important.log" 100 0) [Fixtures.rootIgnore; Fixtures.subIgnore]
  = (true, None)
  /\ IsExcluded "linux" Fixtures.nestedFilter "/w/p/sub/important.log"
       (Fixtures.newMockFile "important.log" 100 0) [Fixtures.subIgnore]
     = (false, None)
  /\ (forall deeper,
        IsExcluded "linux" Fixtures.nestedFilter "/w/p/sub/important.log"
          (Fixtures.newMockFile "important.log" 100 0) (Fixtures.rootIgnore :: deeper)
        = (true, None))
  /\ IsExcluded "linux" Fixtures.nestedFilter "/w/p/sub/other.log"
       (Fixtures.newMockFile "other.log" 100 0) [Fixtures.rootIgnore; Fixtures.subIgnore]
     = (true, None)
  /\ IsExcluded "linux" Fixtures.nestedFilter "/w/p/sub/data.txt"
       (Fixtures.newMockFile "data.txt" 100 0) [Fixtures.rootIgnore; Fixtures.subIgnore]
     = (true, None)
  /\ IsExcluded "linux" Fixtures.nestedFilter "/w/p/x.log"
       (Fixtures.newMockFile "x.log" 100 0) [Fixtures.rootIgnore]
     = (true, None).
Proof.
  split; [vm_compute; reflexivity|]. split; [vm_compute; reflexivity|].
  split; [|repeat split; vm_compute; reflexivity].
  intros deeper.
  destruct Fixtures.rootIgnore as [m|] eqn:Hroot; [|discriminate].
  eapply any_matching_level_excludes_file with (m := m);
    [reflexivity|reflexivity|left; reflexivity|].
  injection Hroot as <-. vm_compute. reflexivity.
Qed.

(** C8, evaluated: [--exclude-exts .LOG] reaches the filter as [.LOG]
    (the auxiliary list, by contrast, is lowered when it is built), and with
    it [APP.LOG] is not excluded, while [--exclude-exts .log] excludes it;
    no configured extension with an upper-case letter excludes any file. *)
Theorem C8_upper_case_configured_extension_is_dead :
  Cmd.excludeExtsOf ".LOG" = [".LOG"]
  /\ Appconfig.normalizeAux ".LOG" = ".log"
  /\ IsExcluded "linux"
       (NewFileFilter "/w/p"
          (Fixtures.withUserExts (Fixtures.nestedConfig "/w/out/output.txt")
             (Cmd.excludeExtsOf ".LOG")))
       "/w/p/APP.LOG" (Fixtures.newMockFile "APP.LOG" 100 0) []
     = (false, None)
  /\ IsExcluded "linux"
       (NewFileFilter "/w/p"
          (Fixtures.withUserExts (Fixtures.nestedConfig "/w/out/output.txt")
             (Cmd.excludeExtsOf ".log")))
       "/w/p/APP.LOG" (Fixtures.newMockFile "APP.LOG" 100 0) []
     = (true, None)
  /\ (forall absPath,
        existsb (userExtMatches (Strings.ToLower (Filepath.Ext absPath)))
                (Cmd.excludeExtsOf ".LOG") = false).
Proof.
  split; [reflexivity|]. split; [reflexivity|]. split; [vm_compute; reflexivity|].
  split; [vm_compute; reflexivity|].
  intros absPath. change (Cmd.excludeExtsOf ".LOG") with [".LOG"]. cbn [existsb].
  rewrite mixed_case_user_extension_never_matches; [reflexivity|].
  vm_compute. discriminate.
Qed.

Lemma existsb_dropEmpty (f : string -> bool) l :
  (forall s, s = "" -> f s = false) ->
  existsb f (Fixtures.dropEmpty l) = existsb f l.
Proof.
  intros Hf. unfold Fixtures.dropEmpty.
  induction l as [|x l IH]; [reflexivity|].
  cbn [List.filter existsb]. destruct (String.eqb_spec x "") as [Heq|Hne]; cbn [negb existsb].
  - rewrite (Hf x Heq). exact IH.
  - rewrite IH. reflexivity.
Qed.

(** C10. Empty user rules are inert: the verdict is the one reached with
    the empty strings removed from the user's extension and glob lists; an
    empty extension entry matches no file, not even one without extension,
    and an empty glob matches no path. *)
Theorem C10_empty_user_rules_inert GOOS ff absPath d active :
  IsExcluded GOOS ff absPath d active
  = IsExcluded GOOS (Fixtures.withoutEmptyUserRules ff) absPath d active
  /\ (forall fileExt, existsb (userExtMatches fileExt) [""] = false)
  /\ (forall relPath baseName, existsb (userGlobMatches relPath baseName) [""] = false).
Proof.
  split; [|split; intros; reflexivity].
  unfold IsExcluded, excludedByKind. cbn.
  rewrite existsb_dropEmpty by (intros s ->; reflexivity).
  rewrite existsb_dropEmpty by (intros s ->; reflexivity).
  reflexivity.
Qed.

(** ** The cache of compiled ignore files *)

Import Processor.

(** A path found in the cache is answered from it: same value, same state,
    no call on the file system. *)
Lemma compile_hit fs dirPath st matcher :
  gitIgnoreCache st !! Filepath.Join dirPath ".gitignore" = Some matcher ->
  compileAndCacheGitIgnore fs dirPath st = ((matcher, None), st).
Proof.
  intros Hhit. unfold compileAndCacheGitIgnore. rewrite Hhit. reflexivity.
Qed.

(** Whatever a call returns is what the cache holds for the path afterwards. *)
Lemma compile_records fs dirPath st :
  gitIgnoreCache (snd (compileAndCacheGitIgnore fs dirPath st))
    !! Filepath.Join dirPath ".gitignore"
  = Some (fst (fst (compileAndCacheGitIgnore fs dirPath st))).
Proof.
  unfold compileAndCacheGitIgnore.
  destruct (gitIgnoreCache st !! Filepath.Join dirPath ".gitignore") as [m|] eqn:Hc.
  - cbn. exact Hc.
  - destruct (fsStat fs _) as [e|].
    + cbn. apply lookup_insert_eq.
    + destruct (Gitignore.CompileIgnoreFile _) as [gi|e]; cbn; apply lookup_insert_eq.
Qed.

(** The error of a call is always nil. *)
Lemma compile_never_fails fs dirPath st :
  snd (fst (compileAndCacheGitIgnore fs dirPath st)) = None.
Proof.
  unfold compileAndCacheGitIgnore.
  destruct (gitIgnoreCache st !! _); [reflexivity|].
  destruct (fsStat fs _); [reflexivity|].
  destruct (Gitignore.CompileIgnoreFile _); reflexivity.
Qed.

(** Entries are never dropped or overwritten: a call only adds the entry
    of a path that had none. *)
Lemma compile_keeps_entries fs dirPath st key v :
  gitIgnoreCache st !! key = Some v ->
  gitIgnoreCache (snd (compileAndCacheGitIgnore fs dirPath st)) !! key = Some v.
Proof.
  intros Hkey. unfold compileAndCacheGitIgnore.
  destruct (gitIgnoreCache st !! Filepath.Join dirPath ".gitignore") as [m|] eqn:Hc;
    [exact Hkey|].
  assert (Hne : Filepath.Join dirPath ".gitignore" <> key) by congruence.
  destruct (fsStat fs _) as [e|].
  - cbn. rewrite lookup_insert_ne; assumption.
  - destruct (Gitignore.CompileIgnoreFile _) as [gi|e]; cbn;
      rewrite lookup_insert_ne; assumption.
Qed.

Lemma compileEach_keeps_entries fs dirs st key v :
  gitIgnoreCache st !! key = Some v ->
  gitIgnoreCache (Notions.compileEach fs dirs st) !! key = Some v.
Proof.
  revert st. induction dirs as [|dirPath rest IH]; intros st Hkey; [exact Hkey|].
  cbn. apply IH. apply compile_keeps_entries. exact Hkey.
Qed.

(** C6. Compiling is idempotent and cached: a second call for the same
    directory returns what the first returned and leaves the state, the log
    of file system calls included, as it was; this still holds after any
    number of calls for other directories; the error is always nil; and a
    [.gitignore] that is found but cannot be compiled is cached as nil and
    answered as nil. *)
Theorem C6_compile_idempotent_and_cached fs dirPath st others :
  let first := compileAndCacheGitIgnore fs dirPath st in
  let later := Notions.compileEach fs others (snd first) in
  compileAndCacheGitIgnore fs dirPath (snd first) = (fst first, snd first)
  /\ ioLog (snd (compileAndCacheGitIgnore fs dirPath (snd first))) = ioLog (snd first)
  /\ compileAndCacheGitIgnore fs dirPath later = (fst first, later)
  /\ snd (fst first) = None
  /\ (gitIgnoreCache st !! Filepath.Join dirPath ".gitignore" = None ->
      fsStat fs (Filepath.Join dirPath ".gitignore") = None ->
      (forall content, fsReadFile fs (Filepath.Join dirPath ".gitignore") <> inl content) ->
      fst first = (None, None)
      /\ gitIgnoreCache (snd first) !! Filepath.Join dirPath ".gitignore" = Some None
      /\ compileAndCacheGitIgnore fs dirPath later = ((None, None), later)).
Proof.
  intros first later.
  assert (Hrec := compile_records fs dirPath st). fold first in Hrec.
  assert (Hnil := compile_never_fails fs dirPath st). fold first in Hnil.
  assert (Hshape : fst first = (fst (fst first), None)).
  { destruct first as [[m e] st1]. cbn in *. subst e. reflexivity. }
  assert (Hagain : compileAndCacheGitIgnore fs dirPath (snd first) = (fst first, snd first)).
  { rewrite (compile_hit fs dirPath (snd first) _ Hrec). rewrite <- Hshape. reflexivity. }
  assert (Hlater : compileAndCacheGitIgnore fs dirPath later = (fst first, later)).
  { rewrite (compile_hit fs dirPath later (fst (fst first))).
    - rewrite <- Hshape. reflexivity.
    - apply compileEach_keeps_entries. exact Hrec. }
  split; [exact Hagain|]. split; [rewrite Hagain; reflexivity|].
  split; [exact Hlater|]. split; [exact Hnil|].
  intros Hmiss Hstat Hread.
  assert (Hfirst : fst first = (None, None)).
  { subst first. unfold compileAndCacheGitIgnore. rewrite Hmiss, Hstat.
    destruct (fsReadFile fs (Filepath.Join dirPath ".gitignore")) as [content|e] eqn:Hr.
    - exfalso. exact (Hread content eq_refl).
    - reflexivity. }
  split; [exact Hfirst|]. split.
  - rewrite Hrec, Hfirst. reflexivity.
  - rewrite Hlater, Hfirst. reflexivity.
Qed.

(** A project whose [.gitignore] is a directory: the first call stats and
    tries to read it, caches nil, and later calls answer nil without
    touching the disk. *)
Lemma C6_compile_idempotent_and_cached_witness :
  let fs := fileSystemOf Notions.unreadableIgnoreDisk in
  let first := compileAndCacheGitIgnore fs "/w/p" initialState in
  let later := Notions.compileEach fs ["/w/p/sub"; "/w"] (snd first) in
  fst first = (None, None)
  /\ gitIgnoreCache (snd first) !! "/w/p/.gitignore" = Some None
  /\ compileAndCacheGitIgnore fs "/w/p" later = ((None, None), later)
  /\ ioLog (snd first) = [EvReadFile "/w/p/.gitignore"; EvStat "/w/p/.gitignore"].
Proof.
  cbv zeta. split; [|split; [|split]].
  - refine (proj1 (proj2 (proj2 (proj2 (proj2
      (C6_compile_idempotent_and_cached (fileSystemOf Notions.unreadableIgnoreDisk)
         "/w/p" initialState ["/w/p/sub"; "/w"])))) _ _ _)).
    + vm_compute. reflexivity.
    + vm_compute. reflexivity.
    + intros content. vm_compute. discriminate.
  - refine (proj1 (proj2 (proj2 (proj2 (proj2 (proj2
      (C6_compile_idempotent_and_cached (fileSystemOf Notions.unreadableIgnoreDisk)
         "/w/p" initialState ["/w/p/sub"; "/w"])))) _ _ _))).
    + vm_compute. reflexivity.
    + vm_compute. reflexivity.
    + intros content. vm_compute. discriminate.
  - refine (proj2 (proj2 (proj2 (proj2 (proj2 (proj2
      (C6_compile_idempotent_and_cached (fileSystemOf Notions.unreadableIgnoreDisk)
         "/w/p" initialState ["/w/p/sub"; "/w"])))) _ _ _))).
    + vm_compute. reflexivity.
    + vm_compute. reflexivity.
    + intros content. vm_compute. discriminate.
  - vm_compute. reflexivity.
Defined.

(** ** The tree and the walk on concrete projects *)

(** The tree of the basic test project as it is written: directories before
    files, the last entry of each level after a corner. *)
Example tree_of_basic_project :
  snd (BuildTreeString "linux" (Notions.testProcessor "/w/testdata") Notions.basicDisk
         initialState)
  = "testdata
├── sub
│   ├── empty_dir
│   └── fileB.md
└── fileA.txt
".
Proof. vm_compute. reflexivity. Qed.

(** [treeAndContent] shows what [Process] produces when the tree is asked
    for: the text is that of the same tree, the blocks are the same. *)
Lemma treeAndContent_of_Process GOOS p dk :
  IncludeTree (config p) = true ->
  snd (fst (Process GOOS p dk initialState))
  = Some (treeString (snd (buildTree GOOS p dk initialState)))
  /\ fst (Notions.treeAndContent GOOS p dk)
     = treeFiles (snd (buildTree GOOS p dk initialState))
  /\ snd (Notions.treeAndContent GOOS p dk)
     = map header (snd (Process GOOS p dk initialState)).
Proof.
  intros Htree. unfold Process, Notions.treeAndContent, BuildTreeString. rewrite Htree.
  destruct (buildTree GOOS p dk initialState) as [st1 rootNode].
  destruct (compile dk (basePath p) st1) as [r st2].
  destruct (WalkDir GOOS p dk st2) as [st3 out].
  repeat split.
Qed.

(** C2, evaluated.  For a project kept in a directory called [build] the
    tree shows [main.go] and no block is written: the walk applies the
    filter to the root and skips it by name, the tree builder does not.
    For a directory whose own [.gitignore] names it and negates one file,
    the tree shows the file and the walk skips the directory. *)
Theorem C2_tree_and_content_disagree :
  Notions.treeAndContent "linux" (Notions.testProcessor "/w/build") Notions.buildDisk
  = (["main.go"], [])
  /\ snd (fst (Process "linux" (Notions.testProcessor "/w/build") Notions.buildDisk
                 initialState))
     = Some "build
└── main.go
"
  /\ snd (Process "linux" (Notions.testProcessor "/w/build") Notions.buildDisk initialState)
     = []
  /\ Notions.treeAndContent "linux" (Notions.testProcessor "/w/p") Notions.selfIgnoringDisk
     = (["sub/keep.go"; "a.go"], ["a.go"]).
Proof.
  repeat split; vm_compute; reflexivity.
Qed.

(** C5 fails on the project of the basic test: the tree lists
    [sub/fileB.md] before [fileA.txt], the blocks come the other way
    round. *)
Lemma C5_content_order_is_not_tree_order :
  let shown := Notions.treeAndContent "linux" (Notions.testProcessor "/w/testdata")
                 Notions.basicDisk in
  fst shown = ["sub/fileB.md"; "fileA.txt"]
  /\ snd shown = ["fileA.txt"; "sub/fileB.md"]
  /\ snd shown <> fst shown.
Proof.
  cbv zeta. split; [vm_compute; reflexivity|]. split; [vm_compute; reflexivity|].
  vm_compute. discriminate.
Qed.

(** ** Sorting and the directory tree: general facts *)

(** Induction over a directory tree, with the hypothesis for every entry of
    a directory. *)
Lemma node_ind_entries (P : Disk.node -> Prop) :
  (forall name perm content, P (Disk.File name perm content)) ->
  (forall name, P (Disk.Symlink name)) ->
  (forall name readable entries,
      Forall P entries -> P (Disk.Directory name readable entries)) ->
  forall n, P n.
Proof.
  intros Hfile Hlink Hdir.
  exact (fix go (n : Disk.node) : P n :=
           match n with
           | Disk.File name perm content => Hfile name perm content
           | Disk.Symlink name => Hlink name
           | Disk.Directory name readable entries =>
               Hdir name readable entries
                 ((fix all (l : list Disk.node) : Forall P l :=
                     match l with
                     | [] => Stdlib.Lists.List.Forall_nil P
                     | x :: r => @Stdlib.Lists.List.Forall_cons _ P x r (go x) (all r)
                     end) entries)
           end).
Qed.

Section SortFacts.
Context {A B : Type}.

Lemma insertBy_map (f : A -> B) (lessA : A -> A -> bool) (lessB : B -> B -> bool) x l :
  (forall a b, lessB (f a) (f b) = lessA a b) ->
  insertBy lessB (f x) (map f l) = map f (insertBy lessA x l).
Proof.
  intros Hless. induction l as [|y l IH]; [reflexivity|].
  cbn. rewrite Hless. destruct (lessA y x); cbn; [rewrite IH|]; reflexivity.
Qed.

Lemma sortBy_map (f : A -> B) (lessA : A -> A -> bool) (lessB : B -> B -> bool) l :
  (forall a b, lessB (f a) (f b) = lessA a b) ->
  sortBy lessB (map f l) = map f (sortBy lessA l).
Proof.
  intros Hless. induction l as [|x l IH]; [reflexivity|].
  cbn. unfold sortBy in IH. rewrite IH. apply insertBy_map. exact Hless.
Qed.

Lemma insertBy_Permutation (less : A -> A -> bool) x l :
  Permutation (x :: l) (insertBy less x l).
Proof.
  induction l as [|y l IH]; [reflexivity|].
  cbn. destruct (less y x); [|reflexivity].
  rewrite <- IH. apply perm_swap.
Qed.

Lemma sortBy_Permutation (less : A -> A -> bool) l : Permutation l (sortBy less l).
Proof.
  induction l as [|x l IH]; [reflexivity|].
  cbn. rewrite <- insertBy_Permutation. constructor. exact IH.
Qed.

Lemma Forall_sortBy (P : A -> Prop) (less : A -> A -> bool) l :
  Forall P l -> Forall P (sortBy less l).
Proof.
  intros H. eapply Permutation_Forall; [apply sortBy_Permutation|exact H].
Qed.

(** Insertion keeps a list sorted when "less" never holds both ways. *)
Lemma insertBy_Sorted (less : A -> A -> bool) x l :
  (forall a b, less a b = true -> less b a = false) ->
  Sorted (fun a b => less b a = false) l ->
  Sorted (fun a b => less b a = false) (insertBy less x l).
Proof.
  intros Hasym Hs. induction Hs as [|y l Hs IH Hhd]; cbn.
  - repeat constructor.
  - destruct (less y x) eqn:Hyx.
    + constructor; [exact IH|].
      destruct Hhd as [|z l Hz]; cbn.
      * constructor. apply Hasym. exact Hyx.
      * destruct (less z x); constructor; [exact Hz|apply Hasym; exact Hyx].
    + constructor; [constructor; assumption|]. constructor. exact Hyx.
Qed.

Lemma sortBy_Sorted (less : A -> A -> bool) l :
  (forall a b, less a b = true -> less b a = false) ->
  Sorted (fun a b => less b a = false) (sortBy less l).
Proof.
  intros Hasym. induction l as [|x l IH]; cbn; [constructor|].
  apply insertBy_Sorted; assumption.
Qed.
End SortFacts.

(** ** The loop up the directories stops on its own *)

Local Close Scope Z_scope.

(** ** The fuel of the pattern parser is never what stops it *)

Lemma drop_length n : forall s, String.length (Strings.drop n s) <= String.length s.
Proof.
  induction n as [|n IH]; intros s; [destruct s; cbn; lia|].
  destruct s as [|c r]; [cbn; lia|]. cbn [Strings.drop String.length].
  specialize (IH r). lia.
Qed.

(** A code point of a string that is not empty takes a byte at least. *)
Lemma DecodeRuneInString_width c r :
  1 <= snd (Utf8.DecodeRuneInString (String c r)).
Proof.
  unfold Utf8.DecodeRuneInString.
  repeat match goal with
         | |- context [if ?b then _ else _] => destruct b
         | |- context [match ?x with EmptyString => _ | String _ _ => _ end] => destruct x
         end; cbn [snd]; lia.
Qed.

Lemma decoded_rest_shorter c r :
  String.length (Strings.drop (snd (Utf8.DecodeRuneInString (String c r))) (String c r))
  <= String.length r.
Proof.
  pose proof (DecodeRuneInString_width c r) as Hw.
  destruct (snd (Utf8.DecodeRuneInString (String c r))) as [|n]; [lia|].
  cbn [Strings.drop]. apply drop_length.
Qed.

Lemma getEsc_shorter chunk x rest :
  Filepath.getEsc chunk = Some (x, rest) -> String.length rest < String.length chunk.
Proof.
  unfold Filepath.getEsc. destruct chunk as [|c r]; [discriminate|].
  destruct (Ascii.eqb c "-" || Ascii.eqb c "]"); [discriminate|].
  assert (Hbody : forall body,
             String.length body <= String.length (String c r) ->
             match body with
             | EmptyString => None
             | String _ _ =>
                 let '(r0, n) := Utf8.DecodeRuneInString body in
                 if (Z.eqb r0 Utf8.RuneError) && Nat.eqb n 1 then None
                 else match Strings.drop n body with
                      | EmptyString => None
                      | String a nchunk => Some (r0, String a nchunk)
                      end
             end = Some (x, rest) ->
             String.length rest < String.length (String c r)).
  { intros body Hlen. destruct body as [|b body']; [discriminate|].
    pose proof (decoded_rest_shorter b body') as Hrest.
    destruct (Utf8.DecodeRuneInString (String b body')) as [r0 n]. cbn [snd] in Hrest.
    destruct (Z.eqb r0 Utf8.RuneError && Nat.eqb n 1); [discriminate|].
    destruct (Strings.drop n (String b body')) as [|a nchunk]; [discriminate|].
    intros [= <- <-]. cbn [String.length] in *. lia. }
  destruct (Ascii.eqb c "\"); intros H; [apply (Hbody r)|apply (Hbody (String c r))];
    cbn [String.length]; try lia; exact H.
Qed.

Lemma parseRanges_shorter fuel :
  forall chunk nrange rs rest,
    Filepath.parseRanges fuel chunk nrange = Some (rs, rest) ->
    String.length rest < String.length chunk.
Proof.
  induction fuel as [|fuel IH]; intros chunk nrange rs rest; [discriminate|].
  cbn [Filepath.parseRanges].
  assert (Hstep :
    match Filepath.getEsc chunk with
    | Some (lo, String "-" afterDash) =>
        match Filepath.getEsc afterDash with
        | Some (hi, rest0) =>
            match Filepath.parseRanges fuel rest0 (S nrange) with
            | Some (rs0, rest') => Some ((lo, hi) :: rs0, rest')
            | None => None
            end
        | None => None
        end
    | Some (lo, rest0) =>
        match Filepath.parseRanges fuel rest0 (S nrange) with
        | Some (rs0, rest') => Some ((lo, lo) :: rs0, rest')
        | None => None
        end
    | None => None
    end = Some (rs, rest) -> String.length rest < String.length chunk).
  { destruct (Filepath.getEsc chunk) as [[lo rest0]|] eqn:Hlo; [|discriminate].
    apply getEsc_shorter in Hlo.
    assert (Hplain :
      match Filepath.parseRanges fuel rest0 (S nrange) with
      | Some (rs0, rest') => Some ((lo, lo) :: rs0, rest')
      | None => None
      end = Some (rs, rest) -> String.length rest < String.length chunk).
    { destruct (Filepath.parseRanges fuel rest0 (S nrange)) as [[rs0 rest']|] eqn:Hr;
        [|discriminate].
      apply IH in Hr. intros [= <- <-]. lia. }
    destruct rest0 as [|d afterDash]; [exact Hplain|].
    destruct d as [[] [] [] [] [] [] [] []]; try exact Hplain.
    destruct (Filepath.getEsc afterDash) as [[hi rest1]|] eqn:Hhi; [|discriminate].
    apply getEsc_shorter in Hhi.
    destruct (Filepath.parseRanges fuel rest1 (S nrange)) as [[rs0 rest']|] eqn:Hr;
      [|discriminate].
    apply IH in Hr. intros [= <- <-]. cbn in *. lia. }
  destruct chunk as [|c r]; [exact Hstep|].
  destruct c as [[] [] [] [] [] [] [] []]; try exact Hstep.
  destruct (0 <? nrange)%nat; [|discriminate]. intros [= <- <-]. cbn. lia.
Qed.

Lemma parseRanges_enough_fuel fuel :
  forall chunk nrange,
    String.length chunk < fuel ->
    Filepath.parseRanges (S fuel) chunk nrange = Filepath.parseRanges fuel chunk nrange.
Proof.
  induction fuel as [|fuel IH]; intros chunk nrange Hfuel; [lia|].
  cbn [Filepath.parseRanges].
  assert (Hstep :
    match Filepath.getEsc chunk with
    | Some (lo, String "-" afterDash) =>
        match Filepath.getEsc afterDash with
        | Some (hi, rest0) =>
            match Filepath.parseRanges (S fuel) rest0 (S nrange) with
            | Some (rs0, rest') => Some ((lo, hi) :: rs0, rest')
            | None => None
            end
        | None => None
        end
    | Some (lo, rest0) =>
        match Filepath.parseRanges (S fuel) rest0 (S nrange) with
        | Some (rs0, rest') => Some ((lo, lo) :: rs0, rest')
        | None => None
        end
    | None => None
    end
    =
    match Filepath.getEsc chunk with
    | Some (lo, String "-" afterDash) =>
        match Filepath.getEsc afterDash with
        | Some (hi, rest0) =>
            match Filepath.parseRanges fuel rest0 (S nrange) with
            | Some (rs0, rest') => Some ((lo, hi) :: rs0, rest')
            | None => None
            end
        | None => None
        end
    | Some (lo, rest0) =>
        match Filepath.parseRanges fuel rest0 (S nrange) with
        | Some (rs0, rest') => Some ((lo, lo) :: rs0, rest')
        | None => None
        end
    | None => None
    end).
  { destruct (Filepath.getEsc chunk) as [[lo rest0]|] eqn:Hlo; [|reflexivity].
    apply getEsc_shorter in Hlo.
    assert (Hplain : Filepath.parseRanges (S fuel) rest0 (S nrange)
                     = Filepath.parseRanges fuel rest0 (S nrange)) by (apply IH; lia).
    destruct rest0 as [|d afterDash]; [rewrite Hplain; reflexivity|].
    destruct d as [[] [] [] [] [] [] [] []]; try (rewrite Hplain; reflexivity).
    destruct (Filepath.getEsc afterDash) as [[hi rest1]|] eqn:Hhi; [|reflexivity].
    apply getEsc_shorter in Hhi. rewrite IH by (cbn in *; lia). reflexivity. }
  destruct chunk as [|c r]; [exact Hstep|].
  destruct c as [[] [] [] [] [] [] [] []]; try exact Hstep. reflexivity.
Qed.

Lemma parsePattern_enough_fuel fuel :
  forall pattern,
    String.length pattern < fuel ->
    Filepath.parsePattern (S fuel) pattern = Filepath.parsePattern fuel pattern.
Proof.
  induction fuel as [|fuel IH]; intros pattern Hfuel; [lia|].
  destruct pattern as [|c r]; [reflexivity|]. cbn [String.length] in Hfuel.
  assert (Hr : Filepath.parsePattern (S fuel) r = Filepath.parsePattern fuel r)
    by (apply IH; lia).
  destruct c as [[] [] [] [] [] [] [] []];
    try exact (f_equal (option_map (cons _)) Hr).
  - (* a bracket: a class *)
    change (Filepath.parsePattern (S (S fuel)) (String "[" r))
      with (let '(neg, r1) :=
              match r with
              | String "^" r' => (true, r')
              | _ => (false, r)
              end in
            match Filepath.parseRanges (S (String.length r1)) r1 0 with
            | Some (rs, rest) =>
                option_map (cons (Filepath.TClass neg rs)) (Filepath.parsePattern (S fuel) rest)
            | None => None
            end).
    change (Filepath.parsePattern (S fuel) (String "[" r))
      with (let '(neg, r1) :=
              match r with
              | String "^" r' => (true, r')
              | _ => (false, r)
              end in
            match Filepath.parseRanges (S (String.length r1)) r1 0 with
            | Some (rs, rest) =>
                option_map (cons (Filepath.TClass neg rs)) (Filepath.parsePattern fuel rest)
            | None => None
            end).
    destruct (match r with
              | String "^" r' => (true, r')
              | _ => (false, r)
              end) as [neg r1] eqn:Hneg.
    assert (Hr1 : String.length r1 <= String.length r).
    { destruct r as [|c' r']; [injection Hneg as <- <-; lia|].
      destruct c' as [[] [] [] [] [] [] [] []];
        injection Hneg as <- <-; cbn; lia. }
    destruct (Filepath.parseRanges (S (String.length r1)) r1 0) as [[rs rest]|] eqn:Hranges;
      [|reflexivity].
    apply parseRanges_shorter in Hranges.
    rewrite IH by lia. reflexivity.
  - (* a backslash: the next byte stands for itself *)
    destruct r as [|c' r']; [reflexivity|].
    assert (Hr' : Filepath.parsePattern (S fuel) r' = Filepath.parsePattern fuel r')
      by (apply IH; cbn in *; lia).
    exact (f_equal (option_map (cons (Filepath.TLit c'))) Hr').
Qed.

(** The fuel of [Match] is never the reason a pattern is rejected. *)
Lemma Match_fuel_is_enough pattern extra :
  Filepath.parsePattern (S (String.length pattern) + extra) pattern
  = Filepath.parsePattern (S (String.length pattern)) pattern.
Proof.
  induction extra as [|extra IH]; [rewrite Nat.add_0_r; reflexivity|].
  rewrite <- IH. rewrite Nat.add_succ_r.
  apply parsePattern_enough_fuel. lia.
Qed.

Lemma parseRanges_fuel_is_enough chunk nrange extra :
  Filepath.parseRanges (S (String.length chunk) + extra) chunk nrange
  = Filepath.parseRanges (S (String.length chunk)) chunk nrange.
Proof.
  induction extra as [|extra IH]; [rewrite Nat.add_0_r; reflexivity|].
  rewrite <- IH. rewrite Nat.add_succ_r.
  apply parseRanges_enough_fuel. lia.
Qed.


Lemma weight_app l k : Notions.weight (l ++ k) = Notions.weight l + Notions.weight k.
Proof. induction l as [|x l IH]; cbn; [reflexivity|]. rewrite IH. lia. Qed.

Lemma weight_rev l : Notions.weight (rev l) = Notions.weight l.
Proof.
  induction l as [|x l IH]; cbn; [reflexivity|].
  rewrite weight_app, IH. cbn. lia.
Qed.

Lemma string_length_append (a b : string) :
  String.length (a ++ b) = String.length a + String.length b.
Proof.
  induction a as [|x a IH]; [reflexivity|].
  change (S (String.length (a ++ b)) = S (String.length a) + String.length b).
  rewrite IH. reflexivity.
Qed.

Lemma Join_length l :
  String.length (Strings.Join l "/") = Notions.weight l - 1.
Proof.
  induction l as [|x l IH]; [reflexivity|].
  destruct l as [|y l].
  - cbn. lia.
  - change (Strings.Join (x :: y :: l) "/") with (x ++ "/" ++ Strings.Join (y :: l) "/").
    rewrite !string_length_append, IH. cbn. lia.
Qed.

Lemma Split_weight s : Notions.weight (Strings.Split "/" s) = S (String.length s).
Proof.
  induction s as [|c r IH]; [reflexivity|].
  cbn [Strings.Split]. destruct (Ascii.eqb c "/").
  - cbn. rewrite IH. reflexivity.
  - destruct (Strings.Split "/" r) as [|h t]; cbn in *; lia.
Qed.

Lemma weightOfNonEmpty_le l : Notions.weightOfNonEmpty l <= Notions.weight l.
Proof.
  induction l as [|x l IH]; cbn; [lia|]. destruct (Filepath.isEmpty x); lia.
Qed.

Lemma Split_nonEmpty_weight s :
  Notions.weightOfNonEmpty (Strings.Split "/" s) + (if Filepath.rooted s then 1 else 0)
  <= S (String.length s).
Proof.
  destruct s as [|c r]; [cbn; lia|].
  cbn [Filepath.rooted]. unfold Filepath.Separator.
  destruct (Ascii.eqb c "/") eqn:Hc.
  - cbn [Strings.Split]. rewrite Hc. cbn.
    pose proof (weightOfNonEmpty_le (Strings.Split "/" r)).
    rewrite Split_weight in H. lia.
  - pose proof (weightOfNonEmpty_le (Strings.Split "/" (String c r))).
    rewrite Split_weight in H. lia.
Qed.

(** The clean-up never adds bytes to what it keeps. *)
Lemma cleanStep_weight isRooted acc seg :
  Notions.weight (Filepath.cleanStep isRooted acc seg)
  <= Notions.weight acc + (if Filepath.isEmpty seg then 0 else S (String.length seg)).
Proof.
  unfold Filepath.cleanStep.
  destruct (Filepath.isEmpty seg) eqn:He; cbn [orb].
  - lia.
  - destruct (String.eqb seg "."); [lia|].
    destruct (String.eqb seg "..").
    + destruct acc as [|top rest].
      * destruct isRooted; cbn; lia.
      * destruct (String.eqb top ".."); cbn; lia.
    + cbn. lia.
Qed.

Lemma cleanFold_weight isRooted segs acc :
  Notions.weight (fold_left (Filepath.cleanStep isRooted) segs acc)
  <= Notions.weight acc + Notions.weightOfNonEmpty segs.
Proof.
  revert acc. induction segs as [|seg segs IH]; intros acc; cbn; [lia|].
  specialize (IH (Filepath.cleanStep isRooted acc seg)).
  pose proof (cleanStep_weight isRooted acc seg). lia.
Qed.

Lemma cleanSegments_weight q :
  Notions.weight (Filepath.cleanSegments q) + (if Filepath.rooted q then 1 else 0)
  <= S (String.length q).
Proof.
  unfold Filepath.cleanSegments. rewrite weight_rev.
  pose proof (cleanFold_weight (Filepath.rooted q) (Strings.Split "/" q) []).
  pose proof (Split_nonEmpty_weight q). cbn in H. unfold Filepath.Separator. lia.
Qed.

(** Cleaning a path that is not empty does not make it longer. *)
Lemma Clean_length q :
  q <> "" -> String.length (Filepath.Clean q) <= String.length q.
Proof.
  intros Hq. assert (1 <= String.length q) by (destruct q; [congruence|cbn; lia]).
  unfold Filepath.Clean. pose proof (cleanSegments_weight q) as Hw.
  pose proof (Join_length (Filepath.cleanSegments q)) as Hj.
  destruct (Filepath.rooted q).
  - rewrite string_length_append. cbn [String.length]. lia.
  - destruct (Filepath.isEmpty _); [cbn; lia|]. lia.
Qed.

Lemma uptoLastSeparator_shorter s :
  Filepath.uptoLastSeparator s = s
  \/ String.length (Filepath.uptoLastSeparator s) < String.length s.
Proof.
  induction s as [|c r IH]; [left; reflexivity|].
  cbn [Filepath.uptoLastSeparator].
  destruct (Filepath.uptoLastSeparator r) as [|d t] eqn:Hr.
  - destruct (Ascii.eqb c Filepath.Separator).
    + destruct r as [|e r']; [left; reflexivity|right; cbn; lia].
    + right. cbn. lia.
  - destruct IH as [IH|IH].
    + left. rewrite IH. reflexivity.
    + right. cbn in *. lia.
Qed.

Lemma uptoLastSeparator_fixed s :
  Filepath.uptoLastSeparator s = s -> s <> "" -> exists q0, s = q0 ++ "/".
Proof.
  induction s as [|c r IH]; [congruence|]. intros Hfix _.
  cbn [Filepath.uptoLastSeparator] in Hfix.
  destruct (Filepath.uptoLastSeparator r) as [|d t] eqn:Hr.
  - destruct (Ascii.eqb_spec c Filepath.Separator) as [->|Hne]; [|discriminate].
    injection Hfix as <-. exists "". reflexivity.
  - injection Hfix as Hfix. destruct IH as [q0 Hq0]; [exact Hfix|congruence|].
    exists (String c q0). rewrite Hq0 at 1. reflexivity.
Qed.

Lemma Split_not_nil sep s : Strings.Split sep s <> [].
Proof.
  destruct s as [|c r]; cbn; [discriminate|].
  destruct (Ascii.eqb c sep); [discriminate|].
  destruct (Strings.Split sep r); discriminate.
Qed.

Lemma Split_trailing_separator q0 :
  Strings.Split "/" (q0 ++ "/") = (Strings.Split "/" q0 ++ [""])%list.
Proof.
  induction q0 as [|c r IH]; [reflexivity|].
  change (String c r ++ "/") with (String c (r ++ "/")).
  cbn [Strings.Split]. rewrite IH. destruct (Ascii.eqb c "/"); [reflexivity|].
  pose proof (Split_not_nil "/" r).
  destruct (Strings.Split "/" r); [congruence|reflexivity].
Qed.

(** Cleaning a path that ends in a separator returns it as it is (the
    root), makes it shorter, or leaves the dot. *)
Lemma Clean_trailing_separator q0 :
  Filepath.Clean (q0 ++ "/") = q0 ++ "/"
  \/ String.length (Filepath.Clean (q0 ++ "/")) < String.length (q0 ++ "/")
  \/ Filepath.Clean (q0 ++ "/") = ".".
Proof.
  destruct q0 as [|c r]; [left; reflexivity|].
  set (q := String c r ++ "/").
  assert (Hrooted : Filepath.rooted q = Filepath.rooted (String c r)) by reflexivity.
  assert (Hkept : Notions.weight (Filepath.cleanSegments q)
                  + (if Filepath.rooted q then 1 else 0) <= String.length q).
  { unfold Filepath.cleanSegments. rewrite weight_rev. subst q.
    unfold Filepath.Separator. rewrite Split_trailing_separator, fold_left_app. cbn [fold_left].
    unfold Filepath.cleanStep at 1. cbn [Filepath.isEmpty orb].
    pose proof (cleanFold_weight (Filepath.rooted (String c r ++ "/"))
                  (Strings.Split "/" (String c r)) []) as Hf.
    pose proof (Split_nonEmpty_weight (String c r)) as Hs.
    rewrite Hrooted in *. rewrite string_length_append. cbn [String.length Notions.weight] in *. lia. }
  assert (Hlen : 2 <= String.length q).
  { subst q. rewrite string_length_append. cbn. lia. }
  unfold Filepath.Clean.
  pose proof (Join_length (Filepath.cleanSegments q)) as Hj.
  destruct (Filepath.rooted q).
  - right. left. rewrite string_length_append. cbn [String.length]. lia.
  - destruct (Filepath.isEmpty _); [right; right; reflexivity|].
    right. left. lia.
Qed.

(** One step up: the parent is the path itself, or shorter, or the dot. *)
Lemma Dir_shorter p :
  p <> "" ->
  Filepath.Dir p = p
  \/ String.length (Filepath.Dir p) < String.length p
  \/ Filepath.Dir p = ".".
Proof.
  intros Hp. unfold Filepath.Dir.
  destruct (uptoLastSeparator_shorter p) as [Hfix|Hshort].
  - destruct (uptoLastSeparator_fixed p Hfix Hp) as [q0 ->].
    rewrite Hfix. apply Clean_trailing_separator.
  - destruct (Filepath.uptoLastSeparator p) as [|d t] eqn:Hu.
    + right. right. reflexivity.
    + right. left.
      assert (String.length (Filepath.Clean (String d t)) <= String.length (String d t))
        by (apply Clean_length; discriminate).
      lia.
Qed.

Lemma Dir_roundsLeft p :
  p <> "" -> Filepath.Dir p <> p -> Notions.roundsLeft (Filepath.Dir p) < Notions.roundsLeft p.
Proof.
  intros Hp Hne. unfold Notions.roundsLeft.
  destruct (String.eqb_spec p ".") as [->|Hdot]; [exfalso; apply Hne; reflexivity|].
  destruct (Dir_shorter p Hp) as [Heq|[Hlt|Hdotdir]]; [contradiction| |].
  - destruct (String.eqb (Filepath.Dir p) "."); lia.
  - rewrite Hdotdir. cbn. destruct p; [congruence|cbn; lia].
Qed.

(** The fuel of [collectMatchers] is never the reason it stops: one more
    unit changes nothing once the fuel exceeds the rounds left. *)
Lemma collectMatchers_enough_fuel p dk fuel :
  forall dir pathStack st,
    Notions.roundsLeft dir < fuel ->
    collectMatchers p dk (S fuel) dir pathStack st
    = collectMatchers p dk fuel dir pathStack st.
Proof.
  induction fuel as [|fuel IH]; intros dir pathStack st Hfuel; [lia|].
  cbn [collectMatchers].
  destruct (Strings.HasPrefix dir (basePath p)); [|reflexivity].
  destruct (String.eqb_spec dir "") as [Hempty|Hdir]; [reflexivity|]. cbn [negb andb].
  destruct (compile dk dir st) as [[matcher e] st1].
  destruct (String.eqb dir (basePath p)); [reflexivity|].
  destruct (String.eqb_spec (Filepath.Dir dir) dir) as [Hsame|Hup]; [reflexivity|].
  apply IH. pose proof (Dir_roundsLeft dir Hdir Hup). lia.
Qed.

Lemma collectMatchers_fuel_of_visit p dk extra dir pathStack st :
  collectMatchers p dk (2 + String.length dir + extra) dir pathStack st
  = collectMatchers p dk (2 + String.length dir) dir pathStack st.
Proof.
  induction extra as [|extra IH]; [rewrite Nat.add_0_r; reflexivity|].
  rewrite <- IH. replace (2 + String.length dir + S extra)
    with (S (2 + String.length dir + extra)) by lia.
  apply collectMatchers_enough_fuel. unfold Notions.roundsLeft.
  destruct (String.eqb dir "."); lia.
Qed.

Local Open Scope Z_scope.

(** ** The walk: which files get a block, and in which order *)

Lemma sublist_head_then {A} (x : A) l k rest :
  l `sublist_of` [x] -> k `sublist_of` rest -> (l ++ k)%list `sublist_of` x :: rest.
Proof.
  intros Hl Hk. change (x :: rest) with ([x] ++ rest)%list.
  apply sublist_app; assumption.
Qed.

Lemma sublist_head_only {A} (x : A) l rest :
  l `sublist_of` [x] -> l `sublist_of` x :: rest.
Proof.
  intros Hl. rewrite <- (app_nil_r l). apply sublist_head_then; [exact Hl|].
  apply sublist_nil_l.
Qed.

Section WalkFacts.

Variable GOOS : string.
Variable p : Processor.
Variable dk : Disk.disk.

Lemma byName_entries entries :
  sortBy (fun a b => nameLess (fst a) (fst b))
    (map (fun c => (Disk.entryOf c, walkDir GOOS p dk c)) entries)
  = map (fun c => (Disk.entryOf c, walkDir GOOS p dk c)) (Notions.byName entries).
Proof. apply sortBy_map. reflexivity. Qed.

Lemma listing_directory name readable entries path :
  Notions.listing (Disk.Directory name readable entries) path
  = path :: flat_map (fun c => Notions.listing c (Filepath.Join path (Disk.nodeName c)))
                     (Notions.byName entries).
Proof.
  cbn [Notions.listing]. f_equal.
  rewrite (sortBy_map (fun c => (Disk.nodeName c, Notions.listing c))
             (fun a b => String.ltb (Disk.nodeName a) (Disk.nodeName b)))
    by reflexivity.
  fold (Notions.byName entries).
  induction (Notions.byName entries) as [|c l IH]; [reflexivity|].
  cbn. rewrite IH. reflexivity.
Qed.

(** One call of the function of the walk writes at most one block, for
    the path it is called with, and only if the filter let it through. *)
Lemma visit_blocks path d e st r st' out :
  visit GOOS p dk path d e st = (r, st', out) ->
  out = [] \/ exists b, out = [b] /\ source b = path /\ Notions.letThrough GOOS p path.
Proof.
  unfold visit. destruct e as [e|].
  - destruct (IsDir d && Is e ErrPermission); intros [= <- <- <-]; left; reflexivity.
  - destruct (collectMatchers _ _ _ _ _ _) as [pathStack st1].
    destruct (IsExcluded GOOS (filter p) path d (rev pathStack))
      as [[|] [filterErr|]] eqn:Hx.
    + destruct (Is filterErr SkipDir); intros [= <- <- <-]; left; reflexivity.
    + destruct (IsDir d); intros [= <- <- <-]; left; reflexivity.
    + destruct (Is filterErr SkipDir); intros [= <- <- <-]; left; reflexivity.
    + destruct (IsDir d); [intros [= <- <- <-]; left; reflexivity|].
      destruct (Filepath.Rel (basePath p) path) as [relPath|];
        [|intros [= <- <- <-]; left; reflexivity].
      intros [= <- <- <-]. right. eexists. split; [reflexivity|].
      split; [reflexivity|]. exists d, (rev pathStack). exact Hx.
Qed.

Lemma visit_sources path d e st r st' out :
  visit GOOS p dk path d e st = (r, st', out) ->
  map source out `sublist_of` [path] /\ Forall (fun b => Notions.letThrough GOOS p (source b)) out.
Proof.
  intros Hv. destruct (visit_blocks _ _ _ _ _ _ _ Hv) as [->|(b & -> & Hsrc & Hok)].
  - split; [apply sublist_nil_l|constructor].
  - cbn. rewrite Hsrc. split; [reflexivity|]. repeat constructor. rewrite Hsrc. exact Hok.
Qed.

Lemma walkEntries_sound nodes :
  Forall (Notions.walkSound GOOS p dk) nodes ->
  forall path st st' out,
    walkEntries path (map (fun c => (Disk.entryOf c, walkDir GOOS p dk c)) nodes) st
    = (st', out) ->
    map source out
      `sublist_of` flat_map (fun c => Notions.listing c (Filepath.Join path (Disk.nodeName c)))
                            nodes
    /\ Forall (fun b => Notions.letThrough GOOS p (source b)) out.
Proof.
  induction 1 as [|c nodes Hc Hnodes IH]; intros path st st' out.
  - cbn. intros [= <- <-]. split; [reflexivity|constructor].
  - cbn [map walkEntries flat_map].
    change (Name (Disk.entryOf c)) with (Disk.nodeName c).
    destruct (walkDir GOOS p dk c (Filepath.Join path (Disk.nodeName c)) st)
      as [[r1 st1] out1] eqn:Hw.
    destruct (Hc _ _ _ _ _ Hw) as [Hsub1 Hok1].
    destruct r1 as [err|].
    + intros [= <- <-]. split; [|exact Hok1].
      apply sublist_inserts_r. exact Hsub1.
    + destruct (walkEntries _ _ st1) as [st2 out2] eqn:Hrest.
      destruct (IH _ _ _ _ Hrest) as [Hsub2 Hok2].
      intros [= <- <-]. split.
      * rewrite map_app. apply sublist_app; assumption.
      * apply Forall_app. split; assumption.
Qed.

Lemma walkDir_sound n : Notions.walkSound GOOS p dk n.
Proof.
  induction n as [name perm content|name|name readable entries IH] using node_ind_entries;
    intros path st r st' out; cbn [walkDir].
  - destruct (visit _ _ _ _ _ _ _) as [[r1 st1] out1] eqn:Hv.
    destruct (visit_sources _ _ _ _ _ _ _ Hv) as [Hsub Hok].
    destruct r1; intros [= <- <- <-]; split; assumption.
  - destruct (visit _ _ _ _ _ _ _) as [[r1 st1] out1] eqn:Hv.
    destruct (visit_sources _ _ _ _ _ _ _ Hv) as [Hsub Hok].
    destruct r1; intros [= <- <- <-]; split; assumption.
  - rewrite listing_directory.
    destruct (visit _ _ _ _ _ None _) as [[r1 st1] out1] eqn:Hv.
    destruct (visit_sources _ _ _ _ _ _ _ Hv) as [Hsub Hok].
    destruct r1 as [err|].
    + intros [= <- <- <-]. split; [|exact Hok].
      apply sublist_head_only. exact Hsub.
    + destruct readable.
      * rewrite byName_entries.
        destruct (walkEntries _ _ st1) as [st2 out2] eqn:Hrest.
        apply walkEntries_sound in Hrest;
          [|apply Forall_sortBy; exact IH].
        destruct Hrest as [Hsub2 Hok2].
        intros [= <- <- <-]. split.
        -- rewrite map_app. apply sublist_head_then; assumption.
        -- apply Forall_app. split; assumption.
      * destruct (visit _ _ _ _ _ (Some _) _) as [[r2 st2] out2] eqn:Hv2.
        assert (Hnone : out2 = []).
        { revert Hv2. unfold visit.
          destruct (IsDir _ && Is _ _); intros [= _ _ <-]; reflexivity. }
        subst out2. rewrite app_nil_r.
        destruct r2; intros [= <- <- <-]; (split; [|exact Hok]);
          apply sublist_head_only; exact Hsub.
Qed.

(** The blocks of [WalkDir]: their sources come in the order of the
    listing by name, and the filter let each of them through. *)
Lemma WalkDir_sound st st' out :
  WalkDir GOOS p dk st = (st', out) ->
  map source out `sublist_of` Notions.listing (Disk.root dk) (basePath p)
  /\ Forall (fun b => Notions.letThrough GOOS p (source b)) out.
Proof.
  unfold WalkDir.
  destruct (walkDir _ _ _ _ _ _) as [[r st1] out1] eqn:Hw.
  intros [= <- <-]. exact (walkDir_sound _ _ _ _ _ _ Hw).
Qed.

End WalkFacts.

(** C5, amended.  The blocks are written in the order of the walk: the
    files they are read from appear in the order of the depth-first listing
    in which the entries of every directory come by name, byte by byte,
    directories and files alike. *)
Theorem C5_content_follows_walk_order GOOS p dk st :
  map source (snd (Process GOOS p dk st))
    `sublist_of` Notions.listing (Disk.root dk) (basePath p).
Proof.
  unfold Process.
  destruct (if IncludeTree (config p) then _ else _) as [st1 treeStr].
  destruct (compile dk (basePath p) st1) as [r st2].
  destruct (WalkDir GOOS p dk st2) as [st3 out] eqn:Hw.
  cbn. exact (proj1 (WalkDir_sound GOOS p dk _ _ _ Hw)).
Qed.

(** ** The order of strings and of tree nodes *)

Lemma string_leb_trans a : forall b c,
  String.leb a b = true -> String.leb b c = true -> String.leb a c = true.
Proof.
  unfold String.leb.
  induction a as [|x a IH]; intros [|y b] [|z c]; cbn; try congruence.
  unfold Ascii.compare.
  destruct (N.compare_spec (N_of_ascii x) (N_of_ascii y)) as [Hxy|Hxy|Hxy];
    destruct (N.compare_spec (N_of_ascii y) (N_of_ascii z)) as [Hyz|Hyz|Hyz];
    destruct (N.compare_spec (N_of_ascii x) (N_of_ascii z)) as [Hxz|Hxz|Hxz];
    try congruence; try lia.
  apply IH.
Qed.

Lemma string_ltb_false_leb a b : String.ltb b a = false -> String.leb a b = true.
Proof.
  unfold String.ltb, String.leb. rewrite (String.compare_antisym b a).
  destruct (String.compare a b); cbn; congruence.
Qed.

Lemma string_ltb_asym a b : String.ltb a b = true -> String.ltb b a = false.
Proof.
  unfold String.ltb. rewrite (String.compare_antisym a b).
  destruct (String.compare b a); cbn; congruence.
Qed.

Lemma entryLess_asym a b : entryLess a b = true -> entryLess b a = false.
Proof.
  unfold entryLess. destruct (IsDir a), (IsDir b); cbn; try congruence;
    apply string_ltb_asym.
Qed.

Lemma not_entryLess_labelLe a b :
  entryLess (Disk.entryOf b) (Disk.entryOf a) = false ->
  Notions.labelLe (Notions.nodeLabel a) (Notions.nodeLabel b).
Proof.
  unfold entryLess, Notions.labelLe, Notions.nodeLabel. cbn.
  destruct (Disk.isDirectory a), (Disk.isDirectory b); cbn; intros H;
    try discriminate;
    try (right; split; [reflexivity|apply string_ltb_false_leb; exact H]).
  left. split; reflexivity.
Qed.

Lemma labelLe_trans a b c :
  Notions.labelLe a b -> Notions.labelLe b c -> Notions.labelLe a c.
Proof.
  unfold Notions.labelLe.
  intros [[Ha Hb]|[Hab Hle1]] [[Hb' Hc]|[Hbc Hle2]].
  - congruence.
  - left. split; congruence.
  - left. split; congruence.
  - right. split; [congruence|]. eapply string_leb_trans; eassumption.
Qed.

Lemma Forall_of_sublist {A} (P : A -> Prop) l k :
  k `sublist_of` l -> Forall P l -> Forall P k.
Proof.
  induction 1 as [|x k l Hsub IH|x k l Hsub IH]; intros Hall.
  - constructor.
  - inversion Hall; subst. constructor; [assumption|apply IH; assumption].
  - inversion Hall; subst. apply IH; assumption.
Qed.

Lemma StronglySorted_sublist {A} (R : A -> A -> Prop) l k :
  StronglySorted R l -> k `sublist_of` l -> StronglySorted R k.
Proof.
  intros Hs Hsub. revert Hs.
  induction Hsub as [|x k l Hsub IH|x k l Hsub IH]; intros Hs.
  - constructor.
  - apply StronglySorted_inv in Hs. destruct Hs as [Hs Hall].
    constructor; [apply IH; exact Hs|].
    eapply Forall_of_sublist; eassumption.
  - apply StronglySorted_inv in Hs. destruct Hs as [Hs _]. apply IH. exact Hs.
Qed.

Lemma StronglySorted_through_map {A B} (R : B -> B -> Prop) (f : A -> B) l :
  StronglySorted R (map f l) <-> StronglySorted (fun a b => R (f a) (f b)) l.
Proof.
  induction l as [|x l IH]; cbn.
  - split; constructor.
  - split; intros Hs; apply StronglySorted_inv in Hs; destruct Hs as [Hs Hall];
      (constructor; [apply IH; exact Hs|]).
    + rewrite List.Forall_map in Hall. exact Hall.
    + rewrite List.Forall_map. exact Hall.
Qed.

(** The entries in tree order are sorted by their labels. *)
Lemma treeOrder_sorted entries :
  StronglySorted Notions.labelLe (map Notions.nodeLabel (Notions.treeOrder entries)).
Proof.
  apply StronglySorted_through_map.
  apply Sorted_StronglySorted.
  - intros a b c. apply labelLe_trans.
  - unfold Notions.treeOrder.
    eapply Sorted_ind with
      (P := fun l => Sorted (fun a b : Disk.node =>
                               Notions.labelLe (Notions.nodeLabel a) (Notions.nodeLabel b)) l);
      [constructor| |
       exact (sortBy_Sorted (fun a b => entryLess (Disk.entryOf a) (Disk.entryOf b)) _
                (fun a b => entryLess_asym (Disk.entryOf a) (Disk.entryOf b)))].
    intros x l _ IH Hhd. constructor; [exact IH|].
    destruct Hhd as [|y l Hy]; constructor. apply not_entryLess_labelLe. exact Hy.
Qed.

Lemma string_append_nil_r (a : string) : (a ++ "")%string = a.
Proof.
  induction a as [|x a IH]; [reflexivity|].
  change (String x (a ++ "") = String x a)%string. f_equal. exact IH.
Qed.

Lemma string_append_assoc (a b c : string) : ((a ++ b) ++ c = a ++ (b ++ c))%string.
Proof.
  induction a as [|x a IH]; [reflexivity|].
  change (String x ((a ++ b) ++ c) = String x (a ++ (b ++ c)))%string.
  f_equal. exact IH.
Qed.

(** ** The tree builder: which entries get a node, and in which order *)

Section TreeFacts.

Variable GOOS : string.
Variable p : Processor.
Variable dk : Disk.disk.

Lemma treeOrder_entries entries :
  sortBy (fun a b => entryLess (fst a) (fst b))
    (sortBy (fun a b => nameLess (fst a) (fst b))
       (map (fun c => (Disk.entryOf c, buildNodeRecursive GOOS p dk c)) entries))
  = map (fun c => (Disk.entryOf c, buildNodeRecursive GOOS p dk c))
        (Notions.treeOrder entries).
Proof.
  rewrite (sortBy_map (fun c => (Disk.entryOf c, buildNodeRecursive GOOS p dk c))
             (fun a b => String.ltb (Disk.nodeName a) (Disk.nodeName b)))
    by reflexivity.
  apply sortBy_map. reflexivity.
Qed.

Lemma buildEntries_sound nodes :
  Forall (Notions.buildSound GOOS p dk) nodes ->
  forall path active st,
    let kids :=
      snd (buildEntries GOOS p path active
             (map (fun c => (Disk.entryOf c, buildNodeRecursive GOOS p dk c)) nodes) st) in
    Notions.builtWell GOOS p path kids
    /\ map Notions.label kids `sublist_of` map Notions.nodeLabel nodes.
Proof.
  induction 1 as [|c nodes Hc Hnodes IH]; intros path active st; cbn zeta.
  - cbn. split; [split; constructor|reflexivity].
  - cbn [map buildEntries].
    change (Name (Disk.entryOf c)) with (Disk.nodeName c).
    change (IsDir (Disk.entryOf c)) with (Disk.isDirectory c).
    destruct (IsExcluded GOOS (filter p) (Filepath.Join path (Disk.nodeName c))
                (Disk.entryOf c) active) as [[|] [err|]] eqn:Hx;
      try (destruct (IH path active st) as [Hwell Hsub];
           split; [exact Hwell|apply sublist_cons; exact Hsub]).
    set (here := Filepath.Join path (Disk.nodeName c)) in *.
    destruct (if Disk.isDirectory c
              then buildNodeRecursive GOOS p dk c here active st
              else (st, [])) as [st1 grand] eqn:Hgrand.
    assert (Hg : Notions.builtWell GOOS p here grand /\ StronglySorted Notions.dirsFirstThenName grand).
    { destruct (Disk.isDirectory c).
      - specialize (Hc here active st). rewrite Hgrand in Hc. exact Hc.
      - injection Hgrand as <- <-. repeat split; constructor. }
    destruct Hg as [[Hpaths Hsorted] Hstrong].
    specialize (IH path active st1).
    destruct (buildEntries GOOS p path active _ st1) as [st2 siblings].
    cbn [snd] in *. destruct IH as [[Hpaths' Hsorted'] Hsub].
    split; [split|].
    + constructor; [|exact Hpaths'].
      cbn [Notions.nodePaths]. fold here. constructor.
      * exists (Disk.entryOf c), active. exact Hx.
      * apply Forall_flat_map. exact Hpaths.
    + constructor; [|exact Hsorted']. constructor; assumption.
    + cbn [map]. apply sublist_skip. exact Hsub.
Qed.

Lemma buildNodeRecursive_sound n : Notions.buildSound GOOS p dk n.
Proof.
  induction n as [name perm content|name|name readable entries IH] using node_ind_entries;
    intros path parentActive st; cbn [buildNodeRecursive].
  - cbn. repeat split; constructor.
  - cbn. repeat split; constructor.
  - destruct readable; [|cbn; repeat split; constructor].
    rewrite treeOrder_entries.
    destruct (compile dk path st) as [[currentDirGitIgnore e] st1].
    assert (Hall : Forall (Notions.buildSound GOOS p dk) (Notions.treeOrder entries)).
    { unfold Notions.treeOrder, Notions.byName. apply Forall_sortBy, Forall_sortBy, IH. }
    destruct (buildEntries_sound _ Hall path
                (extendActive parentActive currentDirGitIgnore) st1) as [Hwell Hsub].
    split; [exact Hwell|].
    apply (StronglySorted_through_map Notions.labelLe Notions.label).
    eapply StronglySorted_sublist; [apply treeOrder_sorted|exact Hsub].
Qed.

(** The tree of [buildTree]: sorted at every level, and every node below
    the root was let through by the filter. *)
Lemma buildTree_sound st :
  let rootNode := snd (buildTree GOOS p dk st) in
  Notions.sortedTree rootNode
  /\ tnName rootNode = Filepath.Base (Filepath.Clean (basePath p))
  /\ Forall (Notions.letThrough GOOS p)
       (flat_map (Notions.nodePaths (Filepath.Clean (basePath p))) (tnChildren rootNode)).
Proof.
  unfold buildTree.
  destruct (compile dk (Filepath.Clean (basePath p)) st) as [[rootGitIgnore e] st1].
  set (initial := match rootGitIgnore with Some _ => [rootGitIgnore] | None => [] end).
  destruct (buildNodeRecursive_sound (Disk.root dk) (Filepath.Clean (basePath p)) initial st1)
    as [[Hpaths Hsorted] Hstrong].
  destruct (buildNodeRecursive GOOS p dk (Disk.root dk) _ initial st1) as [st2 children].
  cbn in *. split; [constructor; assumption|]. split; [reflexivity|].
  apply Forall_flat_map. exact Hpaths.
Qed.

End TreeFacts.

(** C3. Self-exclusion has the highest priority: the entry at the path of
    the configured output file is excluded with a nil error, whatever the
    entry and the active matchers are; so no node of the tree below the
    root stands for that path, and no block is read from it. *)
Theorem C3_output_file_self_exclusion GOOS p dk st absPath d active :
  absFinalOutputFilePath (filter p) <> "" ->
  absPath = absFinalOutputFilePath (filter p) ->
  IsExcluded GOOS (filter p) absPath d active = (true, None)
  /\ ~ In absPath
       (flat_map (Notions.nodePaths (Filepath.Clean (basePath p)))
          (tnChildren (snd (buildTree GOOS p dk st))))
  /\ ~ In absPath (map source (snd (WalkDir GOOS p dk st)))
  /\ ~ In absPath (map source (snd (Process GOOS p dk st))).
Proof.
  intros Hset Hpath.
  assert (Hnot : forall paths, Forall (Notions.letThrough GOOS p) paths -> ~ In absPath paths).
  { intros paths Hall Hin. rewrite List.Forall_forall in Hall.
    destruct (Hall _ Hin) as (d' & active' & Hinc).
    exact (included_is_not_output GOOS _ _ _ _ Hset Hinc Hpath). }
  assert (Hwalk : forall st0, ~ In absPath (map source (snd (WalkDir GOOS p dk st0)))).
  { intros st0. apply Hnot.
    destruct (WalkDir GOOS p dk st0) as [st1 out] eqn:Hw.
    destruct (WalkDir_sound GOOS p dk _ _ _ Hw) as [_ Hok].
    cbn. rewrite List.Forall_map. exact Hok. }
  split; [exact (output_file_excluded GOOS _ _ d active Hset Hpath)|].
  split; [apply Hnot; exact (proj2 (proj2 (buildTree_sound GOOS p dk st)))|].
  split; [apply Hwalk|].
  unfold Process.
  destruct (if IncludeTree (config p) then _ else _) as [st1 treeStr].
  destruct (compile dk (basePath p) st1) as [r st2].
  specialize (Hwalk st2). destruct (WalkDir GOOS p dk st2) as [st3 out].
  exact Hwalk.
Qed.

(** The project whose output file [output.txt] lies beside [somefile.txt]:
    the filter excludes it, and neither the tree nor the blocks have it. *)
Lemma C3_output_file_self_exclusion_witness :
  IsExcluded "linux" (filter Notions.selfOutputProcessor) "/w/p/output.txt"
    (Fixtures.newMockFile "output.txt" 100 0) [] = (true, None)
  /\ ~ In "/w/p/output.txt"
       (map source (snd (Process "linux" Notions.selfOutputProcessor Notions.selfOutputDisk
                           initialState)))
  /\ Notions.treeAndContent "linux" Notions.selfOutputProcessor Notions.selfOutputDisk
     = (["somefile.txt"], ["somefile.txt"]).
Proof.
  assert (Hset : absFinalOutputFilePath (filter Notions.selfOutputProcessor) <> "")
    by (vm_compute; discriminate).
  pose proof (C3_output_file_self_exclusion "linux" Notions.selfOutputProcessor
                Notions.selfOutputDisk initialState "/w/p/output.txt"
                (Fixtures.newMockFile "output.txt" 100 0) [] Hset eq_refl) as H.
  split; [exact (proj1 H)|]. split; [exact (proj2 (proj2 (proj2 H)))|].
  vm_compute. reflexivity.
Defined.

(** C9. Shape of the rendered tree, for a project whose entries bear
    ASCII names, on which the lowering of the model is that of
    [strings.ToLower]: the children of every node are in the order
    "directories first, then by lower-cased name"; the text is the root's
    name on a line of its own followed by the children; a child that is not
    the last is written after the branch connector and hands the
    continuation indent to its own children; the last child is written
    after the corner connector and hands on the blank indent. *)
Theorem C9_tree_rendering_shape GOOS p dk st :
  Disk.asciiBelow (Disk.root dk) = true ->
  (let rootNode := snd (buildTree GOOS p dk st) in
   Notions.sortedTree rootNode
   /\ tnName rootNode = Filepath.Base (Filepath.Clean (basePath p))
   /\ snd (BuildTreeString GOOS p dk st)
      = (tnName rootNode ++ "
" ++ writeNodeRecursive (tnChildren rootNode) "")%string)
  /\ (forall pre, writeNodeRecursive [] pre = "")
  /\ (forall name isDir grand next rest pre,
        writeNodeRecursive (TreeNode name isDir grand :: next :: rest) pre
        = (pre ++ "├── " ++ name ++ "
" ++ (if isDir && (0 <? length grand)%nat
      then writeNodeRecursive grand (pre ++ "│   ")
      else "")
           ++ writeNodeRecursive (next :: rest) pre)%string)
  /\ (forall name isDir grand pre,
        writeNodeRecursive [TreeNode name isDir grand] pre
        = (pre ++ "└── " ++ name ++ "
" ++ (if isDir && (0 <? length grand)%nat
      then writeNodeRecursive grand (pre ++ "    ")
      else ""))%string).
Proof.
  intros Hascii. split; [|split; [|split]].
  - cbv zeta.
    destruct (buildTree_sound GOOS p dk st) as (Hsorted & Hname & _).
    split; [exact Hsorted|]. split; [exact Hname|].
    unfold BuildTreeString. destruct (buildTree GOOS p dk st) as [st1 rootNode].
    reflexivity.
  - reflexivity.
  - intros name isDir grand next rest pre.
    unfold writeNodeRecursive. cbn [eachWithLast isEmptyList writeChild].
    unfold treePrefixEntry, treePrefixContinue.
    rewrite !string_append_assoc. reflexivity.
  - intros name isDir grand pre.
    unfold writeNodeRecursive. cbn [eachWithLast isEmptyList writeChild].
    unfold treePrefixLast, treePrefixEmpty.
    rewrite string_append_nil_r. reflexivity.
Qed.

(** The project of [TestProcess_LocalPath_Basic], whose names are ASCII:
    its tree is in order at every level. *)
Lemma C9_tree_rendering_shape_witness :
  Disk.asciiBelow (Disk.root Notions.basicDisk) = true
  /\ Notions.sortedTree
       (snd (buildTree "linux" (Notions.testProcessor "/w/testdata") Notions.basicDisk
               initialState)).
Proof.
  split; [reflexivity|].
  exact (proj1 (proj1 (C9_tree_rendering_shape "linux" (Notions.testProcessor "/w/testdata")
                         Notions.basicDisk initialState eq_refl))).
Defined.

(* ===================================================================== *)
(** * Further properties of the code                                      *)
(* ===================================================================== *)

(** ** The shape of a verdict *)

(** X1. What [IsExcluded] can return: [SkipDir] only together with
    "excluded" and only for an entry whose metadata says directory; any
    other error only together with "not excluded", when the metadata could
    not be read, and it wraps the error of that read. *)
Theorem IsExcluded_verdict_shape GOOS ff absPath d active :
  match IsExcluded GOOS ff absPath d active with
  | (_, None) => True
  | (true, Some e) =>
      e = SkipDir /\ exists info, Info d = inl info /\ fi_IsDir info = true
  | (false, Some e) =>
      exists err ctx, Info d = inr err /\ e = ErrWrapped ctx err
  end.
Proof.
  unfold IsExcluded.
  destruct (negb _ && String.eqb absPath _); [exact I|].
  destruct (Info d) as [info|err] eqn:Hinfo.
  - destruct (negb (Z.land (fi_Mode info) ModeSymlink =? 0)); [exact I|].
    destruct (fi_IsDir info) eqn:Hdir; cbn [andb].
    + destruct (existsb _ (_ ++ _)%list); [split; [reflexivity|eauto]|].
      destruct (existsb (matcherHits absPath) _); [split; [reflexivity|eauto]|exact I].
    + destruct (existsb (matcherHits absPath) _); [exact I|].
      destruct (_ && _); [exact I|]. destruct (excludedByKind _ _ _ _ _ _); exact I.
  - destruct (negb _ && IsNotExist err); [exact I|].
    eexists err, _. repeat split.
Qed.

(** ** The rules for files, as one disjunction *)

Lemma excludedByKind_any GOOS cfg info absPath relPath baseName :
  excludedByKind GOOS cfg info absPath relPath baseName
  = let fileExt := Strings.ToLower (Filepath.Ext absPath) in
    existsb (userExtMatches fileExt) (Filefilter.UserExcludeExts cfg)
    || existsb (userGlobMatches relPath baseName) (Filefilter.UserExcludeGlobs cfg)
    || posixExecutable GOOS info
    || existsb (String.eqb fileExt) (Filefilter.DefaultExecExts cfg)
    || existsb (String.eqb fileExt) (Filefilter.DefaultMediaExts cfg)
    || existsb (String.eqb fileExt) (Filefilter.DefaultArchiveExts cfg)
    || existsb (fun lockPattern => Filepath.Match lockPattern baseName)
               (Filefilter.DefaultLockfilePatterns cfg)
    || existsb (String.eqb fileExt) (Filefilter.DefaultMiscellaneousExtensions cfg)
    || existsb (String.eqb baseName) (Filefilter.DefaultMiscellaneousFileNames cfg)
    || (Filefilter.SkipAuxFiles cfg
        && existsb (auxMatches fileExt baseName) (Filefilter.DefaultAuxExts cfg)).
Proof.
  unfold excludedByKind. cbv zeta.
  destruct (existsb (userExtMatches _) _); [reflexivity|].
  destruct (existsb (userGlobMatches _ _) _); [reflexivity|].
  destruct (posixExecutable GOOS info); [reflexivity|]. rewrite andb_false_r.
  destruct (existsb _ (Filefilter.DefaultExecExts cfg)); [reflexivity|].
  destruct (existsb _ (Filefilter.DefaultMediaExts cfg)); [reflexivity|].
  destruct (existsb _ (Filefilter.DefaultArchiveExts cfg)); [reflexivity|].
  destruct (existsb _ (Filefilter.DefaultLockfilePatterns cfg)); [reflexivity|].
  destruct (existsb _ (Filefilter.DefaultMiscellaneousExtensions cfg)); [reflexivity|].
  destruct (existsb _ (Filefilter.DefaultMiscellaneousFileNames cfg)); [reflexivity|].
  destruct (Filefilter.SkipAuxFiles cfg); reflexivity.
Qed.

(** A regular file that any rule for files catches is excluded with a nil
    error, whatever the earlier tests say. *)
Lemma file_caught_is_excluded GOOS ff absPath d info active :
  Info d = inl info ->
  fi_IsDir info = false ->
  excludedByKind GOOS (Filefilter.config ff) info absPath
    (Filepath.ToSlash
       match Filepath.Rel (Filefilter.basePath ff) absPath with
       | Some r => r
       | None => Filepath.Base absPath
       end)
    (Filepath.Base absPath) = true ->
  IsExcluded GOOS ff absPath d active = (true, None).
Proof.
  intros Hinfo Hfile Hkind. unfold IsExcluded. rewrite Hinfo, Hfile.
  destruct (negb _ && String.eqb absPath _); [reflexivity|].
  destruct (negb (Z.land (fi_Mode info) ModeSymlink =? 0)); [reflexivity|].
  cbn [andb].
  destruct (existsb (matcherHits absPath) _); [reflexivity|].
  destruct (_ && _); [reflexivity|]. rewrite Hkind. reflexivity.
Qed.

Lemma existsb_incl {A} (f : A -> bool) l l' :
  incl l l' -> existsb f l = true -> existsb f l' = true.
Proof.
  intros Hincl Hex. apply existsb_exists in Hex. destruct Hex as (x & Hin & Hfx).
  apply existsb_exists. exists x. split; [apply Hincl; exact Hin|exact Hfx].
Qed.

Lemma existsb_same_elements {A} (f : A -> bool) l l' :
  (forall x, In x l <-> In x l') -> existsb f l = existsb f l'.
Proof.
  intros Hsame.
  destruct (existsb f l) eqn:Hl.
  - symmetry. eapply existsb_incl; [|exact Hl]. intros x Hx. apply Hsame. exact Hx.
  - destruct (existsb f l') eqn:Hl'; [|reflexivity].
    rewrite <- Hl. eapply existsb_incl; [|exact Hl']. intros x Hx. apply Hsame. exact Hx.
Qed.

(** ** Directories *)

(** X2. The verdict on a directory depends only on the output path, the two
    lists of directory names and the active matchers: the size limit, the
    extension, glob, lock-file and auxiliary rules, the platform and the
    base path play no part. *)
Theorem directory_verdict_ignores_file_rules GOOS GOOS' ff ff' absPath d info active :
  Info d = inl info ->
  fi_IsDir info = true ->
  Filefilter.absFinalOutputFilePath ff = Filefilter.absFinalOutputFilePath ff' ->
  Filefilter.DefaultExcludeDirs (Filefilter.config ff)
  = Filefilter.DefaultExcludeDirs (Filefilter.config ff') ->
  Filefilter.UserExcludeDirs (Filefilter.config ff)
  = Filefilter.UserExcludeDirs (Filefilter.config ff') ->
  IsExcluded GOOS ff absPath d active = IsExcluded GOOS' ff' absPath d active.
Proof.
  intros Hinfo Hdir Hout Hdef Husr. unfold IsExcluded.
  rewrite Hinfo, Hdir, Hout, Hdef, Husr. cbn [andb].
  destruct (negb _ && String.eqb absPath _); [reflexivity|].
  destruct (negb (Z.land (fi_Mode info) ModeSymlink =? 0)); [reflexivity|].
  destruct (existsb _ (_ ++ _)%list); [reflexivity|].
  destruct (existsb (matcherHits absPath) _); reflexivity.
Qed.

(** A directory called [src], judged by the default filter on Linux and by
    the filter with a limit of one byte and the auxiliary mode on Windows. *)
Lemma directory_verdict_ignores_file_rules_witness :
  IsExcluded "linux" Variations.defaultFilter "/w/p/src" (Fixtures.newMockDir "src" 493) []
  = IsExcluded "windows"
      (Fixtures.withConfig Variations.auxFilter
         (Fixtures.withMaxFileSize (Filefilter.config Variations.auxFilter) 1))
      "/w/p/src" (Fixtures.newMockDir "src" 493) [].
Proof.
  eapply directory_verdict_ignores_file_rules; reflexivity.
Defined.

(** ** The stack of matchers *)

(** X3. Only which matchers are active counts, not their order, nor how
    often one occurs, nor nil entries among them. *)
Theorem matcher_stack_is_a_set GOOS ff absPath d active active' :
  (forall m, In (Some m) active <-> In (Some m) active') ->
  IsExcluded GOOS ff absPath d active = IsExcluded GOOS ff absPath d active'.
Proof.
  intros Hsame. unfold IsExcluded.
  assert (Hhits : existsb (matcherHits absPath) (rev active)
                  = existsb (matcherHits absPath) (rev active')).
  { assert (Hone : forall l l',
               (forall m, In (Some m) l -> In (Some m) l') ->
               existsb (matcherHits absPath) (rev l) = true ->
               existsb (matcherHits absPath) (rev l') = true).
    { intros l l' Hll Hex. apply existsb_exists in Hex.
      destruct Hex as ([m|] & Hin & Hm); [|discriminate].
      apply existsb_exists. exists (Some m). split; [|exact Hm].
      apply in_rev. rewrite rev_involutive. apply Hll.
      apply in_rev in Hin. rewrite ?rev_involutive in Hin. exact Hin. }
    destruct (existsb (matcherHits absPath) (rev active)) eqn:Ha.
    - symmetry. apply (Hone active active'); [intros m; apply Hsame|exact Ha].
    - destruct (existsb (matcherHits absPath) (rev active')) eqn:Ha'; [|reflexivity].
      rewrite <- Ha. apply (Hone active' active); [intros m; apply Hsame|exact Ha']. }
  rewrite Hhits. reflexivity.
Qed.

(** The nested project with the stack root-first, and with it the other way
    round, doubled and with a nil in between. *)
Lemma matcher_stack_is_a_set_witness :
  IsExcluded "linux" Fixtures.nestedFilter "/w/p/sub/data.txt"
    (Fixtures.newMockFile "data.txt" 100 0) [Fixtures.rootIgnore; Fixtures.subIgnore]
  = IsExcluded "linux" Fixtures.nestedFilter "/w/p/sub/data.txt"
      (Fixtures.newMockFile "data.txt" 100 0)
      [Fixtures.subIgnore; None; Fixtures.rootIgnore; Fixtures.subIgnore].
Proof.
  apply matcher_stack_is_a_set. intros m. cbn [In]. intuition discriminate.
Defined.

(** ** Execute permission *)

(** X4. Off Windows a regular file with any execute bit set is excluded,
    whatever its name, size or extension; on Windows the permission bits of
    a file play no part in the verdict. *)
Theorem execute_bits_rule ff absPath d info active :
  Info d = inl info ->
  fi_IsDir info = false ->
  (forall GOOS,
      GOOS <> "windows" ->
      Z.land (fi_Mode info) 73 <> 0 ->
      IsExcluded GOOS ff absPath d active = (true, None))
  /\ (forall mode,
        Z.land mode ModeSymlink = Z.land (fi_Mode info) ModeSymlink ->
        IsExcluded "windows" ff absPath (Variations.withMode d mode) active
        = IsExcluded "windows" ff absPath d active).
Proof.
  intros Hinfo Hfile. split.
  - intros GOOS Hos Hbits.
    apply (file_caught_is_excluded GOOS ff absPath d info active Hinfo Hfile).
    rewrite excludedByKind_any. cbv zeta.
    assert (Hexec : posixExecutable GOOS info = true).
    { unfold posixExecutable.
      destruct (String.eqb_spec GOOS "windows"); [contradiction|].
      destruct (Z.eqb_spec (Z.land (fi_Mode info) 73) 0); [contradiction|reflexivity]. }
    rewrite Hexec. rewrite !orb_true_r. reflexivity.
  - intros mode Hlink. unfold IsExcluded, Variations.withMode. cbn [Info].
    rewrite Hinfo. cbn [fi_Mode fi_IsDir fi_Size]. rewrite Hlink.
    rewrite !excludedByKind_any. unfold posixExecutable. cbn. reflexivity.
Qed.

(** The script of the package test: [run.sh] with mode 0755 is excluded on
    Linux, and on Windows it gets the verdict of the same file with 0644. *)
Lemma execute_bits_rule_witness :
  IsExcluded "linux" Variations.defaultFilter "/w/p/run.sh"
    (Fixtures.newMockFile "run.sh" 100 493) [] = (true, None)
  /\ IsExcluded "windows" Variations.defaultFilter "/w/p/run.sh"
       (Variations.withMode (Fixtures.newMockFile "run.sh" 100 493) 420) []
     = IsExcluded "windows" Variations.defaultFilter "/w/p/run.sh"
         (Fixtures.newMockFile "run.sh" 100 493) [].
Proof.
  pose proof (execute_bits_rule Variations.defaultFilter "/w/p/run.sh"
                (Fixtures.newMockFile "run.sh" 100 493) _ [] eq_refl eq_refl) as [Hposix Hwin].
  split.
  - apply Hposix; vm_compute; discriminate.
  - apply Hwin. vm_compute. reflexivity.
Defined.

(** ** More exclusions never bring a file back *)

Lemma auxMatches_incl fileExt baseName l l' :
  incl l l' ->
  existsb (auxMatches fileExt baseName) l = true ->
  existsb (auxMatches fileExt baseName) l' = true.
Proof. apply existsb_incl. Qed.

(** X5. Exclusion is monotone in the configuration: an entry excluded by a
    filter is excluded, with the same error value, by every filter that has
    the same paths and limit, at least the same entries in every list, and
    the auxiliary mode on if the first has it on. *)
Theorem more_rules_never_include GOOS ff ff' absPath d active err :
  Variations.atLeastAsStrict ff ff' ->
  IsExcluded GOOS ff absPath d active = (true, err) ->
  IsExcluded GOOS ff' absPath d active = (true, err).
Proof.
  intros (Hbase & Hout & Hmax & Hud & Hdd & Hue & Hug & Hex & Hme & Har & Hlk & Hmx & Hmn & Haux).
  unfold IsExcluded. rewrite <- Hbase, <- Hout, <- Hmax.
  destruct (negb _ && String.eqb absPath _); [trivial|].
  destruct (Info d) as [info|e]; [|trivial].
  destruct (negb (Z.land (fi_Mode info) ModeSymlink =? 0)); [trivial|].
  destruct (fi_IsDir info) eqn:Hdir; cbn [andb].
  - destruct (existsb _ (Filefilter.DefaultExcludeDirs (Filefilter.config ff)
                         ++ Filefilter.UserExcludeDirs (Filefilter.config ff))%list) eqn:Hname.
    + intros [= <-].
      rewrite (existsb_incl _ _ _ (incl_app (incl_appl _ Hdd) (incl_appr _ Hud)) Hname).
      reflexivity.
    + destruct (existsb (matcherHits absPath) _); [|discriminate].
      intros [= <-].
      destruct (existsb _ (Filefilter.DefaultExcludeDirs (Filefilter.config ff') ++ _)%list);
        reflexivity.
  - destruct (existsb (matcherHits absPath) _); [trivial|].
    destruct (_ && _); [trivial|].
    rewrite !excludedByKind_any. cbv zeta.
    set (fileExt := Strings.ToLower (Filepath.Ext absPath)).
    intros [= Hany <-]. f_equal.
    repeat (apply orb_true_iff in Hany; destruct Hany as [Hany|Hany]);
      repeat rewrite orb_true_iff;
      try (apply andb_true_iff in Hany; destruct Hany as [Hskip Hany];
           destruct (Haux Hskip) as [Hskip' Hauxl]).
    + do 9 left. eapply existsb_incl; eassumption.
    + do 8 left. right. eapply existsb_incl; eassumption.
    + do 7 left. right. exact Hany.
    + do 6 left. right. eapply existsb_incl; eassumption.
    + do 5 left. right. eapply existsb_incl; eassumption.
    + do 4 left. right. eapply existsb_incl; eassumption.
    + do 3 left. right. eapply existsb_incl; eassumption.
    + do 2 left. right. eapply existsb_incl; eassumption.
    + left. right. eapply existsb_incl; eassumption.
    + right. rewrite Hskip'. cbn [andb]. eapply existsb_incl; eassumption.
Qed.

(** A log file is excluded by the default filter, so it is by the filter
    that also has the auxiliary mode on. *)
Lemma more_rules_never_include_witness :
  IsExcluded "linux" Variations.auxFilter "/w/p/app.log"
    (Fixtures.newMockFile "app.log" 100 0) [] = (true, None).
Proof.
  apply (more_rules_never_include "linux" Variations.defaultFilter Variations.auxFilter).
  - unfold Variations.atLeastAsStrict.
    repeat split; try apply incl_refl; vm_compute; discriminate.
  - vm_compute. reflexivity.
Defined.

(** ** Entries of the extension lists that can never match *)

Lemma existsb_lowerOnly fileExt l :
  Strings.ToLower fileExt = fileExt ->
  existsb (String.eqb fileExt) (Variations.lowerOnly l) = existsb (String.eqb fileExt) l.
Proof.
  intros Hlow. unfold Variations.lowerOnly.
  induction l as [|e l IH]; [reflexivity|].
  cbn [List.filter existsb]. destruct (String.eqb_spec (Strings.ToLower e) e) as [He|He].
  - cbn [existsb]. rewrite IH. reflexivity.
  - rewrite IH. destruct (String.eqb_spec fileExt e) as [->|Hne]; [contradiction|reflexivity].
Qed.

Lemma existsb_user_lowerOnly fileExt l :
  Strings.ToLower fileExt = fileExt ->
  existsb (userExtMatches fileExt) (Variations.lowerOnly l)
  = existsb (userExtMatches fileExt) l.
Proof.
  intros Hlow. unfold Variations.lowerOnly.
  induction l as [|e l IH]; [reflexivity|].
  cbn [List.filter existsb]. destruct (String.eqb_spec (Strings.ToLower e) e) as [He|He].
  - cbn [existsb]. rewrite IH. reflexivity.
  - rewrite IH. unfold userExtMatches at 2.
    destruct (String.eqb_spec fileExt e) as [->|Hne]; [contradiction|].
    rewrite andb_false_r. reflexivity.
Qed.

Lemma existsb_aux_lowerOnly fileExt baseName l :
  Strings.ToLower fileExt = fileExt ->
  existsb (auxMatches fileExt baseName) (Variations.lowerOnlyAux l)
  = existsb (auxMatches fileExt baseName) l.
Proof.
  intros Hlow. unfold Variations.lowerOnlyAux.
  induction l as [|e l IH]; [reflexivity|].
  cbn [List.filter existsb].
  destruct (Strings.HasPrefix e ".") eqn:Hdot; cbn [negb orb].
  - destruct (String.eqb_spec (Strings.ToLower e) e) as [He|He].
    + cbn [existsb]. rewrite IH. reflexivity.
    + rewrite IH. unfold auxMatches at 2. rewrite Hdot.
      destruct (String.eqb_spec fileExt e) as [->|Hne]; [contradiction|reflexivity].
  - cbn [existsb]. rewrite IH. reflexivity.
Qed.

(** X6. An entry with an upper-case letter in any list of extensions (the
    user's, executable, media, archive, miscellaneous, and the dotted
    entries of the auxiliary list) is dead: the verdict on every entry is
    the one of the filter without such entries, because the extension of
    the file is lowered before the comparison and the lists are not. *)
Theorem mixed_case_extensions_are_dead GOOS ff absPath d active :
  IsExcluded GOOS ff absPath d active
  = IsExcluded GOOS (Variations.withoutMixedCase ff) absPath d active.
Proof.
  unfold IsExcluded. cbn [Variations.withoutMixedCase Filefilter.config Filefilter.basePath
                          Filefilter.absFinalOutputFilePath Filefilter.MaxFileSize
                          Filefilter.DefaultExcludeDirs Filefilter.UserExcludeDirs].
  destruct (negb _ && String.eqb absPath _); [reflexivity|].
  destruct (Info d) as [info|e]; [|reflexivity].
  destruct (negb (Z.land (fi_Mode info) ModeSymlink =? 0)); [reflexivity|].
  destruct (fi_IsDir info && _); [reflexivity|].
  destruct (existsb (matcherHits absPath) _); [reflexivity|].
  destruct (fi_IsDir info); [reflexivity|].
  destruct (_ && _); [reflexivity|].
  rewrite !excludedByKind_any. cbv zeta.
  cbn [Filefilter.UserExcludeExts Filefilter.UserExcludeGlobs Filefilter.DefaultExecExts
       Filefilter.DefaultMediaExts Filefilter.DefaultArchiveExts
       Filefilter.DefaultLockfilePatterns Filefilter.DefaultMiscellaneousExtensions
       Filefilter.DefaultMiscellaneousFileNames Filefilter.SkipAuxFiles
       Filefilter.DefaultAuxExts].
  pose proof (ToLower_idempotent (Filepath.Ext absPath)) as Hlow.
  rewrite !existsb_lowerOnly, existsb_user_lowerOnly, existsb_aux_lowerOnly by exact Hlow.
  reflexivity.
Qed.

(** ** Project files recognised by the start of their name *)

(** X7. In auxiliary mode the project-meta names (README, LICENSE, COPYING,
    NOTICE, AUTHORS, CHANGELOG, CONTRIBUTING, MANIFEST) are matched as
    prefixes without regard to case: a regular file whose lower-cased name
    begins with such a name of the auxiliary list is excluded, whatever
    follows the prefix and whatever its extension. *)
Theorem meta_name_prefix_excludes GOOS ff absPath d info active name :
  Info d = inl info ->
  fi_IsDir info = false ->
  Filefilter.SkipAuxFiles (Filefilter.config ff) = true ->
  In name (Filefilter.DefaultAuxExts (Filefilter.config ff)) ->
  In name metaNames ->
  Strings.HasPrefix (Strings.ToLower (Filepath.Base absPath)) (Strings.ToLower name) = true ->
  IsExcluded GOOS ff absPath d active = (true, None).
Proof.
  intros Hinfo Hfile Hskip Hin Hmeta Hprefix.
  apply (file_caught_is_excluded GOOS ff absPath d info active Hinfo Hfile).
  rewrite excludedByKind_any. cbv zeta. rewrite Hskip. cbn [andb].
  assert (Haux : existsb (auxMatches (Strings.ToLower (Filepath.Ext absPath))
                            (Filepath.Base absPath))
                         (Filefilter.DefaultAuxExts (Filefilter.config ff)) = true).
  { apply existsb_exists. exists name. split; [exact Hin|].
    unfold auxMatches.
    assert (Hshape : Strings.HasPrefix name "." = false
                     /\ (Strings.Contains name "*" || Strings.Contains name "?") = false
                     /\ existsb (String.eqb name) metaNames = true).
    { cbn [In metaNames] in Hmeta.
      repeat (destruct Hmeta as [<-|Hmeta]; [repeat split; reflexivity|]).
      contradiction. }
    destruct Hshape as (-> & -> & ->). rewrite Hprefix. apply orb_true_r. }
  rewrite Haux. apply orb_true_r.
Qed.

(** A Go file called [Readme-internal.go] under the filter with the
    auxiliary mode on. *)
Lemma meta_name_prefix_excludes_witness :
  IsExcluded "linux" Variations.auxFilter "/w/p/Readme-internal.go"
    (Fixtures.newMockFile "Readme-internal.go" 100 0) [] = (true, None).
Proof.
  eapply (meta_name_prefix_excludes "linux" Variations.auxFilter "/w/p/Readme-internal.go"
            (Fixtures.newMockFile "Readme-internal.go" 100 0) _ [] "README");
    try reflexivity; vm_compute; tauto.
Defined.

(** ** The last element of a path and its extension *)

Lemma Split_at_separator a b :
  Strings.Split "/" (a ++ "/" ++ b) = (Strings.Split "/" a ++ Strings.Split "/" b)%list.
Proof.
  induction a as [|c r IH]; [reflexivity|].
  change (String c r ++ "/" ++ b) with (String c (r ++ "/" ++ b)).
  cbn [Strings.Split]. rewrite IH. destruct (Ascii.eqb c "/"); [reflexivity|].
  pose proof (Split_not_nil "/" r).
  destruct (Strings.Split "/" r); [congruence|reflexivity].
Qed.

Lemma Split_without_separator b :
  Filepath.noSeparator b = true -> Strings.Split "/" b = [b].
Proof.
  induction b as [|c r IH]; [reflexivity|]. cbn [Filepath.noSeparator Strings.Split].
  unfold Filepath.Separator. destruct (Ascii.eqb c "/"); [discriminate|].
  cbn [negb andb]. intros Hr. rewrite (IH Hr). reflexivity.
Qed.

Lemma last_of_app_single {A} (l : list A) (x d : A) : List.last (l ++ [x]) d = x.
Proof.
  induction l as [|y l IH]; [reflexivity|].
  cbn [app]. destruct (l ++ [x])%list eqn:Hl; [destruct l; discriminate|].
  change (List.last (y :: a :: l0) d) with (List.last (a :: l0) d). exact IH.
Qed.

(** [filepath.Ext] and [filepath.Base] of a directory joined with a name
    that holds no separator. *)
Lemma Ext_of_joined dir name :
  Filepath.noSeparator name = true ->
  Filepath.Ext (dir ++ "/" ++ name) = Filepath.fromLastDot name.
Proof.
  intros Hname. unfold Filepath.Ext, Filepath.Separator.
  rewrite Split_at_separator, (Split_without_separator name Hname), last_of_app_single.
  reflexivity.
Qed.

Lemma dropTrailingEmpty_last l x :
  x <> "" -> Filepath.dropTrailingEmpty (l ++ [x]) = (l ++ [x])%list.
Proof.
  intros Hx. induction l as [|y l IH].
  - cbn. destruct x; [congruence|reflexivity].
  - cbn [app Filepath.dropTrailingEmpty]. rewrite IH.
    destruct (l ++ [x])%list eqn:Hl; [destruct l; discriminate|reflexivity].
Qed.

Lemma Base_of_joined dir name :
  Filepath.noSeparator name = true -> name <> "" ->
  Filepath.Base (dir ++ "/" ++ name) = name.
Proof.
  intros Hname Hne. unfold Filepath.Base, Filepath.Separator.
  assert (Hnonempty : Filepath.isEmpty (dir ++ "/" ++ name) = false)
    by (destruct dir; reflexivity).
  rewrite Hnonempty, Split_at_separator, (Split_without_separator name Hname).
  rewrite (dropTrailingEmpty_last _ _ Hne).
  destruct (Strings.Split "/" dir ++ [name])%list as [|x r] eqn:Hl;
    [destruct (Strings.Split "/" dir); discriminate|].
  rewrite <- (last_of_app_single (Strings.Split "/" dir) name x), Hl.
  destruct r; reflexivity.
Qed.

Lemma fromLastDot_without_dot s :
  Strings.Contains s "." = false -> Filepath.fromLastDot s = "".
Proof.
  induction s as [|c r IH]; [reflexivity|].
  cbn [Strings.Contains Filepath.fromLastDot]. intros Hno.
  apply orb_false_iff in Hno. destruct Hno as [Hhere Hrest].
  rewrite (IH Hrest).
  destruct (Ascii.eqb_spec c ".") as [->|Hne]; [|reflexivity].
  cbn in Hhere. destruct r; discriminate Hhere.
Qed.

(** X8. A file whose name is a dot followed by ASCII bytes without
    another dot (a "dotfile" such as [.gitignore] or [.env]) has its whole
    name as its extension; so it is excluded as soon as its lower-cased
    name stands in the list of miscellaneous extensions. *)
Theorem dotfile_is_excluded_by_extension GOOS ff dir rest d info active :
  Strings.isASCII rest = true ->
  Info d = inl info ->
  fi_IsDir info = false ->
  Filepath.noSeparator rest = true ->
  Strings.Contains rest "." = false ->
  In (Strings.ToLower (String "." rest))
     (Filefilter.DefaultMiscellaneousExtensions (Filefilter.config ff)) ->
  Filepath.Ext (dir ++ "/" ++ String "." rest) = String "." rest
  /\ IsExcluded GOOS ff (dir ++ "/" ++ String "." rest) d active = (true, None).
Proof.
  intros Hascii Hinfo Hfile Hsep Hdot Hin.
  assert (Hext : Filepath.Ext (dir ++ "/" ++ String "." rest) = String "." rest).
  { rewrite Ext_of_joined by exact Hsep.
    cbn [Filepath.fromLastDot]. rewrite (fromLastDot_without_dot rest Hdot). reflexivity. }
  split; [exact Hext|].
  apply (file_caught_is_excluded GOOS ff _ d info active Hinfo Hfile).
  rewrite excludedByKind_any. cbv zeta. rewrite Hext.
  assert (Hmisc : existsb (String.eqb (Strings.ToLower (String "." rest)))
                          (Filefilter.DefaultMiscellaneousExtensions (Filefilter.config ff))
                  = true).
  { apply existsb_exists. eexists. split; [exact Hin|apply String.eqb_refl]. }
  rewrite Hmisc. rewrite !orb_true_r. reflexivity.
Qed.

(** The [.gitignore] of a project under the default filter: it is itself
    left out of the output. *)
Lemma dotfile_is_excluded_by_extension_witness :
  IsExcluded "linux" Variations.defaultFilter "/w/p/sub/.gitignore"
    (Fixtures.newMockFile ".gitignore" 100 0) [] = (true, None).
Proof.
  eapply (dotfile_is_excluded_by_extension "linux" Variations.defaultFilter "/w/p/sub"
            "gitignore" (Fixtures.newMockFile ".gitignore" 100 0) _ []);
    try reflexivity; vm_compute; tauto.
Defined.

(** ** The cache and the disk over a whole run *)

Section RunFacts.

Variable GOOS : string.
Variable p : Processor.
Variable dk : Disk.disk.

Let fs := fileSystemOf dk.

Lemma byCompiling_refl st : Discipline.byCompiling fs st st.
Proof. exists []. reflexivity. Qed.

Lemma compileEach_app dirs1 dirs2 st :
  Notions.compileEach fs (dirs1 ++ dirs2) st
  = Notions.compileEach fs dirs2 (Notions.compileEach fs dirs1 st).
Proof.
  revert st. induction dirs1 as [|d dirs1 IH]; intros st; [reflexivity|].
  cbn. apply IH.
Qed.

Lemma byCompiling_trans st1 st2 st3 :
  Discipline.byCompiling fs st1 st2 -> Discipline.byCompiling fs st2 st3 ->
  Discipline.byCompiling fs st1 st3.
Proof.
  intros [dirs1 ->] [dirs2 ->]. exists (dirs1 ++ dirs2)%list. symmetry. apply compileEach_app.
Qed.

Lemma compile_byCompiling dirPath st :
  Discipline.byCompiling fs st (snd (compile dk dirPath st)).
Proof. exists [dirPath]. reflexivity. Qed.

Lemma collectMatchers_byCompiling fuel :
  forall currentDir pathStack st,
    Discipline.byCompiling fs st (snd (collectMatchers p dk fuel currentDir pathStack st)).
Proof.
  induction fuel as [|fuel IH]; intros currentDir pathStack st; cbn [collectMatchers].
  - apply byCompiling_refl.
  - destruct (Strings.HasPrefix currentDir (basePath p) && negb (String.eqb currentDir ""));
      [|apply byCompiling_refl].
    pose proof (compile_byCompiling currentDir st) as Hc.
    destruct (compile dk currentDir st) as [[matcher e] st1]. cbn [snd] in Hc.
    destruct (String.eqb currentDir (basePath p)); [exact Hc|].
    destruct (String.eqb (Filepath.Dir currentDir) currentDir); [exact Hc|].
    eapply byCompiling_trans; [exact Hc|apply IH].
Qed.

Lemma visit_byCompiling path d e st :
  Discipline.byCompiling fs st (snd (fst (visit GOOS p dk path d e st))).
Proof.
  unfold visit. destruct e as [e|].
  - destruct (IsDir d && Is e ErrPermission); apply byCompiling_refl.
  - pose proof (collectMatchers_byCompiling
                  (2 + String.length (if negb (IsDir d) then Filepath.Dir path else path))
                  (if negb (IsDir d) then Filepath.Dir path else path) [] st) as Hc.
    destruct (collectMatchers _ _ _ _ _ _) as [pathStack st1]. cbn [snd] in Hc.
    destruct (IsExcluded GOOS (filter p) path d (rev pathStack)) as [[|] [filterErr|]].
    + destruct (Is filterErr SkipDir); exact Hc.
    + destruct (IsDir d); exact Hc.
    + destruct (Is filterErr SkipDir); exact Hc.
    + destruct (IsDir d); [exact Hc|].
      destruct (Filepath.Rel (basePath p) path); exact Hc.
Qed.

Lemma walkEntries_byCompiling
      (entries : list (DirEntry * (string -> state -> option error * state * list block))) :
  Forall (fun dw => forall path st, Discipline.byCompiling fs st (snd (fst (snd dw path st))))
         entries ->
  forall path st, Discipline.byCompiling fs st (fst (walkEntries path entries st)).
Proof.
  induction 1 as [|[d1 walk1] entries H1 Hrest IH]; intros path st; cbn [walkEntries].
  - apply byCompiling_refl.
  - pose proof (H1 (Filepath.Join path (Name d1)) st) as Hc. cbn [snd] in Hc.
    destruct (walk1 (Filepath.Join path (Name d1)) st) as [[[err|] st1] out1];
      cbn [fst snd] in Hc; [exact Hc|].
    pose proof (IH path st1) as Hc2.
    destruct (walkEntries path entries st1) as [st2 out2]. cbn [fst] in *.
    eapply byCompiling_trans; eassumption.
Qed.

Lemma walkDir_byCompiling n :
  forall path st, Discipline.byCompiling fs st (snd (fst (walkDir GOOS p dk n path st))).
Proof.
  induction n as [name perm content|name|name readable entries IH] using node_ind_entries;
    intros path st; cbn [walkDir].
  - pose proof (visit_byCompiling path (Disk.entryOf (Disk.File name perm content)) None st) as Hv.
    destruct (visit _ _ _ _ _ _ _) as [[[err|] st1] out1]; exact Hv.
  - pose proof (visit_byCompiling path (Disk.entryOf (Disk.Symlink name)) None st) as Hv.
    destruct (visit _ _ _ _ _ _ _) as [[[err|] st1] out1]; exact Hv.
  - pose proof (visit_byCompiling path
                  (Disk.entryOf (Disk.Directory name readable entries)) None st) as Hv.
    destruct (visit _ _ _ _ _ None _) as [[[err|] st1] out1]; cbn [fst snd] in Hv;
      [exact Hv|].
    destruct readable.
    + pose proof (walkEntries_byCompiling
                    (sortBy (fun a b => nameLess (fst a) (fst b))
                       (map (fun c => (Disk.entryOf c, walkDir GOOS p dk c)) entries))) as Hw.
      specialize (Hw ltac:(apply Forall_sortBy; apply Forall_map; exact IH) path st1).
      destruct (walkEntries _ _ st1) as [st2 out2]. cbn [fst snd] in *.
      eapply byCompiling_trans; eassumption.
    + pose proof (visit_byCompiling path
                    (Disk.entryOf (Disk.Directory name false entries))
                    (Some ErrPermission) st1) as Hv2.
      destruct (visit _ _ _ _ _ (Some _) _) as [[[err|] st2] out2]; cbn [fst snd] in *;
        eapply byCompiling_trans; eassumption.
Qed.

Lemma buildEntries_byCompiling
      (entries : list (DirEntry *
                       (string -> list (option Gitignore.Ref) -> state
                        -> state * list treeNode))) :
  Forall (fun db => forall path active st,
              Discipline.byCompiling fs st (fst (snd db path active st))) entries ->
  forall currentDirPath active st,
    Discipline.byCompiling fs st (fst (buildEntries GOOS p currentDirPath active entries st)).
Proof.
  induction 1 as [|[entry recurse] entries H1 Hrest IH]; intros currentDirPath active st;
    cbn [buildEntries].
  - apply byCompiling_refl.
  - destruct (IsExcluded GOOS (filter p) _ entry active) as [[|] [filterErr|]];
      try apply IH.
    assert (Hc : Discipline.byCompiling fs st
                   (fst (if IsDir entry
                         then recurse (Filepath.Join currentDirPath (Name entry)) active st
                         else (st, [])))).
    { destruct (IsDir entry); [apply H1|apply byCompiling_refl]. }
    destruct (if IsDir entry then _ else _) as [st1 grand]. cbn [fst] in Hc.
    pose proof (IH currentDirPath active st1) as Hc2.
    destruct (buildEntries GOOS p currentDirPath active entries st1) as [st2 siblings].
    cbn [fst] in *. eapply byCompiling_trans; eassumption.
Qed.

Lemma buildNodeRecursive_byCompiling n :
  forall path active st,
    Discipline.byCompiling fs st (fst (buildNodeRecursive GOOS p dk n path active st)).
Proof.
  induction n as [name perm content|name|name readable entries IH] using node_ind_entries;
    intros path active st; cbn [buildNodeRecursive]; try apply byCompiling_refl.
  destruct readable; [|apply byCompiling_refl].
  pose proof (compile_byCompiling path st) as Hc.
  destruct (compile dk path st) as [[currentDirGitIgnore e] st1]. cbn [snd] in Hc.
  eapply byCompiling_trans; [exact Hc|].
  apply buildEntries_byCompiling.
  apply Forall_sortBy, Forall_sortBy, Forall_map. exact IH.
Qed.

Lemma buildTree_byCompiling st :
  Discipline.byCompiling fs st (fst (buildTree GOOS p dk st)).
Proof.
  unfold buildTree.
  pose proof (compile_byCompiling (Filepath.Clean (basePath p)) st) as Hc.
  destruct (compile dk (Filepath.Clean (basePath p)) st) as [[rootGitIgnore e] st1].
  cbn [snd] in Hc.
  pose proof (buildNodeRecursive_byCompiling (Disk.root dk) (Filepath.Clean (basePath p))
                (match rootGitIgnore with Some _ => [rootGitIgnore] | None => [] end) st1)
    as Hb.
  destruct (buildNodeRecursive _ _ _ _ _ _ _) as [st2 children]. cbn [fst] in *.
  eapply byCompiling_trans; eassumption.
Qed.

Lemma Process_byCompiling st :
  Discipline.byCompiling fs st (fst (fst (Process GOOS p dk st))).
Proof.
  unfold Process.
  assert (Ht : Discipline.byCompiling fs st
                 (fst (if IncludeTree (config p)
                       then let '(s, t) := BuildTreeString GOOS p dk st in (s, Some t)
                       else (st, None)))).
  { destruct (IncludeTree (config p)); [|apply byCompiling_refl].
    unfold BuildTreeString. pose proof (buildTree_byCompiling st) as Hb.
    destruct (buildTree GOOS p dk st) as [s rootNode]. exact Hb. }
  destruct (if IncludeTree (config p) then _ else _) as [st1 treeStr]. cbn [fst] in Ht.
  pose proof (compile_byCompiling (basePath p) st1) as Hc.
  destruct (compile dk (basePath p) st1) as [r st2]. cbn [snd] in Hc.
  unfold WalkDir.
  pose proof (walkDir_byCompiling (Disk.root dk) (basePath p) st2) as Hw.
  destruct (walkDir GOOS p dk (Disk.root dk) (basePath p) st2) as [[r3 st3] out].
  cbn [fst snd] in *.
  eapply byCompiling_trans; [exact Ht|]. eapply byCompiling_trans; eassumption.
Qed.

End RunFacts.

Section CacheFacts.

Variable fs : FileSystem.

Lemma initial_logInStep : Discipline.logInStep fs initialState.
Proof.
  unfold Discipline.logInStep. cbn. repeat split; try constructor; try tauto.
Qed.

Lemma initial_cacheCoherent : Discipline.cacheCoherent fs initialState.
Proof.
  unfold Discipline.cacheCoherent. cbn.
  repeat split; intros *; rewrite lookup_empty; discriminate.
Qed.

Lemma compile_logInStep dirPath st :
  Discipline.logInStep fs st ->
  Discipline.logInStep fs (snd (compileAndCacheGitIgnore fs dirPath st)).
Proof.
  intros (Hstat & Hread & Hcache & Hok & Hnames). unfold compileAndCacheGitIgnore.
  set (g := Filepath.Join dirPath ".gitignore").
  destruct (gitIgnoreCache st !! g) as [m|] eqn:Hg;
    [exact (conj Hstat (conj Hread (conj Hcache (conj Hok Hnames))))|].
  assert (Hnew : ~ In g (Discipline.statted (ioLog st))).
  { intros Hin. apply Hcache in Hin. apply Hin. exact Hg. }
  assert (Hnewr : ~ In g (Discipline.readFrom (ioLog st))).
  { intros Hin. apply Hok in Hin. tauto. }
  assert (Hins : forall v path,
             (g = path \/ In path (Discipline.statted (ioLog st)))
             <-> <[g := v]> (gitIgnoreCache st) !! path <> None).
  { intros v path. destruct (decide (g = path)) as [<-|Hne].
    - rewrite lookup_insert_eq. split; [discriminate|tauto].
    - rewrite lookup_insert_ne by exact Hne. rewrite <- Hcache. tauto. }
  assert (Hname : exists d, g = Filepath.Join d ".gitignore") by (exists dirPath; reflexivity).
  destruct (fsStat fs g) as [statErr|] eqn:Hs.
  - unfold Discipline.logInStep. cbn.
    split; [constructor; [exact Hnew|exact Hstat]|]. split; [exact Hread|].
    split; [apply Hins|]. split.
    + intros path. split.
      * intros Hin. apply Hok in Hin. tauto.
      * intros [[<-|Hin] Hnone]; [congruence|]. apply Hok. tauto.
    + constructor; [exact Hname|exact Hnames].
  - assert (Hboth : forall v,
               Discipline.logInStep fs
                 {| gitIgnoreCache := <[g := v]> (gitIgnoreCache st);
                    nextAddr := match v with Some _ => S (nextAddr st) | None => nextAddr st end;
                    ioLog := EvReadFile g :: EvStat g :: ioLog st |}).
    { intros v. unfold Discipline.logInStep. cbn.
      split; [constructor; [exact Hnew|exact Hstat]|].
      split; [constructor; [exact Hnewr|exact Hread]|].
      split; [apply Hins|]. split.
      - intros path. split.
        + intros [<-|Hin]; [tauto|]. apply Hok in Hin. tauto.
        + intros [[<-|Hin] Hnone]; [tauto|]. right. apply Hok. tauto.
      - constructor; [exact Hname|]. constructor; [exact Hname|exact Hnames]. }
    destruct (Gitignore.CompileIgnoreFile (fsReadFile fs g)) as [gi|compileErr].
    + exact (Hboth (Some {| Gitignore.addr := nextAddr st; Gitignore.target := gi |})).
    + exact (Hboth None).
Qed.

Lemma compile_cacheCoherent dirPath st :
  Discipline.cacheCoherent fs st ->
  Discipline.cacheCoherent fs (snd (compileAndCacheGitIgnore fs dirPath st)).
Proof.
  intros (Hdisk & Hbelow & Hapart). unfold compileAndCacheGitIgnore.
  set (g := Filepath.Join dirPath ".gitignore").
  destruct (gitIgnoreCache st !! g) as [m|] eqn:Hg;
    [exact (conj Hdisk (conj Hbelow Hapart))|].
  assert (Hnil : Discipline.fromDisk fs g = None ->
                 Discipline.cacheCoherent fs
                   {| gitIgnoreCache := <[g := None]> (gitIgnoreCache st);
                      nextAddr := nextAddr st;
                      ioLog := ioLog st |}).
  { intros Hnone. unfold Discipline.cacheCoherent. cbn. split; [|split].
    - intros path v. destruct (decide (g = path)) as [<-|Hne].
      + rewrite lookup_insert_eq. intros [= <-]. rewrite Hnone. reflexivity.
      + rewrite lookup_insert_ne by exact Hne. apply Hdisk.
    - intros path m. destruct (decide (g = path)) as [<-|Hne].
      + rewrite lookup_insert_eq. discriminate.
      + rewrite lookup_insert_ne by exact Hne. apply Hbelow.
    - intros path1 path2 m1 m2.
      destruct (decide (g = path1)) as [<-|Hne1]; [rewrite lookup_insert_eq; discriminate|].
      destruct (decide (g = path2)) as [<-|Hne2]; [rewrite lookup_insert_eq; discriminate|].
      rewrite !lookup_insert_ne by assumption. apply Hapart. }
  unfold Discipline.cacheCoherent in Hnil. cbn in Hnil.
  destruct (fsStat fs g) as [statErr|] eqn:Hs.
  - unfold Discipline.cacheCoherent. cbn. apply Hnil.
    unfold Discipline.fromDisk. rewrite Hs. reflexivity.
  - destruct (Gitignore.CompileIgnoreFile (fsReadFile fs g)) as [gi|compileErr] eqn:Hc.
    + unfold Discipline.cacheCoherent. cbn. split; [|split].
      * intros path v. destruct (decide (g = path)) as [<-|Hne].
        -- rewrite lookup_insert_eq. intros [= <-]. cbn.
           unfold Discipline.fromDisk. rewrite Hs, Hc. reflexivity.
        -- rewrite lookup_insert_ne by exact Hne. apply Hdisk.
      * intros path m. destruct (decide (g = path)) as [<-|Hne].
        -- rewrite lookup_insert_eq. intros [= <-]. cbn. lia.
        -- rewrite lookup_insert_ne by exact Hne. intros Hm.
           pose proof (Hbelow _ _ Hm). lia.
      * intros path1 path2 m1 m2.
        destruct (decide (g = path1)) as [<-|Hne1];
          destruct (decide (g = path2)) as [<-|Hne2];
          rewrite ?lookup_insert_eq, ?lookup_insert_ne by assumption.
        -- reflexivity.
        -- intros [= <-] Hm2 Haddr. cbn in Haddr.
           pose proof (Hbelow _ _ Hm2). lia.
        -- intros Hm1 [= <-] Haddr. cbn in Haddr.
           pose proof (Hbelow _ _ Hm1). lia.
        -- apply Hapart.
    + unfold Discipline.cacheCoherent. cbn. apply Hnil.
      unfold Discipline.fromDisk. rewrite Hs, Hc. reflexivity.
Qed.

Lemma compile_log_grows dirPath st :
  exists newer, ioLog (snd (compileAndCacheGitIgnore fs dirPath st)) = (newer ++ ioLog st)%list.
Proof.
  unfold compileAndCacheGitIgnore.
  destruct (gitIgnoreCache st !! _); [exists []; reflexivity|].
  destruct (fsStat fs _); [eexists [_]; reflexivity|].
  destruct (Gitignore.CompileIgnoreFile _); eexists [_; _]; reflexivity.
Qed.

Lemma byCompiling_logInStep st st' :
  Discipline.byCompiling fs st st' ->
  Discipline.logInStep fs st -> Discipline.logInStep fs st'.
Proof.
  intros [dirs ->]. revert st. induction dirs as [|d dirs IH]; intros st Hst; [exact Hst|].
  cbn. apply IH. apply compile_logInStep. exact Hst.
Qed.

Lemma byCompiling_cacheCoherent st st' :
  Discipline.byCompiling fs st st' ->
  Discipline.cacheCoherent fs st -> Discipline.cacheCoherent fs st'.
Proof.
  intros [dirs ->]. revert st. induction dirs as [|d dirs IH]; intros st Hst; [exact Hst|].
  cbn. apply IH. apply compile_cacheCoherent. exact Hst.
Qed.

Lemma byCompiling_log_grows st st' :
  Discipline.byCompiling fs st st' ->
  exists newer, ioLog st' = (newer ++ ioLog st)%list.
Proof.
  intros [dirs ->]. revert st. induction dirs as [|d dirs IH]; intros st;
    [exists []; reflexivity|].
  cbn. destruct (IH (snd (compileAndCacheGitIgnore fs d st))) as [newer2 ->].
  destruct (compile_log_grows d st) as [newer1 ->].
  exists (newer2 ++ newer1)%list. apply app_assoc.
Qed.

End CacheFacts.

(** X9. Over a whole run, tree and walk together, the disk is asked about
    every [.gitignore] at most once: no path is stat'ed twice or read
    twice, a path is read exactly when its stat succeeded, the paths
    stat'ed are exactly those with an entry in the cache, and nothing but
    files called [.gitignore] is looked at on behalf of the cache. *)
Theorem run_asks_the_disk_once GOOS p dk st :
  Discipline.logInStep (fileSystemOf dk) st ->
  Discipline.logInStep (fileSystemOf dk) (fst (fst (Process GOOS p dk st))).
Proof.
  apply byCompiling_logInStep. apply Process_byCompiling.
Qed.

(** The nested project, from the empty cache. *)
Lemma run_asks_the_disk_once_witness :
  Discipline.logInStep (fileSystemOf Discipline.nestedDisk)
    (fst (fst (Process "linux" (Notions.testProcessor "/w/p") Discipline.nestedDisk
                 initialState))).
Proof.
  apply run_asks_the_disk_once. apply initial_logInStep.
Defined.

(** X10. Over a whole run the cache stays true to the disk: the entry of a
    path is the matcher compiled from the file found there, or nil when
    the file is missing or cannot be compiled; and the matchers it hands
    out can be told apart by their address, one address for one path. *)
Theorem run_keeps_cache_true_to_disk GOOS p dk st :
  Discipline.cacheCoherent (fileSystemOf dk) st ->
  Discipline.cacheCoherent (fileSystemOf dk) (fst (fst (Process GOOS p dk st))).
Proof.
  apply byCompiling_cacheCoherent. apply Process_byCompiling.
Qed.

Lemma run_keeps_cache_true_to_disk_witness :
  Discipline.cacheCoherent (fileSystemOf Discipline.nestedDisk)
    (fst (fst (Process "linux" (Notions.testProcessor "/w/p") Discipline.nestedDisk
                 initialState))).
Proof.
  apply run_keeps_cache_true_to_disk. apply initial_cacheCoherent.
Defined.

(** X11. A run never forgets: an entry the cache holds before is held,
    unchanged, after, and the log of calls on the disk is only added
    to. *)
Theorem run_never_forgets GOOS p dk st key v :
  gitIgnoreCache st !! key = Some v ->
  gitIgnoreCache (fst (fst (Process GOOS p dk st))) !! key = Some v
  /\ exists newer, ioLog (fst (fst (Process GOOS p dk st))) = (newer ++ ioLog st)%list.
Proof.
  intros Hkey. pose proof (Process_byCompiling GOOS p dk st) as Hby. split.
  - destruct Hby as [dirs ->]. apply compileEach_keeps_entries. exact Hkey.
  - exact (byCompiling_log_grows _ _ _ Hby).
Qed.

(** The project whose [.gitignore] cannot be read: the nil cached for it
    before the run is still there after. *)
Lemma run_never_forgets_witness :
  let fs := fileSystemOf Notions.unreadableIgnoreDisk in
  let st := snd (compileAndCacheGitIgnore fs "/w/p" initialState) in
  let st' := fst (fst (Process "linux" (Notions.testProcessor "/w/p")
                         Notions.unreadableIgnoreDisk st)) in
  gitIgnoreCache st' !! "/w/p/.gitignore" = Some None
  /\ exists newer, ioLog st' = (newer ++ ioLog st)%list.
Proof.
  cbv zeta. apply run_never_forgets. vm_compute. reflexivity.
Defined.

(** ** The path of an entry and its name *)

Lemma Join_snoc l x sep :
  l <> [] -> Strings.Join (l ++ [x]) sep = (Strings.Join l sep ++ sep ++ x)%string.
Proof.
  induction l as [|a [|b r] IH]; intros Hne; [congruence|reflexivity|].
  change (Strings.Join ((a :: b :: r) ++ [x]) sep)
    with (a ++ sep ++ Strings.Join ((b :: r) ++ [x]) sep)%string.
  rewrite IH by discriminate.
  change (Strings.Join (a :: b :: r) sep) with (a ++ sep ++ Strings.Join (b :: r) sep)%string.
  rewrite !string_append_assoc. reflexivity.
Qed.

Lemma plainName_parts name :
  Names.plainName name = true ->
  Filepath.isEmpty name = false /\ Filepath.noSeparator name = true
  /\ String.eqb name "." = false /\ String.eqb name ".." = false.
Proof.
  unfold Names.plainName. intros H.
  apply andb_true_iff in H. destruct H as [H H4].
  apply andb_true_iff in H. destruct H as [H H3].
  apply andb_true_iff in H. destruct H as [H1 H2].
  apply negb_true_iff in H1, H3, H4. tauto.
Qed.

Lemma cleanStep_plain isRooted acc name :
  Names.plainName name = true -> Filepath.cleanStep isRooted acc name = name :: acc.
Proof.
  intros H. destruct (plainName_parts name H) as (H1 & _ & H3 & H4).
  unfold Filepath.cleanStep. rewrite H1, H3, H4. reflexivity.
Qed.

Lemma cleanSegments_joined dir name :
  Names.plainName name = true ->
  exists l, Filepath.cleanSegments (dir ++ "/" ++ name) = (l ++ [name])%list.
Proof.
  intros H. destruct (plainName_parts name H) as (_ & H2 & _ & _).
  unfold Filepath.cleanSegments, Filepath.Separator.
  rewrite Split_at_separator, (Split_without_separator name H2), fold_left_app.
  cbn [fold_left]. rewrite (cleanStep_plain _ _ _ H). cbn [rev]. eauto.
Qed.

(** The path of an entry called [name] in any directory ends with the
    name, after a separator unless it is the name alone. *)
Lemma Join_plain_shape dir name :
  Names.plainName name = true ->
  Filepath.Join dir name = name
  \/ exists before, Filepath.Join dir name = (before ++ "/" ++ name)%string.
Proof.
  intros H. destruct (plainName_parts name H) as (H1 & H2 & H3 & H4).
  assert (Hunrooted : Filepath.rooted name = false).
  { destruct name as [|c r]; [reflexivity|]. cbn in H2 |- *.
    unfold Filepath.Separator in *. destruct (Ascii.eqb c "/"); [discriminate|reflexivity]. }
  unfold Filepath.Join. rewrite H1.
  destruct (Filepath.isEmpty dir) eqn:Hdir.
  - left. unfold Filepath.Clean, Filepath.cleanSegments, Filepath.Separator.
    rewrite (Split_without_separator name H2). cbn [fold_left].
    rewrite (cleanStep_plain _ _ _ H). cbn [rev app Strings.Join].
    rewrite Hunrooted, H1. reflexivity.
  - destruct (cleanSegments_joined dir name H) as [l Hl].
    unfold Filepath.Clean. rewrite Hl.
    destruct l as [|a l].
    + cbn [app Strings.Join]. rewrite H1.
      destruct (Filepath.rooted (dir ++ "/" ++ name)%string);
        [right; exists ""; reflexivity|left; reflexivity].
    + rewrite Join_snoc by discriminate. right.
      destruct (Filepath.rooted (dir ++ "/" ++ name)%string).
      * exists ("/" ++ Strings.Join (a :: l) "/")%string.
        rewrite string_append_assoc. reflexivity.
      * exists (Strings.Join (a :: l) "/").
        destruct (Strings.Join (a :: l) "/"); reflexivity.
Qed.

Lemma Base_plain name : Names.plainName name = true -> Filepath.Base name = name.
Proof.
  intros H. destruct (plainName_parts name H) as (H1 & H2 & _ & _).
  unfold Filepath.Base, Filepath.Separator.
  rewrite H1, (Split_without_separator name H2). cbn. rewrite H1. reflexivity.
Qed.

(** [filepath.Base] and [filepath.Ext] of the path of an entry see the
    name of the entry and nothing of the directory. *)
Lemma Base_of_entry dir name :
  Names.plainName name = true -> Filepath.Base (Filepath.Join dir name) = name.
Proof.
  intros H. destruct (plainName_parts name H) as (H1 & H2 & _ & _).
  destruct (Join_plain_shape dir name H) as [->|[before ->]].
  - apply Base_plain. exact H.
  - apply Base_of_joined; [exact H2|]. intros ->. discriminate.
Qed.

Lemma Ext_of_entry dir name :
  Names.plainName name = true ->
  Filepath.Ext (Filepath.Join dir name) = Filepath.fromLastDot name.
Proof.
  intros H. destruct (plainName_parts name H) as (H1 & H2 & _ & _).
  destruct (Join_plain_shape dir name H) as [->|[before ->]].
  - unfold Filepath.Ext, Filepath.Separator.
    rewrite (Split_without_separator name H2). reflexivity.
  - apply Ext_of_joined. exact H2.
Qed.

(** ** Names in the tree *)

(** An entry the filter lets through bears an allowed name. *)
Lemma passed_entry_name_allowed GOOS ff dir d info active :
  Info d = inl info ->
  fi_IsDir info = IsDir d ->
  Names.plainName (Name d) = true ->
  IsExcluded GOOS ff (Filepath.Join dir (Name d)) d active = (false, None) ->
  Names.nameAllowed (Filefilter.config ff) (IsDir d) (Name d) = true.
Proof.
  intros Hinfo Hdir Hplain. unfold IsExcluded.
  rewrite Hinfo, Hdir, (Base_of_entry dir (Name d) Hplain).
  destruct (negb _ && String.eqb _ _); [discriminate|].
  destruct (negb (Z.land (fi_Mode info) ModeSymlink =? 0)); [discriminate|].
  unfold Names.nameAllowed. destruct (IsDir d); cbn [andb].
  - destruct (existsb _ (_ ++ _)%list); [discriminate|reflexivity].
  - destruct (existsb (matcherHits _) _); [discriminate|].
    destruct (_ && _); [discriminate|].
    rewrite excludedByKind_any. cbv zeta. rewrite (Ext_of_entry dir (Name d) Hplain).
    intros [= Hkind].
    repeat (apply orb_false_iff in Hkind; destruct Hkind as [Hkind ?]).
    rewrite !existsb_app.
    repeat match goal with H : existsb _ _ = false |- _ => rewrite H; clear H end.
    reflexivity.
Qed.

Section TreeNames.

Variable GOOS : string.
Variable p : Processor.
Variable dk : Disk.disk.

Lemma buildEntries_allowed
      (entries : list (DirEntry *
                       (string -> list (option Gitignore.Ref) -> state
                        -> state * list treeNode))) :
  Forall (fun db =>
            (exists info, Info (fst db) = inl info /\ fi_IsDir info = IsDir (fst db))
            /\ Names.plainName (Name (fst db)) = true
            /\ forall path active st,
                forallb (Names.allAllowed (Filefilter.config (filter p)))
                        (snd (snd db path active st)) = true) entries ->
  forall currentDirPath active st,
    forallb (Names.allAllowed (Filefilter.config (filter p)))
            (snd (buildEntries GOOS p currentDirPath active entries st)) = true.
Proof.
  induction 1 as [|[entry recurse] entries H1 Hrest IH]; intros currentDirPath active st;
    cbn [buildEntries]; [reflexivity|].
  destruct H1 as ((info & Hinfo & Hdir) & Hplain & Hrec). cbn [fst snd] in *.
  destruct (IsExcluded GOOS (filter p) _ entry active) as [[|] [filterErr|]] eqn:Hx;
    try apply IH.
  pose proof (passed_entry_name_allowed _ _ _ _ _ _ Hinfo Hdir Hplain Hx) as Hname.
  assert (Hgrand : forallb (Names.allAllowed (Filefilter.config (filter p)))
                     (snd (if IsDir entry
                           then recurse (Filepath.Join currentDirPath (Name entry)) active st
                           else (st, []))) = true).
  { destruct (IsDir entry); [apply Hrec|reflexivity]. }
  destruct (if IsDir entry then _ else _) as [st1 grand]. cbn [snd] in Hgrand.
  pose proof (IH currentDirPath active st1) as Hsib.
  destruct (buildEntries GOOS p currentDirPath active entries st1) as [st2 siblings].
  cbn [snd forallb Names.allAllowed] in *. rewrite Hname, Hgrand, Hsib. reflexivity.
Qed.

Lemma buildNodeRecursive_allowed n :
  Names.wellNamedBelow n = true ->
  forall path active st,
    forallb (Names.allAllowed (Filefilter.config (filter p)))
            (snd (buildNodeRecursive GOOS p dk n path active st)) = true.
Proof.
  induction n as [name perm content|name|name readable entries IH] using node_ind_entries;
    intros Hnamed path active st; cbn [buildNodeRecursive]; try reflexivity.
  destruct readable; [|reflexivity].
  destruct (compile dk path st) as [[currentDirGitIgnore e] st1].
  apply buildEntries_allowed.
  apply Forall_sortBy, Forall_sortBy, Forall_map.
  cbn [Names.wellNamedBelow] in Hnamed. rewrite forallb_forall in Hnamed.
  rewrite Stdlib.Lists.List.Forall_forall in IH |- *. intros c Hc. cbn [fst snd].
  specialize (Hnamed c Hc). apply andb_true_iff in Hnamed. destruct Hnamed as [Hplain Hbelow].
  split; [exists (Disk.infoOf c); split; [reflexivity|destruct c; reflexivity]|].
  split; [exact Hplain|]. apply IH; assumption.
Qed.

End TreeNames.

(** X12. Where the entries of the project bear ordinary names in ASCII
    bytes and the lock-file patterns are made of stars and plain bytes,
    the tree shows no name the filter rules out: no directory called by a
    name of the default or the user's list of directories, at any depth,
    and no file with an extension of the four default lists, a name
    matching a lock-file pattern or a name of the list of file names. *)
Theorem tree_shows_only_allowed_names GOOS p dk st :
  Disk.asciiBelow (Disk.root dk) = true ->
  forallb Filepath.starOnly
          (Filefilter.DefaultLockfilePatterns (Filefilter.config (filter p))) = true ->
  Names.wellNamedBelow (Disk.root dk) = true ->
  forallb (Names.allAllowed (Filefilter.config (filter p)))
          (tnChildren (snd (buildTree GOOS p dk st))) = true.
Proof.
  intros Hascii Hstars Hnamed. unfold buildTree.
  destruct (compile dk (Filepath.Clean (basePath p)) st) as [[rootGitIgnore e] st1].
  pose proof (buildNodeRecursive_allowed GOOS p dk (Disk.root dk) Hnamed
                (Filepath.Clean (basePath p))
                (match rootGitIgnore with Some _ => [rootGitIgnore] | None => [] end) st1)
    as Hkids.
  destruct (buildNodeRecursive _ _ _ _ _ _ _) as [st2 children]. exact Hkids.
Qed.

Lemma tree_shows_only_allowed_names_witness :
  forallb (Names.allAllowed (Filefilter.config (filter (Notions.testProcessor "/w/p"))))
          (tnChildren (snd (buildTree "linux" (Notions.testProcessor "/w/p")
                              Discipline.nestedDisk initialState))) = true.
Proof.
  apply tree_shows_only_allowed_names; reflexivity.
Defined.

(** ** The files that get a block *)

Section BlockFacts.

Variable GOOS : string.
Variable p : Processor.
Variable dk : Disk.disk.

Lemma visit_writes_passed_files n path e st :
  Forall (Names.passedTheFilter GOOS p dk)
         (snd (visit GOOS p dk path (Disk.entryOf n) e st)).
Proof.
  unfold visit. destruct e as [e|].
  - destruct (IsDir _ && Is e ErrPermission); constructor.
  - destruct n as [name perm content|name|name readable entries];
      cbn [Disk.entryOf Disk.isDirectory IsDir negb].
    + destruct (collectMatchers _ _ _ _ _ _) as [pathStack st1] eqn:Hstack.
      destruct (IsExcluded GOOS (filter p) path _ (rev pathStack))
        as [[|] [filterErr|]] eqn:Hx;
        try (destruct (Is filterErr SkipDir)); try constructor.
      destruct (Filepath.Rel (basePath p) path) as [relPath|] eqn:Hrel; constructor;
        [|constructor].
      exists name, perm, content, st, relPath. cbn [source header body].
      rewrite Hstack. cbn [fst]. repeat split; assumption.
    + destruct (collectMatchers _ _ _ _ _ _) as [pathStack st1].
      assert (Hlink : IsExcluded GOOS (filter p) path (Disk.entryOf (Disk.Symlink name))
                        (rev pathStack) = (true, None)).
      { unfold IsExcluded. destruct (negb _ && String.eqb path _); reflexivity. }
      cbn [Disk.entryOf Disk.isDirectory] in Hlink. rewrite Hlink. constructor.
    + destruct (collectMatchers _ _ _ _ _ _) as [pathStack st1].
      destruct (IsExcluded GOOS (filter p) path _ (rev pathStack))
        as [[|] [filterErr|]];
        try (destruct (Is filterErr SkipDir)); constructor.
Qed.

Lemma walkEntries_writes_passed_files
      (entries : list (DirEntry * (string -> state -> option error * state * list block))) :
  Forall (fun dw => forall path st,
              Forall (Names.passedTheFilter GOOS p dk) (snd (snd dw path st))) entries ->
  forall path st,
    Forall (Names.passedTheFilter GOOS p dk) (snd (walkEntries path entries st)).
Proof.
  induction 1 as [|[d1 walk1] entries H1 Hrest IH]; intros path st; cbn [walkEntries].
  - constructor.
  - pose proof (H1 (Filepath.Join path (Name d1)) st) as Hout. cbn [snd] in Hout.
    destruct (walk1 (Filepath.Join path (Name d1)) st) as [[[err|] st1] out1];
      cbn [snd] in Hout |- *; [exact Hout|].
    pose proof (IH path st1) as Hout2.
    destruct (walkEntries path entries st1) as [st2 out2]. cbn [snd] in *.
    apply Forall_app. split; assumption.
Qed.

Lemma walkDir_writes_passed_files n :
  forall path st,
    Forall (Names.passedTheFilter GOOS p dk) (snd (walkDir GOOS p dk n path st)).
Proof.
  induction n as [name perm content|name|name readable entries IH] using node_ind_entries;
    intros path st; cbn [walkDir].
  - pose proof (visit_writes_passed_files (Disk.File name perm content) path None st) as Hv.
    destruct (visit _ _ _ _ _ _ _) as [[[err|] st1] out1]; exact Hv.
  - pose proof (visit_writes_passed_files (Disk.Symlink name) path None st) as Hv.
    destruct (visit _ _ _ _ _ _ _) as [[[err|] st1] out1]; exact Hv.
  - pose proof (visit_writes_passed_files (Disk.Directory name readable entries) path None st)
      as Hv.
    destruct (visit _ _ _ _ _ None _) as [[[err|] st1] out1]; cbn [snd] in Hv |- *;
      [exact Hv|].
    destruct readable.
    + pose proof (walkEntries_writes_passed_files
                    (sortBy (fun a b => nameLess (fst a) (fst b))
                       (map (fun c => (Disk.entryOf c, walkDir GOOS p dk c)) entries))) as Hw.
      specialize (Hw ltac:(apply Forall_sortBy; apply Forall_map; exact IH) path st1).
      destruct (walkEntries _ _ st1) as [st2 out2]. cbn [snd] in *.
      apply Forall_app. split; assumption.
    + pose proof (visit_writes_passed_files (Disk.Directory name false entries) path
                    (Some ErrPermission) st1) as Hv2.
      destruct (visit _ _ _ _ _ (Some _) _) as [[[err|] st2] out2]; cbn [snd] in *;
        apply Forall_app; split; assumption.
Qed.

End BlockFacts.

(** ** Directories the walk does not enter *)

Lemma excluded_directory_error GOOS ff absPath d info active e :
  Info d = inl info ->
  fi_IsDir info = true ->
  IsExcluded GOOS ff absPath d active = (true, e) ->
  e = None \/ e = Some SkipDir.
Proof.
  intros Hinfo Hdir. unfold IsExcluded. rewrite Hinfo, Hdir. cbn [andb].
  destruct (negb _ && String.eqb absPath _); [intros [= <-]; tauto|].
  destruct (negb (Z.land (fi_Mode info) ModeSymlink =? 0)); [intros [= <-]; tauto|].
  destruct (existsb _ (_ ++ _)%list); [intros [= <-]; tauto|].
  destruct (existsb (matcherHits absPath) _); [intros [= <-]; tauto|discriminate].
Qed.

(** X14. A directory the filter excludes, be it by its name, by a matcher
    or as the output path, is not entered: the walk writes no block for
    anything below it, goes on with the next entry, and asks the cache
    about no directory below it. *)
Theorem excluded_directory_is_not_entered GOOS p dk name readable entries path st :
  let n := Disk.Directory name readable entries in
  let climb := collectMatchers p dk (2 + String.length path) path [] st in
  fst (IsExcluded GOOS (filter p) path (Disk.entryOf n) (rev (fst climb))) = true ->
  walkDir GOOS p dk n path st = (None, snd climb, []).
Proof.
  cbv zeta. intros Hx. cbn [walkDir]. unfold visit.
  cbn [Disk.entryOf Disk.isDirectory IsDir negb] in *.
  destruct (collectMatchers p dk (2 + String.length path) path [] st) as [pathStack st1].
  cbn [fst snd] in *.
  destruct (IsExcluded GOOS (filter p) path _ (rev pathStack)) as [verdict e] eqn:Hv.
  cbn [fst] in Hx. subst verdict.
  destruct (excluded_directory_error GOOS (filter p) path
              (Disk.entryOf (Disk.Directory name readable entries))
              (Disk.infoOf (Disk.Directory name readable entries)) _ _
              eq_refl eq_refl Hv) as [->| ->];
    reflexivity.
Qed.

(** The directory [node_modules] of a project: nothing of it is looked
    at, not even its [.gitignore]. *)
Lemma excluded_directory_is_not_entered_witness :
  walkDir "linux" (Notions.testProcessor "/w/p") Discipline.vendoredDisk
    (Disk.Directory "node_modules" true
       [ Disk.File ".gitignore" 420 "*.tmp"; Disk.File "index.js" 420 "module.exports = 1" ])
    "/w/p/node_modules" initialState
  = (None,
     snd (collectMatchers (Notions.testProcessor "/w/p") Discipline.vendoredDisk
            (2 + String.length "/w/p/node_modules") "/w/p/node_modules" [] initialState),
     []).
Proof.
  apply (excluded_directory_is_not_entered "linux" (Notions.testProcessor "/w/p")
           Discipline.vendoredDisk "node_modules" true).
  vm_compute. reflexivity.
Defined.

(** ** The name of a repository *)

Local Close Scope Z_scope.

Lemma substring_whole s : String.substring 0 (String.length s) s = s.
Proof. induction s as [|c r IH]; [reflexivity|]. exact (f_equal (String c) IH). Qed.

Lemma substring_after a b :
  String.substring (String.length a) (String.length b) (a ++ b) = b.
Proof. induction a as [|c r IH]; [apply substring_whole|]. exact IH. Qed.

Lemma substring_before a b :
  String.substring 0 (String.length a) (a ++ b) = a.
Proof.
  induction a as [|c r IH]; [destruct b; reflexivity|]. exact (f_equal (String c) IH).
Qed.

Lemma prefix_of_append a b : String.prefix a (a ++ b) = true.
Proof.
  induction a as [|c r IH]; [destruct b; reflexivity|].
  change (String.prefix (String c r) (String c r ++ b))
    with (if Ascii.ascii_dec c c then String.prefix r (r ++ b) else false).
  destruct (Ascii.ascii_dec c c); [exact IH|congruence].
Qed.

Lemma TrimPrefix_of_append pre s : Gitutils.TrimPrefix (pre ++ s) pre = s.
Proof.
  unfold Gitutils.TrimPrefix, Strings.HasPrefix. rewrite prefix_of_append.
  rewrite string_length_append.
  replace (String.length pre + String.length s - String.length pre) with (String.length s)
    by lia.
  apply substring_after.
Qed.

Lemma HasSuffix_of_append s suf : Strings.HasSuffix (s ++ suf) suf = true.
Proof.
  unfold Strings.HasSuffix. rewrite string_length_append.
  replace (String.length s + String.length suf - String.length suf) with (String.length s)
    by lia.
  rewrite substring_after, String.eqb_refl.
  apply andb_true_iff. split; [apply Nat.leb_le; lia|reflexivity].
Qed.

Lemma TrimSuffix_of_append s suf : Gitutils.TrimSuffix (s ++ suf) suf = s.
Proof.
  unfold Gitutils.TrimSuffix. rewrite HasSuffix_of_append, string_length_append.
  replace (String.length s + String.length suf - String.length suf) with (String.length s)
    by lia.
  apply substring_before.
Qed.

Local Open Scope Z_scope.

Lemma Split_parts_without_separator s :
  Forall (fun part => Filepath.noSeparator part = true) (Strings.Split "/" s).
Proof.
  induction s as [|c r IH]; [repeat constructor|]. cbn [Strings.Split].
  destruct (Ascii.eqb c "/") eqn:Hc; [constructor; [reflexivity|exact IH]|].
  destruct (Strings.Split "/" r) as [|h t]; [repeat constructor; cbn|].
  - unfold Filepath.Separator. rewrite Hc. reflexivity.
  - inversion IH as [|? ? Hh Ht]; subst. constructor; [|exact Ht].
    cbn. unfold Filepath.Separator. rewrite Hc, Hh. reflexivity.
Qed.

Lemma last_in_Forall {A} (P : A -> Prop) l d : Forall P l -> P d -> P (List.last l d).
Proof.
  intros Hl Hd. induction Hl as [|x l Hx Hl IH]; [exact Hd|].
  destruct l; [exact Hx|exact IH].
Qed.

Lemma repo_name_parts repoURL :
  Gitutils.getRepoNameFromURL repoURL <> ""
  /\ Filepath.noSeparator (Gitutils.getRepoNameFromURL repoURL) = true.
Proof.
  unfold Gitutils.getRepoNameFromURL. cbv zeta.
  set (parsedURL := Gitutils.TrimSuffix _ ".git").
  destruct (0 <? length (Strings.Split "/" parsedURL))%nat; [|split; [discriminate|reflexivity]].
  destruct (String.eqb_spec (List.last (Strings.Split "/" parsedURL) "") "") as [Heq|Hne];
    cbn [negb]; [split; [discriminate|reflexivity]|].
  split; [exact Hne|].
  apply (last_in_Forall (fun part => Filepath.noSeparator part = true));
    [apply Split_parts_without_separator|reflexivity].
Qed.

(** X15. The name taken from a repository URL is never empty and holds no
    separator, whatever the URL: it is always one path element. *)
Theorem repo_name_is_one_element repoURL :
  Gitutils.getRepoNameFromURL repoURL <> ""
  /\ Filepath.noSeparator (Gitutils.getRepoNameFromURL repoURL) = true.
Proof.
  unfold Gitutils.getRepoNameFromURL. cbv zeta.
  set (parsedURL := Gitutils.TrimSuffix _ ".git").
  destruct (0 <? length (Strings.Split "/" parsedURL))%nat; [|split; [discriminate|reflexivity]].
  destruct (String.eqb_spec (List.last (Strings.Split "/" parsedURL) "") "") as [Heq|Hne];
    cbn [negb]; [split; [discriminate|reflexivity]|].
  split; [exact Hne|].
  apply (last_in_Forall (fun part => Filepath.noSeparator part = true));
    [apply Split_parts_without_separator|reflexivity].
Qed.

Lemma append_ends_with s pre y :
  (s ++ "/" = pre ++ y)%string -> y = "" \/ exists x, y = (x ++ "/")%string.
Proof.
  revert pre. induction s as [|c r IH]; intros pre Heq.
  - destruct pre as [|a pre].
    + right. exists "". symmetry. exact Heq.
    + left. injection Heq as _ Heq. destruct pre; [symmetry; exact Heq|discriminate].
  - destruct pre as [|a pre].
    + right. exists (String c r). symmetry. exact Heq.
    + injection Heq as _ Heq. exact (IH pre Heq).
Qed.

Lemma HasPrefix_split s pre :
  Strings.HasPrefix s pre = true -> s = (pre ++ Gitutils.TrimPrefix s pre)%string.
Proof.
  intros Hpre. assert (Hex : exists rest, s = (pre ++ rest)%string).
  { unfold Strings.HasPrefix in Hpre. revert s Hpre.
    induction pre as [|a pre IH]; intros s Hpre; [exists s; reflexivity|].
    destruct s as [|b s]; [discriminate|]. cbn in Hpre.
    destruct (Ascii.ascii_dec a b) as [->|]; [|discriminate].
    destruct (IH s Hpre) as [rest ->]. exists rest. reflexivity. }
  destruct Hex as [rest ->]. rewrite TrimPrefix_of_append. reflexivity.
Qed.

Lemma HasSuffix_split s suf :
  Strings.HasSuffix s suf = true -> exists x, s = (x ++ suf)%string.
Proof.
  unfold Strings.HasSuffix. intros H. apply andb_true_iff in H. destruct H as [Hlen Heq].
  apply Nat.leb_le in Hlen. apply String.eqb_eq in Heq.
  assert (Hcut : forall n t, (n <= String.length t)%nat ->
                   t = (String.substring 0 n t
                        ++ String.substring n (String.length t - n) t)%string).
  { induction n as [|n IH]; intros t Hn.
    - rewrite Nat.sub_0_r, substring_whole. destruct t; reflexivity.
    - destruct t as [|c t]; [cbn in Hn; lia|].
      cbn in Hn. apply (f_equal (String c)). apply IH. lia. }
  exists (String.substring 0 (String.length s - String.length suf) s).
  rewrite (Hcut (String.length s - String.length suf)%nat s) at 1 by lia.
  replace (String.length s - (String.length s - String.length suf))%nat
    with (String.length suf) by lia.
  rewrite Heq. reflexivity.
Qed.

Lemma last_byte_of_append x y a b :
  (x ++ String a "" = y ++ String b "")%string -> a = b.
Proof.
  revert y. induction x as [|c x IH]; intros y Heq.
  - destruct y as [|d y]; [injection Heq as Heq; exact Heq|].
    injection Heq as _ Heq. destruct y; discriminate.
  - destruct y as [|d y].
    + injection Heq as _ Heq. destruct x; discriminate.
    + injection Heq as _ Heq. exact (IH y Heq).
Qed.

Lemma no_git_suffix_after_separator x : Gitutils.TrimSuffix (x ++ "/") ".git" = (x ++ "/")%string.
Proof.
  unfold Gitutils.TrimSuffix.
  destruct (Strings.HasSuffix (x ++ "/") ".git") eqn:Hs; [|reflexivity].
  apply HasSuffix_split in Hs. destruct Hs as [y Hy].
  change (y ++ ".git")%string with (y ++ (".gi" ++ "t"))%string in Hy.
  rewrite <- string_append_assoc in Hy.
  apply last_byte_of_append in Hy. discriminate.
Qed.

Lemma replaceFirst_before_separator x :
  Gitutils.replaceFirst ":" "/" (x ++ "/")
  = (Gitutils.replaceFirst ":" "/" x ++ "/")%string.
Proof.
  induction x as [|c r IH]; [reflexivity|].
  change (String c r ++ "/")%string with (String c (r ++ "/")).
  cbn [Gitutils.replaceFirst]. destruct (Ascii.eqb c ":"); [reflexivity|].
  rewrite IH. reflexivity.
Qed.

Lemma name_after_trailing_separator parsedURL :
  parsedURL = "" \/ (exists x, parsedURL = (x ++ "/")%string) ->
  List.last (Strings.Split "/" (Gitutils.TrimSuffix parsedURL ".git")) "" = "".
Proof.
  intros [->|[x ->]]; [reflexivity|].
  rewrite no_git_suffix_after_separator.
  change (x ++ "/")%string with (x ++ "/" ++ "")%string.
  rewrite Split_at_separator. apply last_of_app_single.
Qed.

(** X16. A URL that ends with a separator has no name of its own: the
    name is the fall-back ["repository"], whatever stands before the
    separator. *)
Theorem trailing_separator_gives_fallback_name s :
  Gitutils.getRepoNameFromURL (s ++ "/") = "repository".
Proof.
  unfold Gitutils.getRepoNameFromURL. cbv zeta.
  set (parsedURL := if Strings.HasPrefix (s ++ "/") "https://" then _ else _).
  assert (Hshape : parsedURL = "" \/ exists x, parsedURL = (x ++ "/")%string).
  { subst parsedURL.
    destruct (Strings.HasPrefix (s ++ "/") "https://") eqn:H1;
      [apply HasPrefix_split in H1; exact (append_ends_with _ _ _ H1)|].
    destruct (Strings.HasPrefix (s ++ "/") "http://") eqn:H2;
      [apply HasPrefix_split in H2; exact (append_ends_with _ _ _ H2)|].
    destruct (Strings.HasPrefix (s ++ "/") "git@") eqn:H3; [|right; exists s; reflexivity].
    apply HasPrefix_split in H3.
    destruct (append_ends_with _ _ _ H3) as [->|[x ->]]; [left; reflexivity|].
    right. rewrite replaceFirst_before_separator. eauto. }
  rewrite (name_after_trailing_separator parsedURL Hshape).
  destruct (0 <? _)%nat; reflexivity.
Qed.

Lemma replaceFirst_in_front before rest :
  Strings.Contains before ":" = true ->
  Gitutils.replaceFirst ":" "/" (before ++ rest)
  = (Gitutils.replaceFirst ":" "/" before ++ rest)%string.
Proof.
  induction before as [|c r IH]; intros Hcolon; [discriminate|].
  change (String c r ++ rest)%string with (String c (r ++ rest)).
  cbn [Gitutils.replaceFirst]. destruct (Ascii.eqb_spec c ":") as [->|Hne]; [reflexivity|].
  rewrite IH; [reflexivity|].
  cbn [Strings.Contains] in Hcolon. apply orb_true_iff in Hcolon.
  destruct Hcolon as [Hhere|Hlater]; [|exact Hlater].
  exfalso.
  change (String.prefix ":" (String c r))
    with (if Ascii.ascii_dec ":" c then String.prefix "" r else false) in Hhere.
  destruct (Ascii.ascii_dec ":" c); [congruence|discriminate].
Qed.

Lemma name_of_last_element before name :
  Filepath.noSeparator name = true -> name <> "" ->
  (if (0 <? length (Strings.Split "/" (Gitutils.TrimSuffix (before ++ "/" ++ name ++ ".git")
                                         ".git")))%nat
   then
     if negb (List.last (Strings.Split "/" (Gitutils.TrimSuffix
                                              (before ++ "/" ++ name ++ ".git") ".git")) ""
              =? "")%string
     then List.last (Strings.Split "/" (Gitutils.TrimSuffix
                                          (before ++ "/" ++ name ++ ".git") ".git")) ""
     else "repository"
   else "repository") = name.
Proof.
  intros Hsep Hne.
  replace (before ++ "/" ++ name ++ ".git")%string
    with ((before ++ "/" ++ name) ++ ".git")%string
    by (rewrite !string_append_assoc; reflexivity).
  rewrite TrimSuffix_of_append, Split_at_separator, (Split_without_separator name Hsep).
  rewrite last_of_app_single.
  destruct (String.eqb_spec name "") as [|_]; [contradiction|]. cbn [negb].
  destruct (0 <? _)%nat eqn:Hlen; [reflexivity|].
  apply Nat.ltb_ge in Hlen. rewrite length_app in Hlen. cbn in Hlen. lia.
Qed.

(** X17. The name is read back from a URL built on it: for a name without
    a separator, the URL made of a scheme [https://] or [http://], or of
    [git@] with a colon after the host, of anything up to a separator, of
    the name and of [.git] gives back the name. *)
Theorem repo_name_round_trip scheme before name :
  In scheme ["https://"; "http://"; "git@"] ->
  (scheme = "git@" -> Strings.Contains before ":" = true) ->
  Filepath.noSeparator name = true ->
  name <> "" ->
  Gitutils.getRepoNameFromURL (scheme ++ before ++ "/" ++ name ++ ".git") = name.
Proof.
  intros Hscheme Hcolon Hsep Hne. unfold Gitutils.getRepoNameFromURL. cbv zeta.
  cbn [In] in Hscheme. destruct Hscheme as [<-|[<-|[<-|[]]]].
  - assert (H1 : forall rest, Strings.HasPrefix ("https://" ++ rest) "https://" = true)
      by (intros rest; apply prefix_of_append).
    rewrite H1, TrimPrefix_of_append. apply name_of_last_element; assumption.
  - assert (H1 : forall rest, Strings.HasPrefix ("http://" ++ rest) "https://" = false)
      by (intros rest; destruct rest; reflexivity).
    assert (H2 : forall rest, Strings.HasPrefix ("http://" ++ rest) "http://" = true)
      by (intros rest; apply prefix_of_append).
    rewrite H1, H2, TrimPrefix_of_append. apply name_of_last_element; assumption.
  - assert (H1 : forall rest, Strings.HasPrefix ("git@" ++ rest) "https://" = false)
      by (intros rest; destruct rest; reflexivity).
    assert (H2 : forall rest, Strings.HasPrefix ("git@" ++ rest) "http://" = false)
      by (intros rest; destruct rest; reflexivity).
    assert (H3 : forall rest, Strings.HasPrefix ("git@" ++ rest) "git@" = true)
      by (intros rest; apply prefix_of_append).
    rewrite H1, H2, H3, TrimPrefix_of_append.
    rewrite (replaceFirst_in_front before _ (Hcolon eq_refl)).
    apply name_of_last_element; assumption.
Qed.

(** The URL of the package test. *)
Lemma repo_name_round_trip_witness :
  Gitutils.getRepoNameFromURL "git@github.com:user/project.git" = "project".
Proof.
  apply (repo_name_round_trip "git@" "github.com:user" "project").
  - cbn [In]. tauto.
  - intros _. reflexivity.
  - reflexivity.
  - discriminate.
Defined.

(** X18. Unless the name is one of the two dot names, the directory
    [CloneRepo] clones into is the entry of that name in the temporary
    directory: its last element is the name of the repository. *)
Theorem clone_directory_bears_the_name parentTempDir repoURL :
  Gitutils.getRepoNameFromURL repoURL <> "." ->
  Gitutils.getRepoNameFromURL repoURL <> ".." ->
  Filepath.Base (Gitutils.clonePath parentTempDir repoURL)
  = Gitutils.getRepoNameFromURL repoURL.
Proof.
  intros Hdot Hdots. unfold Gitutils.clonePath. apply Base_of_entry.
  destruct (repo_name_parts repoURL) as [Hne Hsep].
  unfold Names.plainName. rewrite Hsep.
  destruct (Gitutils.getRepoNameFromURL repoURL) as [|c r] eqn:Hname; [congruence|].
  destruct (String.eqb_spec (String c r) "."); [congruence|].
  destruct (String.eqb_spec (String c r) ".."); [congruence|]. reflexivity.
Qed.

Lemma clone_directory_bears_the_name_witness :
  Filepath.Base (Gitutils.clonePath "/tmp/c2c_clone_parent_1" "https://example.com/foo/myrepo.git")
  = "myrepo".
Proof.
  apply (clone_directory_bears_the_name "/tmp/c2c_clone_parent_1"
           "https://example.com/foo/myrepo.git"); vm_compute; discriminate.
Defined.

(** ** Lists of directory names and files *)

(** X19. The two lists of directory names bear on directories only: the
    verdict on anything that is not a directory is the same under any
    other two lists, so a file is never excluded for bearing a name of
    [--exclude-dirs] or of the default list. *)
Theorem file_verdict_ignores_directory_lists GOOS ff defaultDirs userDirs absPath d info active :
  Info d = inl info ->
  fi_IsDir info = false ->
  IsExcluded GOOS (Variations.withDirLists ff defaultDirs userDirs) absPath d active
  = IsExcluded GOOS ff absPath d active.
Proof.
  intros Hinfo Hfile. unfold IsExcluded. rewrite Hinfo, Hfile. reflexivity.
Qed.

(** A file called [build], which is a name of the default list. *)
Lemma file_verdict_ignores_directory_lists_witness :
  IsExcluded "windows" (Variations.withDirLists Variations.defaultFilter [] []) "/w/p/build"
    (Fixtures.newMockFile "build" 100 0) []
  = IsExcluded "windows" Variations.defaultFilter "/w/p/build"
      (Fixtures.newMockFile "build" 100 0) [].
Proof.
  eapply file_verdict_ignores_directory_lists; reflexivity.
Defined.

(** ** From the command line to the verdict *)

Lemma Split_of_empty_flag raw tok :
  In tok (Strings.Split "," raw) -> Strings.TrimSpace tok <> "" ->
  Filepath.isEmpty raw = false.
Proof.
  intros Hin Hne. destruct raw; [|reflexivity].
  cbn in Hin. destruct Hin as [<-|[]]. exfalso. apply Hne. reflexivity.
Qed.

(** X20. An extension given with [--exclude-exts] in ASCII bytes works
    with or without its dot and with blanks around it: a file whose
    lower-cased extension is the trimmed token, a dot put in front if it
    has none, is excluded.  The extension of such a file is ASCII as
    well. *)
Theorem exclude_exts_flag_excludes GOOS ff excludeExtsRaw tok absPath d info active :
  Strings.isASCII tok = true ->
  Filefilter.UserExcludeExts (Filefilter.config ff) = Cmd.excludeExtsOf excludeExtsRaw ->
  In tok (Strings.Split "," excludeExtsRaw) ->
  Strings.TrimSpace tok <> "" ->
  Strings.ToLower (Filepath.Ext absPath) = Cmd.normalizeExt tok ->
  Info d = inl info ->
  fi_IsDir info = false ->
  IsExcluded GOOS ff absPath d active = (true, None).
Proof.
  intros Hascii Hlist Hin Hne Hext Hinfo Hfile.
  apply (file_caught_is_excluded GOOS ff absPath d info active Hinfo Hfile).
  rewrite excludedByKind_any. cbv zeta. rewrite Hlist, Hext.
  unfold Cmd.excludeExtsOf. rewrite (Split_of_empty_flag _ _ Hin Hne).
  assert (Hhit : existsb (userExtMatches (Cmd.normalizeExt tok))
                   (map Cmd.normalizeExt (Strings.Split "," excludeExtsRaw)) = true).
  { apply existsb_exists. exists (Cmd.normalizeExt tok). split; [apply in_map; exact Hin|].
    unfold userExtMatches. rewrite String.eqb_refl, andb_true_r. apply negb_true_iff.
    apply String.eqb_neq. unfold Cmd.normalizeExt. cbv zeta.
    destruct (negb _ && negb _); [discriminate|exact Hne]. }
  rewrite Hhit. reflexivity.
Qed.

Lemma exclude_exts_flag_excludes_witness :
  IsExcluded "windows" (Variations.flagFilter "" " go , .TXT,md") "/w/p/cmd/Main.GO"
    (Fixtures.newMockFile "Main.GO" 100 0) [] = (true, None).
Proof.
  eapply (exclude_exts_flag_excludes "windows" (Variations.flagFilter "" " go , .TXT,md")
            " go , .TXT,md" " go ");
    try reflexivity; vm_compute; try tauto; discriminate.
Defined.

(** X21. A name given with [--exclude-dirs] in ASCII bytes works with
    blanks around it: a directory whose name is the trimmed token is
    excluded with [SkipDir], wherever it lies, unless it is the output path
    or a symbolic link, which are excluded without it. *)
Theorem exclude_dirs_flag_excludes GOOS ff excludeDirsRaw tok absPath d info active :
  Strings.isASCII tok = true ->
  Filefilter.UserExcludeDirs (Filefilter.config ff) = Cmd.excludeDirsOf excludeDirsRaw ->
  In tok (Strings.Split "," excludeDirsRaw) ->
  Strings.TrimSpace tok <> "" ->
  Filepath.Base absPath = Strings.TrimSpace tok ->
  Info d = inl info ->
  fi_IsDir info = true ->
  fst (IsExcluded GOOS ff absPath d active) = true
  /\ (String.eqb absPath (Filefilter.absFinalOutputFilePath ff) = false ->
      Z.land (fi_Mode info) ModeSymlink = 0 ->
      IsExcluded GOOS ff absPath d active = (true, Some SkipDir)).
Proof.
  intros Hascii Hlist Hin Hne Hbase Hinfo Hdir.
  assert (Hhit : existsb (String.eqb (Filepath.Base absPath))
                   (Filefilter.DefaultExcludeDirs (Filefilter.config ff)
                    ++ Filefilter.UserExcludeDirs (Filefilter.config ff))%list = true).
  { rewrite existsb_app, Hlist. unfold Cmd.excludeDirsOf.
    rewrite (Split_of_empty_flag _ _ Hin Hne). apply orb_true_iff. right.
    apply existsb_exists. exists (Strings.TrimSpace tok).
    split; [apply in_map; exact Hin|]. rewrite Hbase. apply String.eqb_refl. }
  unfold IsExcluded. rewrite Hinfo, Hdir, Hhit. cbn [andb]. split.
  - destruct (negb _ && String.eqb absPath _); [reflexivity|].
    destruct (negb (Z.land (fi_Mode info) ModeSymlink =? 0)); reflexivity.
  - intros Hout Hlink. rewrite Hout, Hlink, andb_false_r. reflexivity.
Qed.

Lemma exclude_dirs_flag_excludes_witness :
  IsExcluded "linux" (Variations.flagFilter "docs, my examples ,tmp" "")
    "/w/p/pkg/my examples" (Fixtures.newMockDir "my examples" 493) []
  = (true, Some SkipDir).
Proof.
  refine (proj2 (exclude_dirs_flag_excludes "linux"
                   (Variations.flagFilter "docs, my examples ,tmp" "")
                   "docs, my examples ,tmp" " my examples " "/w/p/pkg/my examples"
                   (Fixtures.newMockDir "my examples" 493)
                   {| fi_Name := "my examples"; fi_Size := 0;
                      fi_Mode := Z.lor 493 ModeDir; fi_IsDir := true |} []
                   _ _ _ _ _ _ _) _ _);
    try reflexivity.
  - vm_compute. tauto.
  - vm_compute. discriminate.
Defined.

(** ** The content does not depend on what the cache holds *)

Lemma matcherHits_by_target absPath l :
  existsb (matcherHits absPath) l
  = existsb (fun t => match t with
                      | Some gi => Gitignore.MatchesPath gi absPath
                      | None => false
                      end) (Discipline.targets l).
Proof.
  induction l as [|[m|] l IH]; [reflexivity| |]; cbn; rewrite IH; reflexivity.
Qed.

Lemma IsExcluded_by_targets GOOS ff absPath d active active' :
  Discipline.targets active = Discipline.targets active' ->
  IsExcluded GOOS ff absPath d active = IsExcluded GOOS ff absPath d active'.
Proof.
  intros Hsame. unfold IsExcluded.
  rewrite (matcherHits_by_target absPath (rev active)),
          (matcherHits_by_target absPath (rev active')).
  unfold Discipline.targets in *. rewrite !map_rev, Hsame. reflexivity.
Qed.

Lemma compile_from_disk fs dirPath st :
  Discipline.cacheCoherent fs st ->
  option_map Gitignore.target (fst (fst (compileAndCacheGitIgnore fs dirPath st)))
  = Discipline.fromDisk fs (Filepath.Join dirPath ".gitignore").
Proof.
  intros Hst. apply (compile_cacheCoherent fs dirPath) in Hst.
  destruct Hst as (Hdisk & _). apply Hdisk. apply compile_records.
Qed.

Section SameContent.

Variable GOOS : string.
Variables p p' : Processor.
Variable dk : Disk.disk.
Hypothesis Hfilter : filter p = filter p'.
Hypothesis Hbase : basePath p = basePath p'.

Let fs := fileSystemOf dk.

Lemma collectMatchers_same_targets fuel :
  forall currentDir pathStack pathStack' st st',
    Discipline.cacheCoherent fs st -> Discipline.cacheCoherent fs st' ->
    Discipline.targets pathStack = Discipline.targets pathStack' ->
    Discipline.targets (fst (collectMatchers p dk fuel currentDir pathStack st))
    = Discipline.targets (fst (collectMatchers p' dk fuel currentDir pathStack' st')).
Proof.
  induction fuel as [|fuel IH]; intros currentDir pathStack pathStack' st st' Hst Hst' Hsame;
    cbn [collectMatchers]; [exact Hsame|].
  rewrite <- Hbase.
  destruct (Strings.HasPrefix currentDir (basePath p) && negb (String.eqb currentDir ""));
    [|exact Hsame].
  pose proof (compile_from_disk fs currentDir st Hst) as Hm.
  pose proof (compile_from_disk fs currentDir st' Hst') as Hm'.
  pose proof (compile_cacheCoherent fs currentDir st Hst) as Hst1.
  pose proof (compile_cacheCoherent fs currentDir st' Hst') as Hst1'.
  unfold compile. fold fs.
  destruct (compileAndCacheGitIgnore fs currentDir st) as [[matcher e] st1].
  destruct (compileAndCacheGitIgnore fs currentDir st') as [[matcher' e'] st1'].
  cbn [fst snd] in *.
  assert (Hnext : Discipline.targets
                    (match matcher with
                     | Some _ => (pathStack ++ [matcher])%list
                     | None => pathStack
                     end)
                  = Discipline.targets
                      (match matcher' with
                       | Some _ => (pathStack' ++ [matcher'])%list
                       | None => pathStack'
                       end)).
  { rewrite <- Hm' in Hm. destruct matcher, matcher'; try discriminate; [|exact Hsame].
    unfold Discipline.targets in *. rewrite !map_app, Hsame. cbn [map]. rewrite Hm.
    reflexivity. }
  destruct (String.eqb currentDir (basePath p)); [exact Hnext|].
  destruct (String.eqb (Filepath.Dir currentDir) currentDir); [exact Hnext|].
  apply IH; assumption.
Qed.

Lemma visit_same path d e st st' :
  Discipline.cacheCoherent fs st -> Discipline.cacheCoherent fs st' ->
  fst (fst (visit GOOS p dk path d e st)) = fst (fst (visit GOOS p' dk path d e st'))
  /\ snd (visit GOOS p dk path d e st) = snd (visit GOOS p' dk path d e st').
Proof.
  intros Hst Hst'. unfold visit. destruct e as [e|].
  - destruct (IsDir d && Is e ErrPermission); split; reflexivity.
  - pose proof (collectMatchers_same_targets
                  (2 + String.length (if negb (IsDir d) then Filepath.Dir path else path))
                  (if negb (IsDir d) then Filepath.Dir path else path) [] [] st st'
                  Hst Hst' eq_refl) as Hstack.
    destruct (collectMatchers p dk _ _ _ st) as [pathStack st1].
    destruct (collectMatchers p' dk _ _ _ st') as [pathStack' st1'].
    cbn [fst] in Hstack.
    assert (Hrev : Discipline.targets (rev pathStack) = Discipline.targets (rev pathStack')).
    { unfold Discipline.targets in *. rewrite !map_rev, Hstack. reflexivity. }
    rewrite <- Hfilter, <- Hbase.
    rewrite (IsExcluded_by_targets GOOS (filter p) path d _ _ Hrev).
    destruct (IsExcluded GOOS (filter p) path d (rev pathStack')) as [[|] [filterErr|]].
    + destruct (Is filterErr SkipDir); split; reflexivity.
    + destruct (IsDir d); split; reflexivity.
    + destruct (Is filterErr SkipDir); split; reflexivity.
    + destruct (IsDir d); [split; reflexivity|].
      destruct (Filepath.Rel (basePath p) path); split; reflexivity.
Qed.

Lemma walkEntries_same (nodes : list Disk.node) :
  Forall (fun c => forall path st st',
              Discipline.cacheCoherent fs st -> Discipline.cacheCoherent fs st' ->
              fst (fst (walkDir GOOS p dk c path st)) = fst (fst (walkDir GOOS p' dk c path st'))
              /\ snd (walkDir GOOS p dk c path st) = snd (walkDir GOOS p' dk c path st'))
         nodes ->
  forall path st st',
    Discipline.cacheCoherent fs st -> Discipline.cacheCoherent fs st' ->
    snd (walkEntries path (map (fun c => (Disk.entryOf c, walkDir GOOS p dk c)) nodes) st)
    = snd (walkEntries path (map (fun c => (Disk.entryOf c, walkDir GOOS p' dk c)) nodes) st').
Proof.
  induction 1 as [|c nodes Hc Hnodes IH]; intros path st st' Hst Hst'; [reflexivity|].
  cbn [map walkEntries].
  destruct (Hc (Filepath.Join path (Name (Disk.entryOf c))) st st' Hst Hst') as [Herr Hout].
  pose proof (walkDir_byCompiling GOOS p dk c (Filepath.Join path (Name (Disk.entryOf c))) st)
    as Hby.
  pose proof (walkDir_byCompiling GOOS p' dk c (Filepath.Join path (Name (Disk.entryOf c))) st')
    as Hby'.
  destruct (walkDir GOOS p dk c _ st) as [[err st1] out1].
  destruct (walkDir GOOS p' dk c _ st') as [[err' st1'] out1'].
  cbn [fst snd] in *. subst err' out1'.
  destruct err as [err|]; [reflexivity|].
  pose proof (IH path st1 st1' (byCompiling_cacheCoherent _ _ _ Hby Hst)
                (byCompiling_cacheCoherent _ _ _ Hby' Hst')) as Hrest.
  destruct (walkEntries path _ st1) as [st2 out2].
  destruct (walkEntries path _ st1') as [st2' out2'].
  cbn [snd] in *. rewrite Hrest. reflexivity.
Qed.

Lemma walkDir_same n :
  forall path st st',
    Discipline.cacheCoherent fs st -> Discipline.cacheCoherent fs st' ->
    fst (fst (walkDir GOOS p dk n path st)) = fst (fst (walkDir GOOS p' dk n path st'))
    /\ snd (walkDir GOOS p dk n path st) = snd (walkDir GOOS p' dk n path st').
Proof.
  induction n as [name perm content|name|name readable entries IH] using node_ind_entries;
    intros path st st' Hst Hst'; cbn [walkDir].
  - destruct (visit_same path (Disk.entryOf (Disk.File name perm content)) None st st'
                Hst Hst') as [Herr Hout].
    destruct (visit GOOS p dk _ _ _ st) as [[err st1] out1].
    destruct (visit GOOS p' dk _ _ _ st') as [[err' st1'] out1'].
    cbn [fst snd] in *. subst err' out1'. destruct err; split; reflexivity.
  - destruct (visit_same path (Disk.entryOf (Disk.Symlink name)) None st st'
                Hst Hst') as [Herr Hout].
    destruct (visit GOOS p dk _ _ _ st) as [[err st1] out1].
    destruct (visit GOOS p' dk _ _ _ st') as [[err' st1'] out1'].
    cbn [fst snd] in *. subst err' out1'. destruct err; split; reflexivity.
  - destruct (visit_same path (Disk.entryOf (Disk.Directory name readable entries)) None
                st st' Hst Hst') as [Herr Hout].
    pose proof (visit_byCompiling GOOS p dk path
                  (Disk.entryOf (Disk.Directory name readable entries)) None st) as Hby.
    pose proof (visit_byCompiling GOOS p' dk path
                  (Disk.entryOf (Disk.Directory name readable entries)) None st') as Hby'.
    destruct (visit GOOS p dk _ _ None st) as [[err st1] out1].
    destruct (visit GOOS p' dk _ _ None st') as [[err' st1'] out1'].
    cbn [fst snd] in *. subst err' out1'.
    destruct err as [err|]; [split; reflexivity|].
    pose proof (byCompiling_cacheCoherent _ _ _ Hby Hst) as Hst1.
    pose proof (byCompiling_cacheCoherent _ _ _ Hby' Hst') as Hst1'.
    destruct readable.
    + rewrite (byName_entries GOOS p dk entries), (byName_entries GOOS p' dk entries).
      pose proof (walkEntries_same (Notions.byName entries)
                    ltac:(apply Forall_sortBy; exact IH) path st1 st1' Hst1 Hst1') as Hrest.
      destruct (walkEntries path _ st1) as [st2 out2].
      destruct (walkEntries path _ st1') as [st2' out2'].
      cbn [fst snd] in *. rewrite Hrest. split; reflexivity.
    + destruct (visit_same path (Disk.entryOf (Disk.Directory name false entries))
                  (Some ErrPermission) st1 st1' Hst1 Hst1') as [Herr2 Hout2].
      destruct (visit GOOS p dk _ _ (Some _) st1) as [[err2 st2] out2].
      destruct (visit GOOS p' dk _ _ (Some _) st1') as [[err2' st2'] out2'].
      cbn [fst snd] in *. subst err2' out2'. destruct err2; split; reflexivity.
Qed.

Lemma Process_same_content st st' :
  Discipline.cacheCoherent fs st -> Discipline.cacheCoherent fs st' ->
  snd (Process GOOS p dk st) = snd (Process GOOS p' dk st').
Proof.
  intros Hst Hst'.
  assert (Hstart : forall q s, Discipline.cacheCoherent fs s ->
             exists s2, Discipline.cacheCoherent fs s2
                        /\ snd (Process GOOS q dk s)
                           = snd (walkDir GOOS q dk (Disk.root dk) (basePath q) s2)).
  { intros q s Hs. unfold Process.
    assert (Ht : Discipline.byCompiling fs s
                   (fst (if IncludeTree (config q)
                         then let '(s0, t) := BuildTreeString GOOS q dk s in (s0, Some t)
                         else (s, None)))).
    { destruct (IncludeTree (config q)); [|apply byCompiling_refl].
      unfold BuildTreeString. pose proof (buildTree_byCompiling GOOS q dk s) as Hb.
      destruct (buildTree GOOS q dk s) as [s0 rootNode]. exact Hb. }
    destruct (if IncludeTree (config q) then _ else _) as [s1 treeStr]. cbn [fst] in Ht.
    pose proof (compile_byCompiling dk (basePath q) s1) as Hc.
    destruct (compile dk (basePath q) s1) as [r s2]. cbn [snd] in Hc.
    exists s2. split.
    - eapply byCompiling_cacheCoherent; [exact Hc|].
      eapply byCompiling_cacheCoherent; [exact Ht|exact Hs].
    - unfold WalkDir. destruct (walkDir GOOS q dk (Disk.root dk) (basePath q) s2)
        as [[r3 s3] out]. reflexivity. }
  destruct (Hstart p st Hst) as (s2 & Hs2 & ->).
  destruct (Hstart p' st' Hst') as (s2' & Hs2' & ->).
  rewrite <- Hbase. apply walkDir_same; assumption.
Qed.

End SameContent.

(** X22. The content does not depend on the cache or on the tree: two
    runs with the same filter and base path write the same blocks, in the
    same order, whether or not the tree is built first and whatever the
    cache held at the start, as long as it held what the disk holds. *)
Theorem content_is_independent_of_cache_and_tree GOOS p p' dk st st' :
  filter p = filter p' ->
  basePath p = basePath p' ->
  Discipline.cacheCoherent (fileSystemOf dk) st ->
  Discipline.cacheCoherent (fileSystemOf dk) st' ->
  snd (Process GOOS p dk st) = snd (Process GOOS p' dk st').
Proof.
  intros Hfilter Hbase. apply Process_same_content; assumption.
Qed.

(** The nested project, once with the tree and once without. *)
Lemma content_is_independent_of_cache_and_tree_witness :
  snd (Process "linux" (Notions.testProcessor "/w/p") Discipline.nestedDisk initialState)
  = snd (Process "linux" (Discipline.withIncludeTree (Notions.testProcessor "/w/p") false)
           Discipline.nestedDisk initialState).
Proof.
  apply content_is_independent_of_cache_and_tree;
    try reflexivity; apply initial_cacheCoherent.
Defined.

(** ** Sizes for the eye *)

Lemma scale_rounds k :
  forall fuel n div exp,
    (k < fuel)%nat ->
    0 <= n < 1024 ^ (Z.of_nat k + 1) ->
    (k = 0%nat \/ 1024 ^ Z.of_nat k <= n) ->
    0 <= div ->
    div * 1024 ^ Z.of_nat k < 2 ^ 64 ->
    Utils.scale fuel n div exp = Some (div * 1024 ^ Z.of_nat k, (exp + k)%nat).
Proof.
  induction k as [|k IH]; intros fuel n div exp Hfuel Hn Hlow Hdiv Hfit;
    (destruct fuel as [|fuel]; [lia|]); cbn [Utils.scale].
  - change (1024 ^ (Z.of_nat 0 + 1)) with 1024 in Hn.
    destruct (Z.leb_spec 1024 n); [lia|].
    rewrite Z.mul_1_r, Nat.add_0_r. reflexivity.
  - destruct Hlow as [Hk|Hlow]; [discriminate|].
    assert (Hpow : 1024 ^ Z.of_nat (S k) = 1024 * 1024 ^ Z.of_nat k)
      by (rewrite Nat2Z.inj_succ, Z.pow_succ_r by lia; reflexivity).
    assert (Hpow2 : 1024 ^ (Z.of_nat (S k) + 1) = 1024 * 1024 ^ (Z.of_nat k + 1)).
    { replace (Z.of_nat (S k) + 1) with (Z.succ (Z.of_nat k + 1)) by lia.
      apply Z.pow_succ_r. lia. }
    assert (Hone : 1 <= 1024 ^ Z.of_nat k)
      by (pose proof (Z.pow_pos_nonneg 1024 (Z.of_nat k) ltac:(lia) ltac:(lia)); lia).
    rewrite Hpow in Hlow, Hfit. rewrite Hpow2 in Hn.
    destruct (Z.leb_spec 1024 n); [|nia].
    assert (Hwrap : Utils.wrap64 (div * 1024) = div * 1024).
    { unfold Utils.wrap64. apply Z.mod_small. nia. }
    rewrite Hwrap, (IH fuel (n / 1024) (div * 1024) (S exp)).
    + rewrite Hpow. f_equal. f_equal; [ring|lia].
    + lia.
    + split; [apply Z.div_pos; lia|]. apply Z.div_lt_upper_bound; lia.
    + right. apply Z.div_le_lower_bound; lia.
    + lia.
    + nia.
Qed.

(** X23. [FormatBytes] never indexes the unit letters out of range: for
    every [uint64] from 1024 on, the loop ends with an exponent of at most
    five and with the divisor 1024 to the exponent plus one, which does
    not overflow and does not exceed the number; so the number written is
    at least one, and below 1024 for every unit but the last. *)
Theorem FormatBytes_picks_a_unit oneDecimal b :
  1024 <= b < 2 ^ 64 ->
  exists exp c,
    (exp <= 5)%nat
    /\ String.get exp "KMGTPE" = Some c
    /\ Utils.FormatBytes oneDecimal b
       = Some (oneDecimal b (1024 ^ (Z.of_nat exp + 1)) ++ " " ++ String c "iB")%string
    /\ 1024 ^ (Z.of_nat exp + 1) <= b
    /\ ((exp < 5)%nat -> b < 1024 ^ (Z.of_nat exp + 2)).
Proof.
  intros Hb. unfold Utils.FormatBytes.
  destruct (Z.ltb_spec b 1024); [lia|].
  assert (Hn : 0 <= b / 1024 < 2 ^ 54).
  { split; [apply Z.div_pos; lia|]. apply Z.div_lt_upper_bound; [lia|].
    change (1024 * 2 ^ 54) with (2 ^ 64). lia. }
  assert (Hk : exists k, (k <= 5)%nat
                 /\ b / 1024 < 1024 ^ (Z.of_nat k + 1)
                 /\ (k = 0%nat \/ 1024 ^ Z.of_nat k <= b / 1024)).
  { destruct (Z_lt_dec (b / 1024) (1024 ^ 1)); [exists 0%nat; split; [lia|]; split; [assumption|tauto]|].
    destruct (Z_lt_dec (b / 1024) (1024 ^ 2)); [exists 1%nat; split; [lia|]; split; [assumption|right; lia]|].
    destruct (Z_lt_dec (b / 1024) (1024 ^ 3)); [exists 2%nat; split; [lia|]; split; [assumption|right; lia]|].
    destruct (Z_lt_dec (b / 1024) (1024 ^ 4)); [exists 3%nat; split; [lia|]; split; [assumption|right; lia]|].
    destruct (Z_lt_dec (b / 1024) (1024 ^ 5)); [exists 4%nat; split; [lia|]; split; [assumption|right; lia]|].
    exists 5%nat. split; [lia|]. split; [|right; lia].
    change (1024 ^ (Z.of_nat 5 + 1)) with (2 ^ 60). change (2 ^ 54) with 18014398509481984 in Hn.
    change (2 ^ 60) with 1152921504606846976. lia. }
  destruct Hk as (k & Hk5 & Hup & Hlow).
  assert (Hpow : 1024 * 1024 ^ Z.of_nat k = 1024 ^ (Z.of_nat k + 1))
    by (rewrite Z.pow_add_r by lia; ring).
  assert (Hfit : 1024 * 1024 ^ Z.of_nat k < 2 ^ 64).
  { rewrite Hpow. apply Z.le_lt_trans with (1024 ^ (5 + 1)); [|reflexivity].
    apply Z.pow_le_mono_r; lia. }
  rewrite (scale_rounds k 64 (b / 1024) 1024 0); try lia.
  cbn [Nat.add]. rewrite Hpow.
  assert (Hc : exists c, String.get k "KMGTPE" = Some c).
  { do 6 (destruct k as [|k]; [eexists; reflexivity|]). lia. }
  destruct Hc as [c Hc]. exists k, c. rewrite Hc.
  split; [exact Hk5|]. split; [reflexivity|]. split; [reflexivity|]. split.
  - destruct Hlow as [->|Hlow]; [change (1024 ^ (Z.of_nat 0 + 1)) with 1024; lia|].
    rewrite <- Hpow. pose proof (Z.mul_div_le b 1024 ltac:(lia)). nia.
  - intros _. replace (Z.of_nat k + 2) with (Z.succ (Z.of_nat k + 1)) by lia.
    rewrite Z.pow_succ_r by lia.
    pose proof (Z.mod_pos_bound b 1024 ltac:(lia)).
    pose proof (Z.div_mod b 1024 ltac:(lia)). nia.
Qed.

(** A file of 1536 bytes. *)
Lemma FormatBytes_picks_a_unit_witness :
  exists exp c,
    (exp <= 5)%nat
    /\ String.get exp "KMGTPE" = Some c
    /\ Utils.FormatBytes (fun _ _ => "1.5") 1536
       = Some ("1.5" ++ " " ++ String c "iB")%string
    /\ 1024 ^ (Z.of_nat exp + 1) <= 1536
    /\ ((exp < 5)%nat -> 1536 < 1024 ^ (Z.of_nat exp + 2)).
Proof.
  apply (FormatBytes_picks_a_unit (fun _ _ => "1.5") 1536). vm_compute. split; congruence.
Defined.

(** ** The collector *)

Lemma include_needs_no_execute_bit opts ign rel info :
  Collector.include opts ign rel info = true ->
  fi_Size info <= Collector.MaxSize opts /\ Z.land (fi_Mode info) 73 = 0.
Proof.
  unfold Collector.include.
  destruct (Gitignore.MatchesPath ign rel); [discriminate|].
  destruct (existsb _ (Collector.ExcludeDirs opts)); [discriminate|]. cbv zeta.
  destruct (existsb _ (Collector.ExcludeExts opts)); [discriminate|].
  destruct (existsb _ Collector.mediaExts); [discriminate|].
  destruct (Collector.SkipTextual opts && _); [discriminate|].
  destruct (Z.ltb_spec (Collector.MaxSize opts) (fi_Size info)); [discriminate|].
  destruct (Z.eqb_spec (Z.land (fi_Mode info) 73) 0); [|discriminate].
  intros _. split; assumption.
Qed.

Lemma collect_skips_searchable_directories_aux opts ign path info paths :
  fi_IsDir info = true ->
  Z.land (fi_Mode info) 73 <> 0 ->
  String.eqb path (Collector.Root opts) = false ->
  Collector.collect opts ign path info None paths = (Some SkipDir, paths).
Proof.
  intros Hdir Hbits Hroot. unfold Collector.collect. rewrite Hroot, Hdir.
  destruct (Collector.include opts ign _ info) eqn:Hinc; [|reflexivity].
  apply include_needs_no_execute_bit in Hinc. tauto.
Qed.

(** X24. The collector applies the test for files to directories as
    well: a directory with any execute (search) bit set, other than the
    root, is answered with [SkipDir], whatever its name and whatever the
    options, and nothing is added to the list. *)
Theorem collect_skips_searchable_directories opts ign path info paths :
  fi_IsDir info = true ->
  Z.land (fi_Mode info) 73 <> 0 ->
  String.eqb path (Collector.Root opts) = false ->
  Collector.collect opts ign path info None paths = (Some SkipDir, paths).
Proof.
  intros Hdir Hbits Hroot. unfold Collector.collect. rewrite Hroot, Hdir.
  destruct (Collector.include opts ign _ info) eqn:Hinc; [|reflexivity].
  apply include_needs_no_execute_bit in Hinc. tauto.
Qed.

Lemma collect_skips_searchable_directories_witness :
  Collector.collect Collector.plainOptions (Gitignore.CompileIgnoreLines []) "/w/p/pkg"
    (Disk.infoOf (Disk.Directory "pkg" true [ Disk.File "lib.go" 420 "package pkg" ]))
    None [ "main.go" ]
  = (Some SkipDir, [ "main.go" ]).
Proof.
  apply collect_skips_searchable_directories; [reflexivity|vm_compute; discriminate|reflexivity].
Defined.

Section CollectorWalk.

Variable opts : Collector.Options.
Variable ign : Gitignore.GitIgnore.
Variable top : list Disk.node.

(** A path of the list comes from a regular file among [top], within
    the size limit and without execute permission. *)
Let fromTop (rel : string) : Prop :=
  exists fname perm content,
    In (Disk.File fname perm content) top
    /\ rel = match Filepath.Rel (Collector.Root opts)
                     (Filepath.Join (Collector.Root opts) fname) with
             | Some r => r
             | None => EmptyString
             end
    /\ Z.of_nat (String.length content) <= Collector.MaxSize opts
    /\ Z.land perm 73 = 0.

Lemma walk_top_entry c paths :
  In c top ->
  Filepath.Join (Collector.Root opts) (Disk.nodeName c) <> Collector.Root opts ->
  Forall fromTop paths ->
  let r := Collector.walk (Collector.collect opts ign) c
             (Filepath.Join (Collector.Root opts) (Disk.nodeName c)) paths in
  Forall fromTop (snd r)
  /\ (fst r = None \/ (Disk.isDirectory c = true /\ fst r = Some SkipDir)).
Proof.
  intros Hin Hne Hpaths. cbv zeta.
  apply String.eqb_neq in Hne.
  destruct c as [fname perm content|lname|dname readable entries];
    cbn [Collector.walk Disk.nodeName] in *.
  - unfold Collector.collect. rewrite Hne. cbn [Disk.infoOf fi_IsDir].
    destruct (Collector.include opts ign _ _) eqn:Hinc; [|split; [exact Hpaths|tauto]].
    split; [|left; reflexivity]. cbn [snd]. apply Forall_app. split; [exact Hpaths|].
    constructor; [|constructor].
    apply include_needs_no_execute_bit in Hinc. cbn [fi_Size fi_Mode] in Hinc.
    exists fname, perm, content. split; [exact Hin|]. split; [reflexivity|].
    split; [tauto|]. destruct Hinc as [_ Hbits].
    rewrite <- Z.land_assoc in Hbits. exact Hbits.
  - unfold Collector.collect. rewrite Hne. cbn [Disk.infoOf fi_IsDir].
    destruct (Collector.include opts ign _ _) eqn:Hinc; [|split; [exact Hpaths|tauto]].
    apply include_needs_no_execute_bit in Hinc. destruct Hinc as [_ Hbits].
    vm_compute in Hbits. discriminate.
  - destruct readable.
    + rewrite (collect_skips_searchable_directories_aux opts ign); try assumption;
        [|reflexivity|vm_compute; discriminate].
      split; [exact Hpaths|]. right. split; reflexivity.
    + cbn [Collector.collect]. split; [exact Hpaths|]. left. reflexivity.
Qed.

Lemma walkNames_top nodes :
  (forall c, In c nodes -> In c top) ->
  Forall (fun c => Filepath.Join (Collector.Root opts) (Disk.nodeName c)
                   <> Collector.Root opts) nodes ->
  forall paths,
    Forall fromTop paths ->
    Forall fromTop
      (snd (Collector.walkNames (Collector.Root opts)
              (map (fun c => (Disk.nodeName c, Disk.isDirectory c,
                              Collector.walk (Collector.collect opts ign) c)) nodes)
              paths)).
Proof.
  intros Hsub Hne. induction Hne as [|c nodes Hc Hne IH]; intros paths Hpaths; [exact Hpaths|].
  cbn [map Collector.walkNames].
  destruct (walk_top_entry c paths (Hsub c (or_introl eq_refl)) Hc Hpaths) as [Hout Herr].
  destruct (Collector.walk _ c _ paths) as [[err|] paths1]; cbn [fst snd] in *.
  - destruct Herr as [Herr|[Hdir Herr]]; [discriminate|].
    injection Herr as ->. rewrite Hdir. cbn. apply IH; [|exact Hout].
    intros c' Hc'. apply Hsub. right. exact Hc'.
  - apply IH; [|exact Hout]. intros c' Hc'. apply Hsub. right. exact Hc'.
Qed.

End CollectorWalk.

(** X25. The list of the collector holds nothing from below the first
    level: every path in it belongs to a regular file directly under the
    root, no larger than [MaxSize], zero included, and without any execute
    bit; for every directory below the root either is skipped or cannot be
    read. *)
Theorem collector_lists_top_level_files_only opts ign dk name entries :
  Disk.root dk = Disk.Directory name true entries ->
  Forall (fun c => Filepath.Join (Collector.Root opts) (Disk.nodeName c)
                   <> Collector.Root opts) entries ->
  Forall (fun rel =>
            exists fname perm content,
              In (Disk.File fname perm content) entries
              /\ rel = match Filepath.Rel (Collector.Root opts)
                               (Filepath.Join (Collector.Root opts) fname) with
                       | Some r => r
                       | None => EmptyString
                       end
              /\ Z.of_nat (String.length content) <= Collector.MaxSize opts
              /\ Z.land perm 73 = 0)
         (Collector.pathsOf opts ign dk).
Proof.
  intros Hroot Hne. unfold Collector.pathsOf, Collector.Walk. rewrite Hroot.
  cbn [Collector.walk]. unfold Collector.collect at 1. rewrite String.eqb_refl.
  rewrite (sortBy_map (fun c => (Disk.nodeName c, Disk.isDirectory c,
                                 Collector.walk (Collector.collect opts ign) c))
             (fun a b => String.ltb (Disk.nodeName a) (Disk.nodeName b))) by reflexivity.
  pose proof (walkNames_top opts ign entries
                (sortBy (fun a b => String.ltb (Disk.nodeName a) (Disk.nodeName b)) entries))
    as Hwalk.
  destruct (Collector.walkNames _ _ _) as [err paths] eqn:Hw.
  cbn [snd]. change paths with (snd (err, paths)). rewrite <- Hw. apply Hwalk.
  - intros c Hc. eapply Permutation_in; [symmetry; apply sortBy_Permutation|exact Hc].
  - apply Forall_sortBy. exact Hne.
  - constructor.
Qed.

(** The small project: of its three entries only [main.go] is listed;
    [run.sh] is executable and [pkg] is a directory. *)
Lemma collector_lists_top_level_files_only_witness :
  Forall (fun rel =>
            exists fname perm content,
              In (Disk.File fname perm content)
                 [ Disk.File "main.go" 420 "package main";
                   Disk.File "run.sh" 493 "#!/bin/sh";
                   Disk.Directory "pkg" true [ Disk.File "lib.go" 420 "package pkg" ] ]
              /\ rel = match Filepath.Rel "/w/p" (Filepath.Join "/w/p" fname) with
                       | Some r => r
                       | None => EmptyString
                       end
              /\ Z.of_nat (String.length content) <= 1048576
              /\ Z.land perm 73 = 0)
         (Collector.pathsOf Collector.plainOptions (Gitignore.CompileIgnoreLines [])
            Collector.smallDisk).
Proof.
  apply (collector_lists_top_level_files_only Collector.plainOptions
           (Gitignore.CompileIgnoreLines []) Collector.smallDisk "p").
  - reflexivity.
  - repeat constructor; vm_compute; discriminate.
Defined.

Lemma existsb_through_map {A B} (f : B -> bool) (g : A -> B) l :
  existsb (fun x => f (g x)) l = existsb f (map g l).
Proof. induction l as [|x l IH]; [reflexivity|]. cbn. rewrite IH. reflexivity. Qed.

(** X26. The list [ExcludeExts] of the collector is read without regard
    to case and to a dot in front: two lists whose entries agree once
    lower-cased and given one dot exclude the same files. *)
Theorem collector_exts_ignore_case_and_dot opts exts exts' ign rel info :
  map Collector.dotted exts = map Collector.dotted exts' ->
  Collector.include (Collector.withExcludeExts opts exts) ign rel info
  = Collector.include (Collector.withExcludeExts opts exts') ign rel info.
Proof.
  intros Hsame. unfold Collector.include. cbn [Collector.withExcludeExts
    Collector.ExcludeDirs Collector.ExcludeExts Collector.SkipTextual Collector.MaxSize].
  cbv zeta.
  rewrite (existsb_through_map (String.eqb (Strings.ToLower (Filepath.Ext rel)))
             Collector.dotted exts),
          (existsb_through_map (String.eqb (Strings.ToLower (Filepath.Ext rel)))
             Collector.dotted exts'), Hsame.
  reflexivity.
Qed.

Lemma collector_exts_ignore_case_and_dot_witness :
  Collector.include (Collector.withExcludeExts Collector.plainOptions [ "LOG"; ".Tmp" ])
    (Gitignore.CompileIgnoreLines []) "app.log"
    {| fi_Name := "app.log"; fi_Size := 10; fi_Mode := 420; fi_IsDir := false |}
  = Collector.include (Collector.withExcludeExts Collector.plainOptions [ ".log"; "tmp" ])
      (Gitignore.CompileIgnoreLines []) "app.log"
      {| fi_Name := "app.log"; fi_Size := 10; fi_Mode := 420; fi_IsDir := false |}.
Proof.
  apply collector_exts_ignore_case_and_dot. reflexivity.
Defined.

(** ** Cleaning a path twice *)

Lemma Split_of_Join l :
  Forall (fun s => Filepath.noSeparator s = true) l -> l <> [] ->
  Strings.Split "/" (Strings.Join l "/") = l.
Proof.
  induction 1 as [|s t Hs Ht IH]; intros Hne; [congruence|].
  destruct t as [|s2 t]; [apply Split_without_separator; exact Hs|].
  change (Strings.Join (s :: s2 :: t) "/") with (s ++ "/" ++ Strings.Join (s2 :: t) "/")%string.
  rewrite Split_at_separator, (Split_without_separator s Hs), IH by discriminate.
  reflexivity.
Qed.

Lemma cleanStep_keeps_stack isRooted acc seg :
  Filepath.noSeparator seg = true ->
  Names.cleanStack isRooted acc ->
  Names.cleanStack isRooted (Filepath.cleanStep isRooted acc seg).
Proof.
  intros Hsep (normals & dots & -> & Hn & Hd & Hr). unfold Filepath.cleanStep.
  destruct (Filepath.isEmpty seg) eqn:Hempty; cbn [orb];
    [exists normals, dots; tauto|].
  destruct (String.eqb_spec seg ".") as [|Hdot]; [exists normals, dots; tauto|].
  destruct (String.eqb_spec seg "..") as [->|Hdots].
  - destruct normals as [|top rest]; cbn [app].
    + destruct dots as [|top dots].
      * destruct isRooted; [exists [], []; repeat split; constructor|].
        exists [], [".."].
        split; [reflexivity|]. split; [constructor|]. split; [|discriminate].
        constructor; [reflexivity|constructor].
      * inversion Hd as [|? ? Htop Hrest]; subst. cbn.
        exists [], (".." :: ".." :: dots).
        split; [reflexivity|]. split; [constructor|]. split.
        -- constructor; [reflexivity|]. constructor; [reflexivity|exact Hrest].
        -- intros Htrue. discriminate (Hr Htrue).
    + inversion Hn as [|? ? Htop Hrest]; subst.
      destruct (plainName_parts top Htop) as (_ & _ & _ & Hnot).
      rewrite Hnot. exists rest, dots. tauto.
  - exists (seg :: normals), dots. repeat split; try assumption.
    constructor; [|exact Hn]. unfold Names.plainName. rewrite Hempty, Hsep.
    destruct (String.eqb_spec seg "."); [contradiction|].
    destruct (String.eqb_spec seg ".."); [contradiction|]. reflexivity.
Qed.

Lemma cleanFold_keeps_stack isRooted segs :
  Forall (fun s => Filepath.noSeparator s = true) segs ->
  forall acc, Names.cleanStack isRooted acc ->
              Names.cleanStack isRooted (fold_left (Filepath.cleanStep isRooted) segs acc).
Proof.
  induction 1 as [|seg segs Hseg Hsegs IH]; intros acc Hacc; [exact Hacc|].
  cbn [fold_left]. apply IH. apply cleanStep_keeps_stack; assumption.
Qed.

Lemma cleanStack_of_path q :
  Names.cleanStack (Filepath.rooted q)
    (fold_left (Filepath.cleanStep (Filepath.rooted q)) (Strings.Split "/" q) []).
Proof.
  apply cleanFold_keeps_stack; [apply Split_parts_without_separator|].
  exists [], []. repeat split; constructor.
Qed.

Lemma cleanFold_of_dots isRooted dots :
  Forall (fun s => s = "..") dots ->
  (isRooted = true -> dots = []) ->
  forall acc, Forall (fun s => s = "..") acc ->
              fold_left (Filepath.cleanStep isRooted) dots acc = (rev dots ++ acc)%list.
Proof.
  induction 1 as [|d dots Hd Hdots IH]; intros Hr acc Hacc; [reflexivity|].
  subst d. destruct isRooted; [discriminate (Hr eq_refl)|].
  cbn [fold_left rev].
  assert (Hstep : Filepath.cleanStep false acc ".." = ".." :: acc).
  { destruct acc as [|top rest]; [reflexivity|].
    inversion Hacc; subst. reflexivity. }
  rewrite Hstep, IH; [rewrite <- app_assoc; reflexivity|discriminate|].
  constructor; [reflexivity|exact Hacc].
Qed.

Lemma cleanFold_of_plain isRooted l :
  Forall (fun s => Names.plainName s = true) l ->
  forall acc, fold_left (Filepath.cleanStep isRooted) l acc = (rev l ++ acc)%list.
Proof.
  induction 1 as [|s l Hs Hl IH]; intros acc; [reflexivity|].
  cbn [fold_left rev]. rewrite (cleanStep_plain _ _ _ Hs), IH, <- app_assoc. reflexivity.
Qed.

(** Cleaning the elements a clean-up kept keeps them all. *)
Lemma cleanFold_of_stack isRooted acc :
  Names.cleanStack isRooted acc ->
  fold_left (Filepath.cleanStep isRooted) (rev acc) [] = acc.
Proof.
  intros (normals & dots & -> & Hn & Hd & Hr).
  rewrite rev_app_distr, fold_left_app.
  rewrite (cleanFold_of_dots isRooted (rev dots)); [| | |constructor].
  - rewrite rev_involutive, app_nil_r, cleanFold_of_plain, rev_involutive; [reflexivity|].
    apply Stdlib.Lists.List.Forall_rev. exact Hn.
  - apply Stdlib.Lists.List.Forall_rev. exact Hd.
  - intros H. rewrite (Hr H). reflexivity.
Qed.

Lemma cleanStack_elements isRooted acc :
  Names.cleanStack isRooted acc ->
  Forall (fun s => Filepath.noSeparator s = true /\ Filepath.isEmpty s = false) acc.
Proof.
  intros (normals & dots & -> & Hn & Hd & _). apply Forall_app. split.
  - eapply Stdlib.Lists.List.Forall_impl; [|exact Hn]. intros s Hs.
    destruct (plainName_parts s Hs) as (H1 & H2 & _). tauto.
  - eapply Stdlib.Lists.List.Forall_impl; [|exact Hd]. intros s ->. split; reflexivity.
Qed.

Lemma Join_starts_unrooted s t :
  Filepath.noSeparator s = true -> Filepath.isEmpty s = false ->
  Filepath.isEmpty (Strings.Join (s :: t) "/") = false
  /\ Filepath.rooted (Strings.Join (s :: t) "/") = false.
Proof.
  intros Hsep Hne. destruct s as [|c r]; [discriminate|].
  assert (Hc : Ascii.eqb c "/" = false).
  { cbn in Hsep. unfold Filepath.Separator in Hsep.
    destruct (Ascii.eqb c "/"); [discriminate|reflexivity]. }
  destruct t as [|s2 t].
  - cbn. unfold Filepath.Separator. rewrite Hc. tauto.
  - change (Strings.Join (String c r :: s2 :: t) "/")
      with (String c (r ++ "/" ++ Strings.Join (s2 :: t) "/")).
    cbn. unfold Filepath.Separator. rewrite Hc. tauto.
Qed.

(** [filepath.Clean] is idempotent: a cleaned path has the elements and
    the root of the path it came from, and cleans to itself. *)
Lemma Clean_of_Clean q :
  Filepath.rooted (Filepath.Clean q) = Filepath.rooted q
  /\ Filepath.cleanSegments (Filepath.Clean q) = Filepath.cleanSegments q
  /\ Filepath.Clean (Filepath.Clean q) = Filepath.Clean q.
Proof.
  assert (Hmain : Filepath.rooted (Filepath.Clean q) = Filepath.rooted q
                  /\ Filepath.cleanSegments (Filepath.Clean q) = Filepath.cleanSegments q).
  { pose proof (cleanStack_of_path q) as Hstack.
    pose proof (cleanStack_elements _ _ Hstack) as Helems.
    pose proof (cleanFold_of_stack _ _ Hstack) as Hfold.
    unfold Filepath.Clean, Filepath.cleanSegments, Filepath.Separator in *.
    set (isRooted := Filepath.rooted q) in *.
    set (acc := fold_left (Filepath.cleanStep isRooted) (Strings.Split "/" q) []) in *.
    assert (Hrev : Forall (fun s => Filepath.noSeparator s = true /\ Filepath.isEmpty s = false)
                          (rev acc)) by (apply Stdlib.Lists.List.Forall_rev; exact Helems).
    destruct (rev acc) as [|s t] eqn:Hl.
    - cbn [Strings.Join]. destruct isRooted; cbn; tauto.
    - inversion Hrev as [|? ? [Hsep Hne] Ht]; subst.
      destruct (Join_starts_unrooted s t Hsep Hne) as [Hnonempty Hunrooted].
      assert (Hsplit : Strings.Split "/" (Strings.Join (s :: t) "/") = s :: t).
      { apply Split_of_Join; [|discriminate].
        eapply Stdlib.Lists.List.Forall_impl; [|exact Hrev]. intros x Hx. apply Hx. }
      destruct isRooted.
      + split; [reflexivity|].
        change (Filepath.rooted ("/" ++ Strings.Join (s :: t) "/")) with true.
        change (Strings.Split "/" ("/" ++ Strings.Join (s :: t) "/"))
          with ("" :: Strings.Split "/" (Strings.Join (s :: t) "/")).
        rewrite Hsplit. change (fold_left (Filepath.cleanStep true) ("" :: s :: t) [])
          with (fold_left (Filepath.cleanStep true) (s :: t) []).
        rewrite Hfold. exact Hl.
      + rewrite Hnonempty, Hunrooted, Hsplit, Hfold. split; [reflexivity|exact Hl]. }
  destruct Hmain as [Hroot Hsegs]. split; [exact Hroot|]. split; [exact Hsegs|].
  unfold Filepath.Clean at 1. rewrite Hroot, Hsegs. reflexivity.
Qed.

(** ** Paths under the base path *)

Lemma Clean_is_not_empty q : Filepath.Clean q <> "".
Proof.
  unfold Filepath.Clean. destruct (Filepath.rooted q); [discriminate|].
  destruct (Strings.Join _ "/") eqn:Hj; cbn; [discriminate|discriminate].
Qed.

Lemma under_base base : Filepath.Clean base = base -> Names.under base base [].
Proof.
  intros Hclean. unfold Names.under. rewrite app_nil_r.
  repeat split; try assumption. constructor.
Qed.

Lemma cleanSegments_of_entry path name :
  path <> "" -> Names.plainName name = true ->
  Filepath.rooted (path ++ "/" ++ name) = Filepath.rooted path
  /\ Filepath.cleanSegments (path ++ "/" ++ name)
     = (Filepath.cleanSegments path ++ [name])%list.
Proof.
  intros Hpath Hname. destruct (plainName_parts name Hname) as (_ & Hsep & _ & _).
  assert (Hroot : Filepath.rooted (path ++ "/" ++ name) = Filepath.rooted path)
    by (destruct path; [congruence|reflexivity]).
  split; [exact Hroot|]. unfold Filepath.cleanSegments, Filepath.Separator.
  rewrite Hroot, Split_at_separator, (Split_without_separator name Hsep), fold_left_app.
  cbn [fold_left]. rewrite (cleanStep_plain _ _ _ Hname). reflexivity.
Qed.

Lemma under_child base path route name :
  Names.under base path route -> Names.plainName name = true ->
  Names.under base (Filepath.Join path name) (route ++ [name]).
Proof.
  intros (Hclean & Hroot & Hsegs & Hroute) Hname.
  assert (Hpath : path <> "") by (rewrite <- Hclean; apply Clean_is_not_empty).
  destruct (plainName_parts name Hname) as (Hne & _ & _ & _).
  assert (Hjoin : Filepath.Join path name = Filepath.Clean (path ++ "/" ++ name)).
  { unfold Filepath.Join. rewrite Hne. destruct path; [congruence|reflexivity]. }
  destruct (Clean_of_Clean (path ++ "/" ++ name)) as (Hr & Hs & Hc).
  destruct (cleanSegments_of_entry path name Hpath Hname) as [Hr2 Hs2].
  rewrite Hjoin. unfold Names.under.
  split; [exact Hc|]. split; [rewrite Hr, Hr2; exact Hroot|].
  split; [rewrite Hs, Hs2, Hsegs, <- app_assoc; reflexivity|].
  apply Forall_app. split; [exact Hroute|]. constructor; [exact Hname|constructor].
Qed.

Lemma dropCommon_of_prefix l route : Filepath.dropCommon l (l ++ route) = ([], route).
Proof.
  induction l as [|x l IH]; [destruct route; reflexivity|].
  cbn. rewrite String.eqb_refl. exact IH.
Qed.

Lemma cleanSegments_of_dot q :
  (if String.eqb q "." then [] else Filepath.cleanSegments q) = Filepath.cleanSegments q.
Proof. destruct (String.eqb_spec q ".") as [->|]; reflexivity. Qed.

(** The path relative to the base path of a path under it is its route,
    the names joined by separators. *)
Lemma Rel_under base path route :
  Filepath.Clean base = base ->
  Names.under base path route -> route <> [] ->
  Filepath.Rel base path = Some (Strings.Join route "/").
Proof.
  intros Hbase (Hclean & Hroot & Hsegs & Hroute) Hne. unfold Filepath.Rel. cbv zeta.
  rewrite Hbase, Hclean, !cleanSegments_of_dot, Hroot, Hsegs.
  destruct (String.eqb_spec base path) as [Heq|_].
  - exfalso. subst path. apply Hne.
    apply (app_inv_head (Filepath.cleanSegments base)). rewrite app_nil_r. symmetry. exact Hsegs.
  - rewrite Bool.eqb_reflx. cbn [negb]. rewrite dropCommon_of_prefix. reflexivity.
Qed.

(** The route as the tree writes it: the names joined one by one. *)
Lemma route_of_child route name :
  Forall (fun s => Names.plainName s = true) route ->
  (if Filepath.isEmpty (Strings.Join route "/") then name
   else Strings.Join route "/" ++ "/" ++ name)%string
  = Strings.Join (route ++ [name]) "/".
Proof.
  intros Hroute. destruct route as [|s t]; [reflexivity|].
  inversion Hroute as [|? ? Hs Ht]; subst.
  destruct (plainName_parts s Hs) as (H1 & H2 & _).
  destruct (Join_starts_unrooted s t H2 H1) as [Hnonempty _].
  rewrite Hnonempty, Join_snoc by discriminate. reflexivity.
Qed.

(** ** A project without ignore files *)

Lemma dropCommon_splits b : forall t rb rt,
  Filepath.dropCommon b t = (rb, rt) ->
  exists pre, b = (pre ++ rb)%list /\ t = (pre ++ rt)%list.
Proof.
  induction b as [|x b IH]; intros t rb rt Hd.
  - cbn in Hd. injection Hd as <- <-. exists []. split; reflexivity.
  - destruct t as [|y t]; [cbn in Hd; injection Hd as <- <-; exists []; split; reflexivity|].
    cbn in Hd. destruct (String.eqb_spec x y) as [->|Hne].
    + destruct (IH t rb rt Hd) as (pre & -> & ->). exists (y :: pre). split; reflexivity.
    + injection Hd as <- <-. exists []. split; reflexivity.
Qed.

Lemma last_of_app {A} (l k : list A) d : k <> [] -> List.last (l ++ k) d = List.last k d.
Proof.
  intros Hk. induction l as [|x l IH]; [reflexivity|].
  cbn [app]. destruct (l ++ k)%list eqn:Hlk; [|exact IH].
  destruct l; [cbn in Hlk; congruence|discriminate].
Qed.

Lemma descend_finds_no_ignore_file segs :
  forall n m,
    Names.noIgnoreFileBelow n = true ->
    Disk.descend n segs = inl m -> segs <> [] ->
    List.last segs "" <> ".gitignore".
Proof.
  induction segs as [|s rest IH]; intros n m Hno Hfound Hne; [congruence|].
  destruct n as [fname perm content|lname|dname readable entries]; cbn in Hfound;
    try discriminate.
  destruct readable; cbn in Hfound; [|discriminate].
  unfold Disk.child in Hfound.
  destruct (List.find _ entries) as [c|] eqn:Hfind; [|discriminate].
  apply find_some in Hfind. destruct Hfind as [Hin Hname].
  apply String.eqb_eq in Hname.
  cbn [Names.noIgnoreFileBelow] in Hno. rewrite forallb_forall in Hno.
  specialize (Hno c Hin). apply andb_true_iff in Hno. destruct Hno as [Hc Hbelow].
  destruct rest as [|s2 rest].
  - cbn. rewrite <- Hname. intros Heq. rewrite Heq in Hc. discriminate.
  - change (List.last (s :: s2 :: rest) "") with (List.last (s2 :: rest) "").
    apply (IH c m Hbelow Hfound). discriminate.
Qed.

Lemma Clean_from_parts q :
  Filepath.Clean q
  = (if Filepath.rooted q then "/" ++ Strings.Join (Filepath.cleanSegments q) "/"
     else if Filepath.isEmpty (Strings.Join (Filepath.cleanSegments q) "/") then "."
          else Strings.Join (Filepath.cleanSegments q) "/")%string.
Proof. reflexivity. Qed.

Lemma cleanSegments_without_separator q :
  Forall (fun s => Filepath.noSeparator s = true) (Filepath.cleanSegments q).
Proof.
  unfold Filepath.cleanSegments, Filepath.Separator. apply Stdlib.Lists.List.Forall_rev.
  eapply Stdlib.Lists.List.Forall_impl; [|exact (cleanStack_elements _ _ (cleanStack_of_path q))].
  intros s Hs. apply Hs.
Qed.

Lemma Join_of_dots_outside (rb rt : list string) x :
  String.eqb (Strings.Join (map (fun _ => "..") (x :: rb) ++ rt) "/") ".."
  || Strings.HasPrefix (Strings.Join (map (fun _ => "..") (x :: rb) ++ rt) "/") "../" = true.
Proof.
  cbn [map app]. apply orb_true_iff.
  destruct (map (fun _ : string => "..") rb ++ rt)%list as [|y l];
    [left; reflexivity|right].
  exact (prefix_of_append "../" (Strings.Join (y :: l) "/")).
Qed.

(** The path of an ignore file, as the cache forms it, ends in the
    element [.gitignore]. *)
Lemma ignore_path_shape dirPath :
  Filepath.Clean (Filepath.Join dirPath ".gitignore") = Filepath.Join dirPath ".gitignore"
  /\ exists l, Filepath.cleanSegments (Filepath.Join dirPath ".gitignore")
               = (l ++ [".gitignore"])%list.
Proof.
  unfold Filepath.Join. cbn [Filepath.isEmpty].
  destruct (Filepath.isEmpty dirPath).
  - split; [reflexivity|]. exists []. reflexivity.
  - destruct (Clean_of_Clean (dirPath ++ "/" ++ ".gitignore")) as (_ & Hs & Hc).
    split; [exact Hc|]. rewrite Hs. apply cleanSegments_joined. reflexivity.
Qed.

Lemma lookup_finds_no_ignore_file dk dirPath n :
  Names.noIgnoreFileBelow (Disk.root dk) = true ->
  Disk.lookup dk (Filepath.Join dirPath ".gitignore") = inl n ->
  n = Disk.root dk.
Proof.
  intros Hno. destruct (ignore_path_shape dirPath) as (Hclean & l & Hsegs).
  set (g := Filepath.Join dirPath ".gitignore") in *.
  unfold Disk.lookup.
  destruct (Filepath.Rel (Disk.rootPath dk) g) as [rel|] eqn:Hrel; [|discriminate].
  destruct (String.eqb_spec rel ".") as [->|Hnotdot]; [intros [= <-]; reflexivity|].
  destruct (String.eqb rel ".." || Strings.HasPrefix rel "../") eqn:Hup; [discriminate|].
  intros Hfound. exfalso. revert Hrel. unfold Filepath.Rel. cbv zeta.
  rewrite Hclean, !cleanSegments_of_dot.
  destruct (String.eqb_spec (Filepath.Clean (Disk.rootPath dk)) g) as [Heq|Hdiff];
    [intros [= <-]; apply Hnotdot; reflexivity|].
  destruct (negb (Bool.eqb _ _)) eqn:Hrooted; [discriminate|].
  destruct (Filepath.dropCommon _ _) as [rb rt] eqn:Hdrop.
  destruct (dropCommon_splits _ _ _ _ Hdrop) as (pre & Hb & Ht).
  destruct rb as [|x rb].
  - intros [= <-]. rewrite app_nil_r in Hb.
    destruct rt as [|r1 rt].
    + (* the two paths have the same elements and the same root: they are equal *)
      apply Hdiff. rewrite app_nil_r in Ht.
      apply negb_false_iff, Bool.eqb_prop in Hrooted.
      destruct (Clean_of_Clean (Disk.rootPath dk)) as (_ & _ & Hidem).
      rewrite <- Hidem, <- Hclean, (Clean_from_parts (Filepath.Clean (Disk.rootPath dk))),
        (Clean_from_parts g), Hrooted, Hb, Ht. reflexivity.
    + assert (Hsep : Forall (fun s => Filepath.noSeparator s = true) (r1 :: rt)).
      { pose proof (cleanSegments_without_separator g) as Hall. rewrite Ht in Hall.
        apply Forall_app in Hall. apply Hall. }
      rewrite (Split_of_Join (r1 :: rt) Hsep) in Hfound by discriminate.
      apply (descend_finds_no_ignore_file (r1 :: rt) (Disk.root dk) n Hno Hfound);
        [discriminate|].
      assert (Hlast : List.last (pre ++ r1 :: rt) "" = ".gitignore")
        by (rewrite <- Ht, Hsegs; apply last_of_app_single).
      rewrite <- Hlast. symmetry. apply last_of_app. discriminate.
  - destruct (String.eqb x ".."); [discriminate|].
    intros [= Hr]. rewrite <- Hr in Hup.
    pose proof (Join_of_dots_outside rb rt x) as Hdots.
    cbn [map app Strings.Join] in Hdots. rewrite Hdots in Hup. discriminate.
Qed.

(** In a project without an entry called [.gitignore] no directory has a
    matcher. *)
Lemma no_ignore_file_no_matcher dk dirPath :
  Disk.isDirectory (Disk.root dk) = true ->
  Names.noIgnoreFileBelow (Disk.root dk) = true ->
  Discipline.fromDisk (fileSystemOf dk) (Filepath.Join dirPath ".gitignore") = None.
Proof.
  intros Hdir Hno. unfold Discipline.fromDisk, fileSystemOf. cbn [fsStat fsReadFile].
  unfold Disk.Stat, Disk.ReadFile, Disk.Open.
  destruct (Disk.lookup dk (Filepath.Join dirPath ".gitignore")) as [n|e] eqn:Hlook;
    [|reflexivity].
  apply (lookup_finds_no_ignore_file dk dirPath n Hno) in Hlook. subst n.
  destruct (Disk.root dk) as [| |name readable entries]; try discriminate.
  destruct readable; reflexivity.
Qed.

(** ** The tree and the content of a project without ignore files *)

Lemma known_entry_verdict GOOS ff absPath d info active :
  Info d = inl info ->
  snd (IsExcluded GOOS ff absPath d active) = None
  \/ (fi_IsDir info = true /\ IsExcluded GOOS ff absPath d active = (true, Some SkipDir)).
Proof.
  intros Hinfo. unfold IsExcluded. rewrite Hinfo.
  destruct (negb _ && String.eqb absPath _); [left; reflexivity|].
  destruct (negb (Z.land (fi_Mode info) ModeSymlink =? 0)); [left; reflexivity|].
  destruct (fi_IsDir info); cbn [andb].
  - destruct (existsb _ (_ ++ _)%list); [right; split; reflexivity|].
    destruct (existsb (matcherHits absPath) _); [right; split; reflexivity|left; reflexivity].
  - destruct (existsb (matcherHits absPath) _); [left; reflexivity|].
    destruct (_ && _); left; reflexivity.
Qed.

Lemma symlink_verdict GOOS ff absPath name active :
  IsExcluded GOOS ff absPath (Disk.entryOf (Disk.Symlink name)) active = (true, None).
Proof. unfold IsExcluded. destruct (negb _ && String.eqb absPath _); reflexivity. Qed.

Lemma buildEntries_cons GOOS p currentDirPath active x rest st :
  buildEntries GOOS p currentDirPath active (x :: rest) st
  = (fst (buildEntries GOOS p currentDirPath active rest
            (fst (buildEntries GOOS p currentDirPath active [x] st))),
     snd (buildEntries GOOS p currentDirPath active [x] st)
     ++ snd (buildEntries GOOS p currentDirPath active rest
               (fst (buildEntries GOOS p currentDirPath active [x] st))))%list.
Proof.
  destruct x as [entry recurse]. cbn [buildEntries].
  destruct (IsExcluded GOOS (filter p) _ entry active) as [[|] [filterErr|]];
    try (cbn [fst snd app]; destruct (buildEntries GOOS p currentDirPath active rest st);
         reflexivity).
  destruct (if IsDir entry then _ else _) as [st1 grand]. cbn [fst snd].
  destruct (buildEntries GOOS p currentDirPath active rest st1) as [st2 siblings].
  reflexivity.
Qed.

Section Agreement.

Variable GOOS : string.
Variable p : Processor.
Variable dk : Disk.disk.
Hypothesis Hclean : Filepath.Clean (basePath p) = basePath p.
Hypothesis Hnone :
  forall dirPath,
    Discipline.fromDisk (fileSystemOf dk) (Filepath.Join dirPath ".gitignore") = None.

Lemma compile_without_ignore_file dirPath st :
  Discipline.cacheCoherent (fileSystemOf dk) st ->
  fst (fst (compile dk dirPath st)) = None.
Proof.
  intros Hst. pose proof (compile_from_disk (fileSystemOf dk) dirPath st Hst) as Hm.
  rewrite Hnone in Hm. unfold compile.
  destruct (fst (fst (compileAndCacheGitIgnore (fileSystemOf dk) dirPath st)));
    [discriminate|reflexivity].
Qed.

Lemma collectMatchers_without_ignore_file fuel :
  forall currentDir st,
    Discipline.cacheCoherent (fileSystemOf dk) st ->
    fst (collectMatchers p dk fuel currentDir [] st) = [].
Proof.
  induction fuel as [|fuel IH]; intros currentDir st Hst; cbn [collectMatchers];
    [reflexivity|].
  destruct (Strings.HasPrefix currentDir (basePath p) && negb (String.eqb currentDir ""));
    [|reflexivity].
  pose proof (compile_without_ignore_file currentDir st Hst) as Hm.
  pose proof (compile_cacheCoherent (fileSystemOf dk) currentDir st Hst) as Hst1.
  unfold compile in *.
  destruct (compileAndCacheGitIgnore (fileSystemOf dk) currentDir st) as [[matcher e] st1].
  cbn [fst snd] in *. subst matcher.
  destruct (String.eqb currentDir (basePath p)); [reflexivity|].
  destruct (String.eqb (Filepath.Dir currentDir) currentDir); [reflexivity|].
  apply IH. exact Hst1.
Qed.

(** Without ignore files the function of the walk judges every entry
    with the empty stack. *)
Lemma visit_without_ignore_file path d st :
  Discipline.cacheCoherent (fileSystemOf dk) st ->
  exists st1,
    visit GOOS p dk path d None st
    = match IsExcluded GOOS (filter p) path d [] with
      | (_, Some filterErr) =>
          if Is filterErr SkipDir then (Some SkipDir, st1, []) else (None, st1, [])
      | (true, None) => if IsDir d then (Some SkipDir, st1, []) else (None, st1, [])
      | (false, None) =>
          if IsDir d then (None, st1, [])
          else match Filepath.Rel (basePath p) path with
               | None => (None, st1, [])
               | Some relPath =>
                   (None, st1,
                    [ {| source := path; header := Filepath.ToSlash relPath;
                         body := blockBody dk path relPath |} ])
               end
      end.
Proof.
  intros Hst. unfold visit.
  pose proof (collectMatchers_without_ignore_file
                (2 + String.length (if negb (IsDir d) then Filepath.Dir path else path))
                (if negb (IsDir d) then Filepath.Dir path else path) st Hst) as Hstack.
  destruct (collectMatchers p dk _ _ [] st) as [pathStack st1]. cbn [fst] in Hstack.
  subst pathStack. exists st1. reflexivity.
Qed.

(** What is to be shown for one entry [c] of the directory at [ppath]:
    the files the tree shows for it are the headers the walk writes for
    it, and the walk goes on after it. *)
Let agreesAt (c : Disk.node) : Prop :=
  forall ppath proute st stw,
    Discipline.cacheCoherent (fileSystemOf dk) st ->
    Discipline.cacheCoherent (fileSystemOf dk) stw ->
    Names.under (basePath p) ppath proute ->
    Permutation
      (flat_map (filesOfNode (Strings.Join proute "/"))
         (snd (buildEntries GOOS p ppath []
                 [(Disk.entryOf c, buildNodeRecursive GOOS p dk c)] st)))
      (map header (snd (walkDir GOOS p dk c (Filepath.Join ppath (Disk.nodeName c)) stw)))
    /\ fst (fst (walkDir GOOS p dk c (Filepath.Join ppath (Disk.nodeName c)) stw)) = None.

Lemma entries_agree nodes ppath proute :
  Forall agreesAt nodes ->
  Names.under (basePath p) ppath proute ->
  forall treeSide walkSide,
    Permutation treeSide walkSide ->
    (forall c, In c treeSide -> In c nodes) ->
    forall st stw,
      Discipline.cacheCoherent (fileSystemOf dk) st ->
      Discipline.cacheCoherent (fileSystemOf dk) stw ->
      Permutation
        (flat_map (filesOfNode (Strings.Join proute "/"))
           (snd (buildEntries GOOS p ppath []
                   (map (fun c => (Disk.entryOf c, buildNodeRecursive GOOS p dk c)) treeSide)
                   st)))
        (map header
           (snd (walkEntries ppath
                   (map (fun c => (Disk.entryOf c, walkDir GOOS p dk c)) walkSide) stw))).
Proof.
  intros Hnodes Hunder treeSide walkSide Hperm Hsub st stw Hst Hstw.
  rewrite Stdlib.Lists.List.Forall_forall in Hnodes.
  set (ref := fun c => map header
                         (snd (walkDir GOOS p dk c (Filepath.Join ppath (Disk.nodeName c)) stw))).
  assert (Htree : forall l s,
             (forall c, In c l -> In c nodes) ->
             Discipline.cacheCoherent (fileSystemOf dk) s ->
             Permutation
               (flat_map (filesOfNode (Strings.Join proute "/"))
                  (snd (buildEntries GOOS p ppath []
                          (map (fun c => (Disk.entryOf c, buildNodeRecursive GOOS p dk c)) l) s)))
               (flat_map ref l)).
  { induction l as [|c l IH]; intros s Hl Hs; [reflexivity|].
    cbn [map flat_map]. rewrite buildEntries_cons. cbn [snd]. rewrite flat_map_app.
    apply Permutation_app.
    - apply (Hnodes c (Hl c (or_introl eq_refl)) ppath proute s stw Hs Hstw Hunder).
    - apply IH; [intros c' Hc'; apply Hl; right; exact Hc'|].
      eapply byCompiling_cacheCoherent; [|exact Hs].
      apply (buildEntries_byCompiling GOOS p dk).
      constructor; [|constructor]. intros path active s0.
      apply buildNodeRecursive_byCompiling. }
  assert (Hwalk : forall l s,
             (forall c, In c l -> In c nodes) ->
             Discipline.cacheCoherent (fileSystemOf dk) s ->
             map header
               (snd (walkEntries ppath
                       (map (fun c => (Disk.entryOf c, walkDir GOOS p dk c)) l) s))
             = flat_map ref l).
  { induction l as [|c l IH]; intros s Hl Hs; [reflexivity|].
    cbn [map flat_map walkEntries]. change (Name (Disk.entryOf c)) with (Disk.nodeName c).
    destruct (Hnodes c (Hl c (or_introl eq_refl)) ppath proute s s Hs Hs Hunder) as [_ Herr].
    destruct (walkDir_same GOOS p p dk eq_refl eq_refl c
                (Filepath.Join ppath (Disk.nodeName c)) s stw Hs Hstw) as [_ Hout].
    pose proof (walkDir_byCompiling GOOS p dk c (Filepath.Join ppath (Disk.nodeName c)) s)
      as Hby.
    destruct (walkDir GOOS p dk c (Filepath.Join ppath (Disk.nodeName c)) s)
      as [[err s1] out1].
    cbn [fst snd] in *. subst err.
    pose proof (IH s1 (fun c' Hc' => Hl c' (or_intror Hc'))
                  (byCompiling_cacheCoherent _ _ _ Hby Hs)) as Hrest.
    destruct (walkEntries ppath _ s1) as [s2 out2]. cbn [snd] in *.
    rewrite map_app, Hrest, Hout. reflexivity. }
  rewrite (Hwalk walkSide stw); [|intros c Hc; apply Hsub;
                                   eapply Permutation_in; [symmetry; exact Hperm|exact Hc]
                                 |exact Hstw].
  etransitivity; [apply (Htree treeSide st Hsub Hst)|].
  apply Permutation_flat_map. exact Hperm.
Qed.

Lemma entry_agrees c :
  Names.plainName (Disk.nodeName c) = true ->
  Names.wellNamedBelow c = true ->
  agreesAt c.
Proof.
  induction c as [name perm content|name|name readable entries IH] using node_ind_entries;
    intros Hplain Hnamed ppath proute st stw Hst Hstw Hunder;
    cbn [Disk.nodeName] in *.
  - (* a regular file *)
    pose proof (under_child _ _ _ _ Hunder Hplain) as Hchild.
    assert (Hrel := Rel_under _ _ _ Hclean Hchild ltac:(destruct proute; discriminate)).
    destruct (visit_without_ignore_file (Filepath.Join ppath name)
                (Disk.entryOf (Disk.File name perm content)) stw Hstw) as [st1 Hvisit].
    cbn [buildEntries walkDir]. rewrite Hvisit.
    change (Name (Disk.entryOf (Disk.File name perm content))) with name.
    destruct (known_entry_verdict GOOS (filter p) (Filepath.Join ppath name)
                (Disk.entryOf (Disk.File name perm content)) _ [] eq_refl)
      as [Hnoerr|[Hdir _]]; [|discriminate Hdir].
    destruct (IsExcluded GOOS (filter p) (Filepath.Join ppath name) _ [])
      as [[|] [filterErr|]]; try discriminate Hnoerr;
      cbn [Disk.entryOf Disk.isDirectory IsDir].
    + split; reflexivity.
    + rewrite Hrel. cbn [snd fst flat_map filesOfNode map header app].
      destruct Hunder as (_ & _ & _ & Hroute).
      rewrite (route_of_child proute name Hroute). split; reflexivity.
  - (* a symbolic link *)
    destruct (visit_without_ignore_file (Filepath.Join ppath name)
                (Disk.entryOf (Disk.Symlink name)) stw Hstw) as [st1 Hvisit].
    cbn [buildEntries walkDir]. rewrite Hvisit.
    change (Name (Disk.entryOf (Disk.Symlink name))) with name.
    rewrite symlink_verdict. split; reflexivity.
  - (* a directory *)
    pose proof (under_child _ _ _ _ Hunder Hplain) as Hchild.
    destruct (visit_without_ignore_file (Filepath.Join ppath name)
                (Disk.entryOf (Disk.Directory name readable entries)) stw Hstw)
      as [st1 Hvisit].
    pose proof (visit_byCompiling GOOS p dk (Filepath.Join ppath name)
                  (Disk.entryOf (Disk.Directory name readable entries)) None stw) as Hby.
    cbn [buildEntries walkDir]. rewrite Hvisit in Hby |- *.
    change (Name (Disk.entryOf (Disk.Directory name readable entries))) with name.
    destruct (known_entry_verdict GOOS (filter p) (Filepath.Join ppath name)
                (Disk.entryOf (Disk.Directory name readable entries)) _ [] eq_refl)
      as [Hnoerr|[_ Hskip]].
    2:{ rewrite Hskip. split; reflexivity. }
    destruct (IsExcluded GOOS (filter p) (Filepath.Join ppath name) _ [])
      as [[|] [filterErr|]]; try discriminate Hnoerr;
      cbn [Disk.entryOf Disk.isDirectory IsDir] in *; [split; reflexivity|].
    cbn [fst snd] in Hby.
    pose proof (byCompiling_cacheCoherent _ _ _ Hby Hstw) as Hst1.
    destruct readable.
    + (* readable: both go through the entries *)
      cbn [buildNodeRecursive].
      pose proof (compile_without_ignore_file (Filepath.Join ppath name) st Hst) as Hm.
      pose proof (compile_cacheCoherent (fileSystemOf dk) (Filepath.Join ppath name) st Hst)
        as Hst2.
      unfold compile in *.
      destruct (compileAndCacheGitIgnore (fileSystemOf dk) (Filepath.Join ppath name) st)
        as [[matcher e] st2].
      cbn [fst snd] in Hm, Hst2. subst matcher. cbn [extendActive].
      rewrite (treeOrder_entries GOOS p dk entries), (byName_entries GOOS p dk entries).
      assert (Hentries : Forall agreesAt entries).
      { cbn [Names.wellNamedBelow] in Hnamed. rewrite forallb_forall in Hnamed.
        rewrite Stdlib.Lists.List.Forall_forall in IH |- *. intros c Hc.
        specialize (Hnamed c Hc). apply andb_true_iff in Hnamed.
        apply IH; tauto. }
      pose proof (entries_agree entries (Filepath.Join ppath name) (proute ++ [name])
                    Hentries Hchild (Notions.treeOrder entries) (Notions.byName entries))
        as Hboth.
      specialize (Hboth ltac:(symmetry; apply sortBy_Permutation)
                        ltac:(intros c Hc; unfold Notions.treeOrder, Notions.byName in Hc;
                              eapply Permutation_in;
                              [symmetry; etransitivity; apply sortBy_Permutation|exact Hc])
                        st2 st1 Hst2 Hst1).
      destruct (buildEntries GOOS p (Filepath.Join ppath name) [] _ st2) as [st3 grand].
      destruct (walkEntries (Filepath.Join ppath name) _ st1) as [st4 out].
      cbn [fst snd flat_map filesOfNode app] in *.
      destruct Hunder as (_ & _ & _ & Hroute).
      rewrite (route_of_child proute name Hroute), app_nil_r.
      split; [exact Hboth|reflexivity].
    + (* not readable: the tree shows the directory empty, the walk leaves it *)
      cbn [buildNodeRecursive visit Disk.entryOf Disk.isDirectory IsDir Is sameSentinel
           andb orb fst snd flat_map filesOfNode app map].
      split; reflexivity.
Qed.

End Agreement.

(** X27. In a project without any entry called [.gitignore], whose
    entries bear ordinary names and whose root directory the filter lets
    through, the tree and the content agree: the files the tree shows are
    the headers of the blocks written, each as often, in another order at
    most.  The base path is clean, as [filepath.Abs] leaves it. *)
Theorem tree_and_content_agree_without_ignore_files GOOS p dk st :
  Filepath.Clean (basePath p) = basePath p ->
  Disk.isDirectory (Disk.root dk) = true ->
  Names.wellNamedBelow (Disk.root dk) = true ->
  Names.noIgnoreFileBelow (Disk.root dk) = true ->
  IsExcluded GOOS (filter p) (basePath p) (Disk.entryOf (Disk.root dk)) [] = (false, None) ->
  Discipline.cacheCoherent (fileSystemOf dk) st ->
  Permutation (treeFiles (snd (buildTree GOOS p dk st)))
              (map header (snd (Process GOOS p dk st))).
Proof.
  intros Hclean Hdir Hnamed Hno Hroot Hst.
  assert (Hnone : forall dirPath,
             Discipline.fromDisk (fileSystemOf dk) (Filepath.Join dirPath ".gitignore") = None)
    by (intros dirPath; apply no_ignore_file_no_matcher; assumption).
  (* the walk starts from a state that holds what the disk holds *)
  assert (Hwalk : exists stw, Discipline.cacheCoherent (fileSystemOf dk) stw
                              /\ snd (Process GOOS p dk st)
                                 = snd (walkDir GOOS p dk (Disk.root dk) (basePath p) stw)).
  { unfold Process.
    assert (Ht : Discipline.byCompiling (fileSystemOf dk) st
                   (fst (if IncludeTree (config p)
                         then let '(s0, t) := BuildTreeString GOOS p dk st in (s0, Some t)
                         else (st, None)))).
    { destruct (IncludeTree (config p)); [|apply byCompiling_refl].
      unfold BuildTreeString. pose proof (buildTree_byCompiling GOOS p dk st) as Hb.
      destruct (buildTree GOOS p dk st) as [s0 rootNode]. exact Hb. }
    destruct (if IncludeTree (config p) then _ else _) as [s1 treeStr]. cbn [fst] in Ht.
    pose proof (compile_byCompiling dk (basePath p) s1) as Hc.
    destruct (compile dk (basePath p) s1) as [r s2]. cbn [snd] in Hc.
    exists s2. split.
    - eapply byCompiling_cacheCoherent; [exact Hc|].
      eapply byCompiling_cacheCoherent; [exact Ht|exact Hst].
    - unfold WalkDir. destruct (walkDir GOOS p dk (Disk.root dk) (basePath p) s2)
        as [[r3 s3] out]. reflexivity. }
  destruct Hwalk as (stw & Hstw & ->).
  destruct (Disk.root dk) as [fname perm content|lname|name readable entries] eqn:Hrootnode;
    try discriminate Hdir.
  (* the tree *)
  unfold buildTree. rewrite Hclean.
  pose proof (compile_without_ignore_file dk Hnone (basePath p) st Hst) as Hm.
  pose proof (compile_cacheCoherent (fileSystemOf dk) (basePath p) st Hst) as Hst1.
  unfold compile in *.
  destruct (compileAndCacheGitIgnore (fileSystemOf dk) (basePath p) st) as [[matcher e] st1].
  cbn [fst snd] in Hm, Hst1. subst matcher. rewrite Hrootnode.
  (* the walk *)
  destruct (visit_without_ignore_file GOOS p dk Hnone (basePath p)
              (Disk.entryOf (Disk.Directory name readable entries)) stw Hstw) as [sv Hvisit].
  pose proof (visit_byCompiling GOOS p dk (basePath p)
                (Disk.entryOf (Disk.Directory name readable entries)) None stw) as Hby.
  cbn [walkDir]. rewrite Hvisit in Hby |- *. rewrite Hroot in Hby |- *.
  cbn [Disk.entryOf Disk.isDirectory IsDir fst snd] in *.
  pose proof (byCompiling_cacheCoherent _ _ _ Hby Hstw) as Hsv.
  destruct readable.
  - cbn [buildNodeRecursive].
    pose proof (compile_without_ignore_file dk Hnone (basePath p) st1 Hst1) as Hm2.
    pose proof (compile_cacheCoherent (fileSystemOf dk) (basePath p) st1 Hst1) as Hst2.
    unfold compile in *.
    destruct (compileAndCacheGitIgnore (fileSystemOf dk) (basePath p) st1)
      as [[matcher e2] st2].
    cbn [fst snd] in Hm2, Hst2. subst matcher. cbn [extendActive].
    rewrite (treeOrder_entries GOOS p dk entries), (byName_entries GOOS p dk entries).
    assert (Hentries : Forall (fun c => Names.plainName (Disk.nodeName c) = true
                                        /\ Names.wellNamedBelow c = true) entries).
    { cbn [Names.wellNamedBelow] in Hnamed. rewrite forallb_forall in Hnamed.
      rewrite Stdlib.Lists.List.Forall_forall. intros c Hc.
      specialize (Hnamed c Hc). apply andb_true_iff in Hnamed. exact Hnamed. }
    pose proof (entries_agree GOOS p dk entries (basePath p) []) as Hboth.
    specialize (Hboth ltac:(eapply Stdlib.Lists.List.Forall_impl; [|exact Hentries];
                            intros c [Hc1 Hc2];
                            exact (entry_agrees GOOS p dk Hclean Hnone c Hc1 Hc2))
                      (under_base _ Hclean)
                      (Notions.treeOrder entries) (Notions.byName entries)
                      ltac:(symmetry; apply sortBy_Permutation)
                      ltac:(intros c Hc; unfold Notions.treeOrder, Notions.byName in Hc;
                            eapply Permutation_in;
                            [symmetry; etransitivity; apply sortBy_Permutation|exact Hc])
                      st2 sv Hst2 Hsv).
    destruct (buildEntries GOOS p (basePath p) [] _ st2) as [st3 children].
    destruct (walkEntries (basePath p) _ sv) as [st4 out].
    cbn [fst snd app treeFiles tnChildren Strings.Join] in *. exact Hboth.
  - cbn [buildNodeRecursive visit Disk.entryOf Disk.isDirectory IsDir Is sameSentinel
         andb orb fst snd flat_map app map treeFiles tnChildren].
    reflexivity.
Qed.

(** The project of [TestProcess_LocalPath_Basic]: [fileA.txt] and
    [sub/fileB.md], in the tree and in the content. *)
Lemma tree_and_content_agree_without_ignore_files_witness :
  Permutation
    (treeFiles (snd (buildTree "linux" (Notions.testProcessor "/w/testdata")
                       Notions.basicDisk initialState)))
    (map header (snd (Process "linux" (Notions.testProcessor "/w/testdata")
                        Notions.basicDisk initialState))).
Proof.
  apply tree_and_content_agree_without_ignore_files;
    try reflexivity; apply initial_cacheCoherent.
Defined.

(** ** The headers of the blocks *)

(** The blocks of a run are those of the walk from the base path, in a
    state the run reached by compiling. *)
Lemma Process_blocks GOOS p dk st :
  exists stw,
    Discipline.byCompiling (fileSystemOf dk) st stw
    /\ snd (Process GOOS p dk st)
       = snd (walkDir GOOS p dk (Disk.root dk) (basePath p) stw).
Proof.
  unfold Process.
  assert (Ht : Discipline.byCompiling (fileSystemOf dk) st
                 (fst (if IncludeTree (config p)
                       then let '(s0, t) := BuildTreeString GOOS p dk st in (s0, Some t)
                       else (st, None)))).
  { destruct (IncludeTree (config p)); [|apply byCompiling_refl].
    unfold BuildTreeString. pose proof (buildTree_byCompiling GOOS p dk st) as Hb.
    destruct (buildTree GOOS p dk st) as [s0 rootNode]. exact Hb. }
  destruct (if IncludeTree (config p) then _ else _) as [s1 treeStr]. cbn [fst] in Ht.
  pose proof (compile_byCompiling dk (basePath p) s1) as Hc.
  destruct (compile dk (basePath p) s1) as [r s2]. cbn [snd] in Hc.
  exists s2. split; [eapply byCompiling_trans; eassumption|].
  unfold WalkDir. destruct (walkDir GOOS p dk (Disk.root dk) (basePath p) s2)
    as [[r3 s3] out]. reflexivity.
Qed.

Section HeaderFacts.

Variable GOOS : string.
Variable p : Processor.
Variable dk : Disk.disk.
Hypothesis Hclean : Filepath.Clean (basePath p) = basePath p.

Lemma visit_header path route d e st :
  Names.under (basePath p) path route ->
  route <> [] \/ IsDir d = true ->
  Forall (Names.headerIsRoute (basePath p)) (snd (visit GOOS p dk path d e st)).
Proof.
  intros Hunder Hroute. unfold visit. destruct e as [e|].
  - destruct (IsDir d && Is e ErrPermission); constructor.
  - destruct (collectMatchers _ _ _ _ _ _) as [pathStack st1].
    destruct (IsExcluded GOOS (filter p) path d (rev pathStack)) as [[|] [filterErr|]];
      try (destruct (Is filterErr SkipDir)); try (destruct (IsDir d); constructor).
    destruct (IsDir d) eqn:Hdir; [constructor|].
    destruct Hroute as [Hroute|Hroute]; [|discriminate].
    rewrite (Rel_under _ _ _ Hclean Hunder Hroute).
    constructor; [|constructor]. exists route. cbn [source header].
    split; [exact Hroute|]. split; [exact Hunder|reflexivity].
Qed.

Lemma walkEntries_headers nodes :
  Forall (fun c =>
            Names.plainName (Disk.nodeName c) = true
            /\ forall path route st,
                Names.under (basePath p) path route -> route <> [] ->
                Forall (Names.headerIsRoute (basePath p))
                       (snd (walkDir GOOS p dk c path st))) nodes ->
  forall path route st,
    Names.under (basePath p) path route ->
    Forall (Names.headerIsRoute (basePath p))
           (snd (walkEntries path
                   (map (fun c => (Disk.entryOf c, walkDir GOOS p dk c)) nodes) st)).
Proof.
  induction 1 as [|c nodes [Hplain Hc] Hnodes IH]; intros path route st Hunder;
    [constructor|].
  cbn [map walkEntries]. change (Name (Disk.entryOf c)) with (Disk.nodeName c).
  pose proof (Hc (Filepath.Join path (Disk.nodeName c)) (route ++ [Disk.nodeName c])%list st
                (under_child _ _ _ _ Hunder Hplain)
                ltac:(destruct route; discriminate)) as Hout.
  destruct (walkDir GOOS p dk c _ st) as [[[err|] st1] out1]; cbn [snd] in *;
    [exact Hout|].
  pose proof (IH path route st1 Hunder) as Hrest.
  destruct (walkEntries path _ st1) as [st2 out2]. cbn [snd] in *.
  apply Forall_app. split; assumption.
Qed.

Lemma walkDir_headers n :
  Names.wellNamedBelow n = true ->
  forall path route st,
    Names.under (basePath p) path route ->
    route <> [] \/ Disk.isDirectory n = true ->
    Forall (Names.headerIsRoute (basePath p)) (snd (walkDir GOOS p dk n path st)).
Proof.
  induction n as [name perm content|name|name readable entries IH] using node_ind_entries;
    intros Hnamed path route st Hunder Hroute; cbn [walkDir].
  - pose proof (visit_header path route (Disk.entryOf (Disk.File name perm content))
                  None st Hunder) as Hv.
    specialize (Hv ltac:(destruct Hroute as [H|H]; [left; exact H|discriminate H])).
    destruct (visit _ _ _ _ _ _ _) as [[[err|] st1] out1]; exact Hv.
  - pose proof (visit_header path route (Disk.entryOf (Disk.Symlink name)) None st Hunder)
      as Hv.
    specialize (Hv ltac:(destruct Hroute as [H|H]; [left; exact H|discriminate H])).
    destruct (visit _ _ _ _ _ _ _) as [[[err|] st1] out1]; exact Hv.
  - pose proof (visit_header path route
                  (Disk.entryOf (Disk.Directory name readable entries)) None st Hunder
                  (or_intror eq_refl)) as Hv.
    destruct (visit _ _ _ _ _ None _) as [[[err|] st1] out1]; cbn [snd] in Hv |- *;
      [exact Hv|].
    destruct readable.
    + rewrite (byName_entries GOOS p dk entries).
      pose proof (walkEntries_headers (Notions.byName entries)) as Hw.
      assert (Hall : Forall (fun c =>
                        Names.plainName (Disk.nodeName c) = true
                        /\ forall path route st,
                            Names.under (basePath p) path route -> route <> [] ->
                            Forall (Names.headerIsRoute (basePath p))
                                   (snd (walkDir GOOS p dk c path st))) entries).
      { cbn [Names.wellNamedBelow] in Hnamed. rewrite forallb_forall in Hnamed.
        rewrite Stdlib.Lists.List.Forall_forall in IH |- *. intros c Hc.
        specialize (Hnamed c Hc). apply andb_true_iff in Hnamed.
        destruct Hnamed as [Hplain Hbelow]. split; [exact Hplain|].
        intros path' route' st' Hunder' Hroute'.
        apply (IH c Hc Hbelow path' route' st' Hunder'). left. exact Hroute'. }
      specialize (Hw ltac:(apply Forall_sortBy; exact Hall) path route st1 Hunder).
      destruct (walkEntries path _ st1) as [st2 out2]. cbn [snd] in *.
      apply Forall_app. split; assumption.
    + pose proof (visit_header path route (Disk.entryOf (Disk.Directory name false entries))
                    (Some ErrPermission) st1 Hunder (or_intror eq_refl)) as Hv2.
      destruct (visit _ _ _ _ _ (Some _) _) as [[[err|] st2] out2]; cbn [snd] in *;
        apply Forall_app; split; assumption.
Qed.

End HeaderFacts.

(** X28. The header of every block is the route to its file: for a
    project whose entries bear ordinary names, walked from a clean base
    path, the header is made of the names of the directories from the base
    path down and of the file's name, joined by separators, and the file's
    path is the base path followed by the same names. *)
Theorem headers_are_routes GOOS p dk st :
  Filepath.Clean (basePath p) = basePath p ->
  Disk.isDirectory (Disk.root dk) = true ->
  Names.wellNamedBelow (Disk.root dk) = true ->
  Forall (Names.headerIsRoute (basePath p)) (snd (Process GOOS p dk st)).
Proof.
  intros Hclean Hdir Hnamed.
  destruct (Process_blocks GOOS p dk st) as (stw & _ & ->).
  apply (walkDir_headers GOOS p dk Hclean (Disk.root dk) Hnamed (basePath p) []).
  - apply under_base. exact Hclean.
  - right. exact Hdir.
Qed.

Lemma headers_are_routes_witness :
  Forall (Names.headerIsRoute "/w/p")
         (snd (Process "linux" Names.globProcessor Names.globDisk initialState)).
Proof.
  apply (headers_are_routes "linux" Names.globProcessor Names.globDisk initialState);
    reflexivity.
Defined.

(** ** Patterns given on the command line *)

Lemma Rel_of_clean_base base targ :
  Filepath.Rel (Filepath.Clean base) targ = Filepath.Rel base targ.
Proof.
  unfold Filepath.Rel. destruct (Clean_of_Clean base) as (_ & _ & ->). reflexivity.
Qed.

Lemma passed_file_clear_of_globs GOOS p dk b :
  Filefilter.basePath (filter p) = Filepath.Clean (basePath p) ->
  Names.passedTheFilter GOOS p dk b ->
  Names.clearOfUserGlobs (filter p) b.
Proof.
  intros Hbase (name & perm & content & st0 & relPath & Hpass & Hrel & Hheader & _).
  cbv zeta in Hpass. revert Hpass. unfold IsExcluded.
  cbn [Disk.entryOf Info Disk.infoOf fi_IsDir fi_Mode fi_Size andb].
  rewrite Hbase, Rel_of_clean_base, Hrel.
  destruct (negb _ && String.eqb _ _); [discriminate|].
  destruct (negb (Z.land _ ModeSymlink =? 0)); [discriminate|].
  destruct (existsb (matcherHits _) _); [discriminate|].
  destruct (_ && _); [discriminate|].
  rewrite excludedByKind_any. cbv zeta. intros [= Hkind].
  repeat (apply orb_false_iff in Hkind; destruct Hkind as [Hkind ?]).
  match goal with
  | H : existsb (userGlobMatches _ _) _ = false |- _ => rename H into Hglobs
  end.
  intros pattern Hin Hne.
  assert (Hone : userGlobMatches (Filepath.ToSlash relPath) (Filepath.Base (source b)) pattern
                 = false).
  { destruct (userGlobMatches _ _ pattern) eqn:Hm; [|reflexivity].
    rewrite <- Hglobs. symmetry. apply existsb_exists. exists pattern. split; assumption. }
  unfold userGlobMatches in Hone.
  destruct (String.eqb_spec pattern ""); [contradiction|].
  apply orb_false_iff in Hone. rewrite Hheader. exact Hone.
Qed.

(** X29. The patterns of [--exclude-patterns] that are made of stars
    and plain bytes are honoured in the content: where the filter was set
    up on the base path of the run and the user's list holds such patterns
    only, no block is written whose header, or whose file name, matches a
    non-empty pattern of the list. *)
Theorem user_globs_are_honoured GOOS p dk st :
  forallb Filepath.starOnly
          (Filefilter.UserExcludeGlobs (Filefilter.config (filter p))) = true ->
  Filefilter.basePath (filter p) = Filepath.Clean (basePath p) ->
  Forall (Names.clearOfUserGlobs (filter p)) (snd (Process GOOS p dk st)).
Proof.
  intros Hstars Hbase. destruct (Process_blocks GOOS p dk st) as (stw & _ & ->).
  eapply Stdlib.Lists.List.Forall_impl;
    [|apply (walkDir_writes_passed_files GOOS p dk)].
  intros b. apply passed_file_clear_of_globs. exact Hbase.
Qed.

(** A project with a test file and a directory of documents, both named
    by the patterns of the run. *)
Lemma user_globs_are_honoured_witness :
  Forall (Names.clearOfUserGlobs (filter Names.globProcessor))
         (snd (Process "linux" Names.globProcessor Names.globDisk initialState)).
Proof.
  apply user_globs_are_honoured; reflexivity.
Defined.

(** ** The tree does not depend on what the cache holds *)

Lemma IsExcluded_by_target_set GOOS ff absPath d active active' :
  Discipline.sameTargets active active' ->
  IsExcluded GOOS ff absPath d active = IsExcluded GOOS ff absPath d active'.
Proof.
  intros Hsame. unfold IsExcluded.
  assert (Hone : forall a a',
             (forall t, In (Some t) (Discipline.targets a)
                        -> In (Some t) (Discipline.targets a')) ->
             existsb (matcherHits absPath) (rev a) = true ->
             existsb (matcherHits absPath) (rev a') = true).
  { intros a a' Hsub. rewrite !matcherHits_by_target. unfold Discipline.targets in *.
    rewrite !map_rev. intros Hex. apply existsb_exists in Hex.
    destruct Hex as ([t|] & Hin & Ht); [|discriminate].
    apply existsb_exists. exists (Some t). split; [|exact Ht].
    apply in_rev. rewrite rev_involutive. apply Hsub.
    apply in_rev in Hin. rewrite ?rev_involutive in Hin. exact Hin. }
  assert (Hhits : existsb (matcherHits absPath) (rev active)
                  = existsb (matcherHits absPath) (rev active')).
  { destruct (existsb (matcherHits absPath) (rev active)) eqn:Ha.
    - symmetry. apply (Hone active active'); [intros t; apply Hsame|exact Ha].
    - destruct (existsb (matcherHits absPath) (rev active')) eqn:Ha'; [|reflexivity].
      rewrite <- Ha. apply (Hone active' active); [intros t; apply Hsame|exact Ha']. }
  rewrite Hhits. reflexivity.
Qed.

Lemma cached_after fs st st' active :
  Discipline.byCompiling fs st st' ->
  Discipline.cached st active -> Discipline.cached st' active.
Proof.
  intros [dirs ->] Hc r Hr. destruct (Hc r Hr) as [path Hpath].
  exists path. apply compileEach_keeps_entries. exact Hpath.
Qed.

Lemma last_is_in {A} (l : list A) d : l <> [] -> In (List.last l d) l.
Proof.
  induction l as [|x l IH]; intros Hne; [congruence|].
  destruct l as [|y l]; [left; reflexivity|]. right. apply IH. discriminate.
Qed.

(** What the stack of the tree builder matches with after a directory:
    what it matched with before, and the directory's own file. *)
Lemma extendActive_targets fs dirPath st parent :
  Discipline.cacheCoherent fs st ->
  Discipline.cached st parent ->
  let r := compileAndCacheGitIgnore fs dirPath st in
  Discipline.cached (snd r) (extendActive parent (fst (fst r)))
  /\ (forall t, In (Some t) (Discipline.targets (extendActive parent (fst (fst r))))
      <-> In (Some t) (Discipline.targets parent)
          \/ option_map Gitignore.target (fst (fst r)) = Some t).
Proof.
  intros Hst Hparent. cbv zeta.
  pose proof (compile_records fs dirPath st) as Hrec.
  pose proof (compile_cacheCoherent fs dirPath st Hst) as (_ & _ & Hapart).
  assert (Hkept : Discipline.cached (snd (compileAndCacheGitIgnore fs dirPath st)) parent)
    by (apply (cached_after fs st); [exists [dirPath]; reflexivity|exact Hparent]).
  destruct (compileAndCacheGitIgnore fs dirPath st) as [[matcher e] st1].
  cbn [fst snd] in *. destruct matcher as [m|]; cbn [extendActive option_map].
  2:{ split; [exact Hkept|]. intros t. split; [tauto|].
      intros [H|H]; [exact H|discriminate]. }
  destruct (negb _) eqn:Hnew.
  - split.
    + intros r Hr. apply in_app_or in Hr. destruct Hr as [Hr|[[= <-]|[]]];
        [apply Hkept; exact Hr|]. eexists. exact Hrec.
    + intros t. unfold Discipline.targets. rewrite map_app, in_app_iff.
      cbn [map In option_map].
      split; [intros [H|[H|[]]]; tauto|intros [H|H]; tauto].
  - split; [exact Hkept|]. intros t. split; [tauto|]. intros [H|[= <-]]; [exact H|].
    apply negb_false_iff, andb_true_iff in Hnew. destruct Hnew as [Hlen Hsame].
    assert (Hne : parent <> []) by (destruct parent; [discriminate|discriminate]).
    pose proof (last_is_in parent None Hne) as Hin.
    destruct (List.last parent None) as [m0|]; [|discriminate].
    cbn [Gitignore.sameRef] in Hsame. apply Nat.eqb_eq in Hsame.
    destruct (Hkept m0 Hin) as [path0 Hpath0].
    pose proof (Hapart _ _ _ _ Hpath0 Hrec Hsame) as Hpath. subst path0.
    rewrite Hrec in Hpath0. injection Hpath0 as <-.
    unfold Discipline.targets. apply in_map_iff. exists (Some m). split; [reflexivity|exact Hin].
Qed.

Section SameTree.

Variable GOOS : string.
Variable p : Processor.
Variable dk : Disk.disk.

(** What is to be shown of the nodes built for one directory: they are the
    same from any two states that hold what the disk holds, under stacks
    that match with the same files. *)
Let builtAlike (n : Disk.node) : Prop :=
  forall path active active' st st',
    Discipline.cacheCoherent (fileSystemOf dk) st ->
    Discipline.cacheCoherent (fileSystemOf dk) st' ->
    Discipline.cached st active -> Discipline.cached st' active' ->
    Discipline.sameTargets active active' ->
    snd (buildNodeRecursive GOOS p dk n path active st)
    = snd (buildNodeRecursive GOOS p dk n path active' st').

Lemma buildEntries_alike nodes :
  Forall builtAlike nodes ->
  forall path active active' st st',
    Discipline.cacheCoherent (fileSystemOf dk) st ->
    Discipline.cacheCoherent (fileSystemOf dk) st' ->
    Discipline.cached st active -> Discipline.cached st' active' ->
    Discipline.sameTargets active active' ->
    snd (buildEntries GOOS p path active
           (map (fun c => (Disk.entryOf c, buildNodeRecursive GOOS p dk c)) nodes) st)
    = snd (buildEntries GOOS p path active'
             (map (fun c => (Disk.entryOf c, buildNodeRecursive GOOS p dk c)) nodes) st').
Proof.
  induction 1 as [|c nodes Hc Hnodes IH];
    intros path active active' st st' Hst Hst' Hca Hca' Hsame; [reflexivity|].
  cbn [map buildEntries].
  rewrite (IsExcluded_by_target_set GOOS (filter p) _ (Disk.entryOf c) _ _ Hsame).
  destruct (IsExcluded GOOS (filter p) _ (Disk.entryOf c) active') as [[|] [filterErr|]];
    try (apply IH; assumption).
  assert (Hgrand : snd (if IsDir (Disk.entryOf c)
                        then buildNodeRecursive GOOS p dk c
                               (Filepath.Join path (Name (Disk.entryOf c))) active st
                        else (st, []))
                   = snd (if IsDir (Disk.entryOf c)
                          then buildNodeRecursive GOOS p dk c
                                 (Filepath.Join path (Name (Disk.entryOf c))) active' st'
                          else (st', []))).
  { destruct (IsDir (Disk.entryOf c)); [apply Hc; assumption|reflexivity]. }
  assert (Hby : Discipline.byCompiling (fileSystemOf dk) st
                  (fst (if IsDir (Disk.entryOf c)
                        then buildNodeRecursive GOOS p dk c
                               (Filepath.Join path (Name (Disk.entryOf c))) active st
                        else (st, [])))).
  { destruct (IsDir (Disk.entryOf c));
      [apply buildNodeRecursive_byCompiling|apply byCompiling_refl]. }
  assert (Hby' : Discipline.byCompiling (fileSystemOf dk) st'
                   (fst (if IsDir (Disk.entryOf c)
                         then buildNodeRecursive GOOS p dk c
                                (Filepath.Join path (Name (Disk.entryOf c))) active' st'
                         else (st', [])))).
  { destruct (IsDir (Disk.entryOf c));
      [apply buildNodeRecursive_byCompiling|apply byCompiling_refl]. }
  destruct (if IsDir (Disk.entryOf c) then _ else (st, [])) as [st1 grand].
  destruct (if IsDir (Disk.entryOf c) then _ else (st', [])) as [st1' grand'].
  cbn [fst snd] in *. subst grand'.
  pose proof (IH path active active' st1 st1'
                (byCompiling_cacheCoherent _ _ _ Hby Hst)
                (byCompiling_cacheCoherent _ _ _ Hby' Hst')
                (cached_after _ _ _ _ Hby Hca) (cached_after _ _ _ _ Hby' Hca') Hsame)
    as Hrest.
  destruct (buildEntries GOOS p path active _ st1) as [st2 siblings].
  destruct (buildEntries GOOS p path active' _ st1') as [st2' siblings'].
  cbn [snd] in *. subst siblings'. reflexivity.
Qed.

Lemma buildNodeRecursive_alike n : builtAlike n.
Proof.
  induction n as [name perm content|name|name readable entries IH] using node_ind_entries;
    intros path active active' st st' Hst Hst' Hca Hca' Hsame; cbn [buildNodeRecursive];
    try reflexivity.
  destruct readable; [|reflexivity].
  rewrite (treeOrder_entries GOOS p dk entries).
  assert (Hext : forall t,
             In (Some t) (Discipline.targets
                            (extendActive active
                               (fst (fst (compileAndCacheGitIgnore (fileSystemOf dk) path st)))))
             <-> In (Some t) (Discipline.targets
                               (extendActive active'
                                  (fst (fst (compileAndCacheGitIgnore (fileSystemOf dk) path
                                               st')))))).
  { intros t.
    rewrite (proj2 (extendActive_targets (fileSystemOf dk) path st active Hst Hca) t),
            (proj2 (extendActive_targets (fileSystemOf dk) path st' active' Hst' Hca') t),
            (compile_from_disk _ path st Hst), (compile_from_disk _ path st' Hst').
    rewrite (Hsame t). reflexivity. }
  pose proof (proj1 (extendActive_targets (fileSystemOf dk) path st active Hst Hca))
    as Hc1.
  pose proof (proj1 (extendActive_targets (fileSystemOf dk) path st' active' Hst' Hca'))
    as Hc1'.
  pose proof (compile_cacheCoherent (fileSystemOf dk) path st Hst) as Hst1.
  pose proof (compile_cacheCoherent (fileSystemOf dk) path st' Hst') as Hst1'.
  unfold compile.
  destruct (compileAndCacheGitIgnore (fileSystemOf dk) path st) as [[m e] st1].
  destruct (compileAndCacheGitIgnore (fileSystemOf dk) path st') as [[m' e'] st1'].
  cbn [fst snd] in *.
  apply buildEntries_alike; try assumption.
  apply Forall_sortBy, Forall_sortBy. exact IH.
Qed.

End SameTree.

(** X30. The tree does not depend on the cache: from any two states
    that hold what the disk holds, [BuildTreeString] builds the same tree
    and writes the same text; comparing the matchers by their addresses
    when the stack is extended changes nothing of it. *)
Theorem tree_is_independent_of_cache GOOS p dk st st' :
  Discipline.cacheCoherent (fileSystemOf dk) st ->
  Discipline.cacheCoherent (fileSystemOf dk) st' ->
  snd (buildTree GOOS p dk st) = snd (buildTree GOOS p dk st')
  /\ snd (BuildTreeString GOOS p dk st) = snd (BuildTreeString GOOS p dk st').
Proof.
  intros Hst Hst'.
  assert (Htree : snd (buildTree GOOS p dk st) = snd (buildTree GOOS p dk st')).
  { unfold buildTree.
    pose proof (compile_from_disk _ (Filepath.Clean (basePath p)) st Hst) as Hm.
    pose proof (compile_from_disk _ (Filepath.Clean (basePath p)) st' Hst') as Hm'.
    pose proof (compile_records (fileSystemOf dk) (Filepath.Clean (basePath p)) st) as Hrec.
    pose proof (compile_records (fileSystemOf dk) (Filepath.Clean (basePath p)) st') as Hrec'.
    pose proof (compile_cacheCoherent _ (Filepath.Clean (basePath p)) st Hst) as Hst1.
    pose proof (compile_cacheCoherent _ (Filepath.Clean (basePath p)) st' Hst') as Hst1'.
    unfold compile.
    destruct (compileAndCacheGitIgnore _ (Filepath.Clean (basePath p)) st) as [[m e] st1].
    destruct (compileAndCacheGitIgnore _ (Filepath.Clean (basePath p)) st') as [[m' e'] st1'].
    cbn [fst snd] in *.
    pose proof (buildNodeRecursive_alike GOOS p dk (Disk.root dk) (Filepath.Clean (basePath p))
                  (match m with Some _ => [m] | None => [] end)
                  (match m' with Some _ => [m'] | None => [] end) st1 st1' Hst1 Hst1')
      as Hkids.
    assert (Hsame : snd (buildNodeRecursive GOOS p dk (Disk.root dk)
                           (Filepath.Clean (basePath p))
                           (match m with Some _ => [m] | None => [] end) st1)
                    = snd (buildNodeRecursive GOOS p dk (Disk.root dk)
                             (Filepath.Clean (basePath p))
                             (match m' with Some _ => [m'] | None => [] end) st1')).
    { apply Hkids.
      - intros r Hr. destruct m as [m0|]; [|destruct Hr].
        destruct Hr as [[= <-]|[]]. eexists. exact Hrec.
      - intros r Hr. destruct m' as [m0|]; [|destruct Hr].
        destruct Hr as [[= <-]|[]]. eexists. exact Hrec'.
      - rewrite <- Hm' in Hm. intros t.
        destruct m as [m0|], m' as [m0'|]; try discriminate; [|reflexivity].
        cbn in Hm |- *. injection Hm as ->. reflexivity. }
    destruct (buildNodeRecursive GOOS p dk (Disk.root dk) _ _ st1) as [st2 children].
    destruct (buildNodeRecursive GOOS p dk (Disk.root dk) _ _ st1') as [st2' children'].
    cbn [snd] in *. subst children'. reflexivity. }
  split; [exact Htree|]. unfold BuildTreeString.
  destruct (buildTree GOOS p dk st) as [s1 rootNode].
  destruct (buildTree GOOS p dk st') as [s1' rootNode'].
  cbn [snd] in *. subst rootNode'. reflexivity.
Qed.

(** The nested project: the tree built with an empty cache and the one
    built after both ignore files were compiled. *)
Lemma tree_is_independent_of_cache_witness :
  let warm := Notions.compileEach (fileSystemOf Discipline.nestedDisk)
                [ "/w/p/sub"; "/w/p" ] initialState in
  snd (buildTree "linux" (Notions.testProcessor "/w/p") Discipline.nestedDisk initialState)
  = snd (buildTree "linux" (Notions.testProcessor "/w/p") Discipline.nestedDisk warm)
  /\ snd (BuildTreeString "linux" (Notions.testProcessor "/w/p") Discipline.nestedDisk
            initialState)
     = snd (BuildTreeString "linux" (Notions.testProcessor "/w/p") Discipline.nestedDisk warm).
Proof.
  cbv zeta. apply tree_is_independent_of_cache; [apply initial_cacheCoherent|].
  apply (byCompiling_cacheCoherent _ initialState);
    [eexists; reflexivity|apply initial_cacheCoherent].
Defined.

(** ** The files behind the blocks *)





Section FileFacts.

Variable GOOS : string.
Variable p : Processor.
Variable dk : Disk.disk.
Hypothesis Hclean : Filepath.Clean (basePath p) = basePath p.
Hypothesis Hroot : Disk.rootPath dk = basePath p.




End FileFacts.


